(** * The out-of-band interaction client of quickssrf (InteractshService.ts)

    A shallow embedding of [useClientService] and the properties of its
    lifecycle, poll cycle, session export and URL generation.

    The service is a closure over a handful of mutable cells; every method is
    embedded as a computation in a state-and-exception monad over those
    cells.  What the service obtains from outside (HTTP responses, random
    characters, the URL and JSON built-ins, the crypto service) is either a
    field of the machine the computation runs on or a member of the
    [Platform] class. *)

From Stdlib Require Import ZArith List String Ascii Bool Lia.
Import ListNotations.

Local Open Scope list_scope.
Local Open Scope string_scope.

#[local] Set Warnings "-register-all".

(** ** JavaScript values *)

(** [number]: the values of a TypeScript [number] the service can tell
    apart, the integers and NaN. *)
Inductive number : Type :=
| Num (z : Z)
| NaN.

Module Number.

(** ToBoolean on a number: 0 and NaN are falsy. *)
Definition truthy (n : number) : bool :=
  match n with
  | Num z => negb (z =? 0)%Z
  | NaN => false
  end.

(** [a < b]; any comparison with NaN is false. *)
Definition lt (a b : number) : bool :=
  match a, b with
  | Num x, Num y => (x <? y)%Z
  | _, _ => false
  end.

Definition gt (a b : number) : bool := lt b a.

Definition mul (a b : number) : number :=
  match a, b with
  | Num x, Num y => Num (x * y)
  | _, _ => NaN
  end.

(** [n || d] on an optional number. *)
Definition or_default (n : option number) (d : number) : number :=
  match n with
  | Some v => if truthy v then v else d
  | None => d
  end.

(** The invariant the specification puts on the polling interval. *)
Definition positive (n : number) : Prop :=
  match n with
  | Num z => (0 < z)%Z
  | NaN => False
  end.

End Number.

(** ToBoolean on a string: only the empty string is falsy. *)
Definition truthy_string (s : string) : bool :=
  match s with
  | EmptyString => false
  | String _ _ => true
  end.

(** ToBoolean on an optional string ([undefined] is falsy). *)
Definition truthy_opt (s : option string) : bool :=
  match s with
  | Some v => truthy_string v
  | None => false
  end.

(** [s || d] on an optional string. *)
Definition or_string (s : option string) (d : string) : string :=
  match s with
  | Some v => if truthy_string v then v else d
  | None => d
  end.

(** Template-literal interpolation of an optional string. *)
Definition interpolate (s : option string) : string :=
  match s with
  | Some v => v
  | None => "undefined"
  end.

(** JSON data, as axios hands it over in [response.data] and as
    [JSON.parse] returns it. *)
Inductive Json : Type :=
| JNull
| JBool (b : bool)
| JNum (n : Z)
| JStr (s : string)
| JArr (items : list Json)
| JObj (fields : list (string * Json)).

Module Js.

Fixpoint lookup (k : string) (fs : list (string * Json)) : option Json :=
  match fs with
  | [] => None
  | (k', v) :: rest => if String.eqb k k' then Some v else lookup k rest
  end.

(** [v.k]: [None] is a TypeError (property read on null), [Some None]
    is [undefined]. *)
Definition get_prop (v : Json) (k : string) : option (option Json) :=
  match v with
  | JNull => None
  | JObj fs => Some (lookup k fs)
  | _ => Some None
  end.

Definition truthy (v : option Json) : bool :=
  match v with
  | None | Some JNull => false
  | Some (JBool b) => b
  | Some (JNum n) => negb (n =? 0)%Z
  | Some (JStr s) => truthy_string s
  | Some (JArr _) | Some (JObj _) => true
  end.

Definition isArray (v : option Json) : bool :=
  match v with
  | Some (JArr _) => true
  | _ => false
  end.

Definition items (v : option Json) : list Json :=
  match v with
  | Some (JArr l) => l
  | _ => []
  end.

Definition keys (v : Json) : list string :=
  match v with
  | JObj fs => map fst fs
  | _ => []
  end.

End Js.

(** ** JSON.stringify(value, null, 2) on ASCII data *)

Module Stringify.

Definition dquote : ascii := "034"%char.
Definition backslash : ascii := "092"%char.
Definition newline : ascii := "010"%char.

Definition hex_digit (n : nat) : ascii :=
  match n with
  | 0 => "0" | 1 => "1" | 2 => "2" | 3 => "3" | 4 => "4" | 5 => "5"
  | 6 => "6" | 7 => "7" | 8 => "8" | 9 => "9" | 10 => "a" | 11 => "b"
  | 12 => "c" | 13 => "d" | 14 => "e" | _ => "f"
  end%char.

Definition two (a b : ascii) : string := String a (String b EmptyString).

(** QuoteJSONString on one code unit. *)
Definition escape_char (c : ascii) : string :=
  let n := nat_of_ascii c in
  if Nat.eqb n 34 then two backslash dquote
  else if Nat.eqb n 92 then two backslash backslash
  else if Nat.eqb n 8 then two backslash "b"
  else if Nat.eqb n 9 then two backslash "t"
  else if Nat.eqb n 10 then two backslash "n"
  else if Nat.eqb n 12 then two backslash "f"
  else if Nat.eqb n 13 then two backslash "r"
  else if Nat.ltb n 32 then
    two backslash "u" ++ "00" ++ two (hex_digit (n / 16)) (hex_digit (n mod 16))
  else String c EmptyString.

Fixpoint escape (s : string) : string :=
  match s with
  | EmptyString => EmptyString
  | String c rest => escape_char c ++ escape rest
  end.

Definition quote (s : string) : string :=
  String dquote (escape s ++ String dquote EmptyString).

Fixpoint spaces (n : nat) : string :=
  match n with
  | O => EmptyString
  | S k => String " " (spaces k)
  end.

Definition digit (n : nat) : ascii := ascii_of_nat (48 + n).

Fixpoint digits (fuel n : nat) (acc : string) : string :=
  match fuel with
  | O => acc
  | S f =>
      let acc' := String (digit (n mod 10)) acc in
      if Nat.ltb n 10 then acc' else digits f (n / 10) acc'
  end.

Definition decimal (z : Z) : string :=
  let n := Z.to_nat (Z.abs z) in
  let d := digits (S n) n EmptyString in
  if (z <? 0)%Z then String "-" d else d.

Definition line_break (indent : nat) : string :=
  String newline (spaces indent).

(** Members separated by a comma and a line break at depth [indent]. *)
Fixpoint join (indent : nat) (parts : list string) : string :=
  match parts with
  | [] => EmptyString
  | [p] => p
  | p :: rest => p ++ "," ++ line_break indent ++ join indent rest
  end.

Definition wrap (opening closing : string) (indent : nat)
    (parts : list string) : string :=
  match parts with
  | [] => opening ++ closing
  | _ =>
      opening ++ line_break (indent + 2) ++ join (indent + 2) parts
      ++ line_break indent ++ closing
  end.

Fixpoint render (indent : nat) (v : Json) : string :=
  match v with
  | JNull => "null"
  | JBool true => "true"
  | JBool false => "false"
  | JNum n => decimal n
  | JStr s => quote s
  | JArr l => wrap "[" "]" indent (map (render (indent + 2)) l)
  | JObj fs =>
      wrap "{" "}" indent
        (map (fun kv => quote (fst kv) ++ ": " ++ render (indent + 2) (snd kv)) fs)
  end.

End Stringify.

Definition JSON_stringify (v : Json) : string := Stringify.render 0 v.

(** ** The platform the service runs on *)

(** What the service calls but does not define.  [URL] is the WHATWG URL
    class: [URL_new s] is [new URL(s)] and [URL_new_base p b] is
    [new URL(p, b)], [None] standing for the TypeError thrown on an invalid
    URL.  [JSON_parse] is [JSON.parse] ([None]: SyntaxError) and
    [String_of] the string conversion a template literal applies. *)
Class Platform : Type := {
  URL : Type;
  URL_new : string -> option URL;
  URL_new_base : string -> string -> option URL;
  URL_toString : URL -> string;
  URL_host : URL -> string;
  JSON_parse : string -> option Json;
  String_of : Json -> string;
  (** The crypto service of services/CryptoService, which is not among
      the sources, with the interface the specification gives it: it
      yields an encoded public key, decrypts one polled item with the
      shared key of the envelope (the result already converted by
      [toString]), and tells whether private key material exists; [None]
      is a rejection, respectively absent key material. *)
  encodePublicKey : option string;
  decryptMessage : option Json -> Json -> option string;
  getPrivateKey : option string
}.

(** ** Errors, requests and the console *)

(** One constructor per [throw] of the service, and one per way a platform
    call can fail.  In the source all of them are plain [Error] objects
    told apart by their message. *)
Inductive Err : Type :=
| RegistrationFailed            (* "Registration failed" *)
| ServerURLUndefined            (* "Server URL is not defined" *)
| AuthenticationFailed          (* "Couldn't authenticate to the server" *)
| PollFailed (data : Json)      (* `Could not poll interactions: ${data}` *)
| AlreadyPolling                (* "Client is already polling" *)
| NotPolling                    (* "Client is not polling" *)
| IntervalOutOfRange            (* "The polling interval must be between ..." *)
| StopPollingFirst              (* "Client should stop polling before closing" *)
| AlreadyClosed                 (* "Client is already closed" *)
| DeregisterFailed (data : Json) (* `Could not deregister from server: ${data}` *)
| SessionIncomplete             (* "Session data is incomplete" *)
| TransportError (reason : string) (* the HTTP client rejected *)
| InvalidURL                    (* TypeError of [new URL] *)
| NullDereference               (* TypeError of a property read on null *)
| CryptoError                   (* the crypto service rejected *)
| JsonSyntaxError               (* SyntaxError of [JSON.parse] *)
| HandlerError (reason : string). (* the caller's handler threw *)

(** The four kinds a poll cycle can fail with. *)
Inductive PollErrorKind : Type :=
| KAuthentication | KPolling | KDecode | KOther.

Definition poll_error_kind (e : Err) : PollErrorKind :=
  match e with
  | AuthenticationFailed => KAuthentication
  | PollFailed _ => KPolling
  | CryptoError | JsonSyntaxError => KDecode
  | _ => KOther
  end.

Record Request : Type := {
  req_method : string;
  req_url : string;
  req_body : option Json;
  req_headers : list (string * string)
}.

(** What the HTTP client answers: a response object, whatever its status,
    or a rejection (network failure, timeout). *)
Inductive HttpResult : Type :=
| Response (status : Z) (data : Json)
| Rejected (reason : string).

(** The calls to [console.error], by call site. *)
Inductive LogEntry : Type :=
| RegistrationErrorLog (e : Err)        (* "Registration error:" *)
| ErrorPollingInteractionsLog (e : Err) (* `Error polling interactions: ${err}` *)
| PollingErrorLog (e : Err).            (* "Polling error:" *)

(** An interaction handler: [Some reason] when it throws on the record. *)
Definition Handler : Type := Json -> option string.

Inductive State : Type := Idle | Polling | Closed.

Definition State_eqb (a b : State) : bool :=
  match a, b with
  | Idle, Idle | Polling, Polling | Closed, Closed => true
  | _, _ => false
  end.

Record SessionInfo : Type := {
  si_serverURL : string;
  si_token : string;
  si_privateKey : string;
  si_correlationID : string;
  si_secretKey : string
}.

(** The options [initialize] reads.  [httpClient] is left out (see
    [request] below) and so is [disableHTTPFallback], which the service
    never reads. *)
Record Options : Type := {
  opt_serverURL : option string;
  opt_token : option string;
  opt_correlationIdLength : option number;
  opt_correlationIdNonceLength : option number;
  opt_sessionInfo : option SessionInfo;
  opt_keepAliveInterval : option number
}.

Definition no_options : Options :=
  {| opt_serverURL := None; opt_token := None;
     opt_correlationIdLength := None; opt_correlationIdNonceLength := None;
     opt_sessionInfo := None; opt_keepAliveInterval := None |}.

(** ** The world outside the closure *)

(** [network] holds the answers the HTTP client will give to the next
    requests, in order; [sent] the requests issued so far.  [entropy] is
    the random source and [drawn] how much of it was consumed.  [console],
    [calls], [loops] and [timers] record what the service did: its error
    log, the records handed to a handler, the polling loops it launched
    and the delays it slept for. *)
Record World : Type := {
  network : list HttpResult;
  sent : list Request;
  entropy : nat -> ascii;
  drawn : nat;
  console : list LogEntry;
  calls : list Json;
  loops : list Handler;
  timers : list number
}.

Module W.

Definition take_response (w : World) : World :=
  {| network := tl (network w); sent := sent w; entropy := entropy w;
     drawn := drawn w; console := console w; calls := calls w;
     loops := loops w; timers := timers w |}.

Definition send (r : Request) (w : World) : World :=
  {| network := network w; sent := sent w ++ [r]; entropy := entropy w;
     drawn := drawn w; console := console w; calls := calls w;
     loops := loops w; timers := timers w |}.

Definition consume (n : nat) (w : World) : World :=
  {| network := network w; sent := sent w; entropy := entropy w;
     drawn := drawn w + n; console := console w; calls := calls w;
     loops := loops w; timers := timers w |}.

Definition log (l : LogEntry) (w : World) : World :=
  {| network := network w; sent := sent w; entropy := entropy w;
     drawn := drawn w; console := console w ++ [l]; calls := calls w;
     loops := loops w; timers := timers w |}.

Definition deliver (i : Json) (w : World) : World :=
  {| network := network w; sent := sent w; entropy := entropy w;
     drawn := drawn w; console := console w; calls := calls w ++ [i];
     loops := loops w; timers := timers w |}.

Definition launch (h : Handler) (w : World) : World :=
  {| network := network w; sent := sent w; entropy := entropy w;
     drawn := drawn w; console := console w; calls := calls w;
     loops := loops w ++ [h]; timers := timers w |}.

Definition sleep (d : number) (w : World) : World :=
  {| network := network w; sent := sent w; entropy := entropy w;
     drawn := drawn w; console := console w; calls := calls w;
     loops := loops w; timers := timers w ++ [d] |}.

(** [n] characters of the random source, from position [from] on. *)
Fixpoint draw (f : nat -> ascii) (from n : nat) : string :=
  match n with
  | O => EmptyString
  | S k => String (f from) (draw f (S from) k)
  end.

End W.

Inductive Result (A : Type) : Type :=
| Ok (a : A)
| Throw (e : Err).
Arguments Ok {A} a.
Arguments Throw {A} e.

Section Service.

Context {P : Platform}.

(** ** The cells of the closure *)

(** The [Ref]s and [let]s of [useClientService].  [httpClient] is not a
    field: whichever client is installed, its answers are those of
    [network]. *)
Record Client : Type := {
  state : State;
  correlationID : option string;
  secretKey : option string;
  serverURL : option URL;
  token : option string;
  quitPollingFlag : bool;
  correlationIdNonceLength : number;
  interactionCallback : option Handler;
  pollingInterval : number
}.

(** The cells as [useClientService] creates them. *)
Definition useClientService : Client :=
  {| state := Idle; correlationID := None; secretKey := None;
     serverURL := None; token := None; quitPollingFlag := false;
     correlationIdNonceLength := Num 13; interactionCallback := None;
     pollingInterval := Num 5000 |}.

Definition set_state (v : State) (c : Client) : Client :=
  {| state := v; correlationID := correlationID c; secretKey := secretKey c;
     serverURL := serverURL c; token := token c;
     quitPollingFlag := quitPollingFlag c;
     correlationIdNonceLength := correlationIdNonceLength c;
     interactionCallback := interactionCallback c;
     pollingInterval := pollingInterval c |}.

Definition set_correlationID (v : option string) (c : Client) : Client :=
  {| state := state c; correlationID := v; secretKey := secretKey c;
     serverURL := serverURL c; token := token c;
     quitPollingFlag := quitPollingFlag c;
     correlationIdNonceLength := correlationIdNonceLength c;
     interactionCallback := interactionCallback c;
     pollingInterval := pollingInterval c |}.

Definition set_secretKey (v : option string) (c : Client) : Client :=
  {| state := state c; correlationID := correlationID c; secretKey := v;
     serverURL := serverURL c; token := token c;
     quitPollingFlag := quitPollingFlag c;
     correlationIdNonceLength := correlationIdNonceLength c;
     interactionCallback := interactionCallback c;
     pollingInterval := pollingInterval c |}.

Definition set_serverURL (v : option URL) (c : Client) : Client :=
  {| state := state c; correlationID := correlationID c;
     secretKey := secretKey c; serverURL := v; token := token c;
     quitPollingFlag := quitPollingFlag c;
     correlationIdNonceLength := correlationIdNonceLength c;
     interactionCallback := interactionCallback c;
     pollingInterval := pollingInterval c |}.

Definition set_token (v : option string) (c : Client) : Client :=
  {| state := state c; correlationID := correlationID c;
     secretKey := secretKey c; serverURL := serverURL c; token := v;
     quitPollingFlag := quitPollingFlag c;
     correlationIdNonceLength := correlationIdNonceLength c;
     interactionCallback := interactionCallback c;
     pollingInterval := pollingInterval c |}.

Definition set_quitPollingFlag (v : bool) (c : Client) : Client :=
  {| state := state c; correlationID := correlationID c;
     secretKey := secretKey c; serverURL := serverURL c; token := token c;
     quitPollingFlag := v;
     correlationIdNonceLength := correlationIdNonceLength c;
     interactionCallback := interactionCallback c;
     pollingInterval := pollingInterval c |}.

Definition set_correlationIdNonceLength (v : number) (c : Client) : Client :=
  {| state := state c; correlationID := correlationID c;
     secretKey := secretKey c; serverURL := serverURL c; token := token c;
     quitPollingFlag := quitPollingFlag c;
     correlationIdNonceLength := v;
     interactionCallback := interactionCallback c;
     pollingInterval := pollingInterval c |}.

Definition set_interactionCallback (v : option Handler) (c : Client) : Client :=
  {| state := state c; correlationID := correlationID c;
     secretKey := secretKey c; serverURL := serverURL c; token := token c;
     quitPollingFlag := quitPollingFlag c;
     correlationIdNonceLength := correlationIdNonceLength c;
     interactionCallback := v;
     pollingInterval := pollingInterval c |}.

Definition set_pollingInterval (v : number) (c : Client) : Client :=
  {| state := state c; correlationID := correlationID c;
     secretKey := secretKey c; serverURL := serverURL c; token := token c;
     quitPollingFlag := quitPollingFlag c;
     correlationIdNonceLength := correlationIdNonceLength c;
     interactionCallback := interactionCallback c;
     pollingInterval := v |}.

(** ** The monad of the service's methods *)

Record Machine : Type := { client : Client; world : World }.

(** A method runs on the cells and the world and either returns or
    throws; what it wrote before throwing stays written. *)
Definition M (A : Type) : Type := Machine -> Result A * Machine.

Definition ret {A} (a : A) : M A := fun m => (Ok a, m).

Definition bind {A B} (c : M A) (k : A -> M B) : M B :=
  fun m =>
    match c m with
    | (Ok a, m') => k a m'
    | (Throw e, m') => (Throw e, m')
    end.

Definition throw {A} (e : Err) : M A := fun m => (Throw e, m).

(** [try { body } catch (err) { handler }] *)
Definition try_catch {A} (body : M A) (handler : Err -> M A) : M A :=
  fun m =>
    match body m with
    | (Ok a, m') => (Ok a, m')
    | (Throw e, m') => handler e m'
    end.

Definition read : M Client := fun m => (Ok (client m), m).

Definition write (f : Client -> Client) : M unit :=
  fun m => (Ok tt, {| client := f (client m); world := world m |}).

Definition effect (f : World -> World) : M unit :=
  fun m => (Ok tt, {| client := client m; world := f (world m) |}).

End Service.

Declare Scope service_scope.
Delimit Scope service_scope with service.
Notation "x <- c ;; k" := (bind c (fun x => k))
  (at level 61, c at next level, right associativity) : service_scope.
Notation "c ;; k" := (bind c (fun _ => k))
  (at level 61, right associativity) : service_scope.

Section Methods.

Context {P : Platform}.

Local Open Scope service_scope.

(** ** What the methods call *)

Definition console_error (l : LogEntry) : M unit := effect (W.log l).

(** [httpClient.get] and [httpClient.post]: the request is recorded and
    answered by the head of [network]; with nothing left to answer, the
    client's timeout rejects it. *)
Definition request (r : Request) : M (Z * Json) :=
  fun m =>
    let m' := {| client := client m;
                 world := W.take_response (W.send r (world m)) |} in
    match network (world m) with
    | Response status data :: _ => (Ok (status, data), m')
    | Rejected reason :: _ => (Throw (TransportError reason), m')
    | [] => (Throw (TransportError "timeout"), m')
    end.

(** The next [n] characters of the random source. *)
Definition random (n : nat) : M string :=
  fun m =>
    (Ok (W.draw (entropy (world m)) (drawn (world m)) n),
     {| client := client m; world := W.consume n (world m) |}).

Definition length_of (n : number) : nat :=
  match n with
  | Num z => Z.to_nat z
  | NaN => O
  end.

(** Modelled from the spec: [generateRandomID] of utils, which is not
    among the sources.  It produces a random identifier of the given
    length; here its characters are the next ones of the random source
    (none for a length that is not positive). *)
Definition generateRandomID (length : number) : M string :=
  random (length_of length).

(** [v4] of the uuid package: 36 characters of the random source. *)
Definition uuidv4 : M string := random 36.

Definition new_URL (s : string) : M URL :=
  match URL_new s with
  | Some u => ret u
  | None => throw InvalidURL
  end.

Definition new_URL_base (path base : string) : M URL :=
  match URL_new_base path base with
  | Some u => ret u
  | None => throw InvalidURL
  end.

(** [v.k] *)
Definition prop (v : Json) (k : string) : M (option Json) :=
  match Js.get_prop v k with
  | Some r => ret r
  | None => throw NullDereference
  end.

(** A call of an interaction handler. *)
Definition invoke (h : Handler) (interaction : Json) : M unit :=
  effect (W.deliver interaction) ;;
  match h interaction with
  | Some reason => throw (HandlerError reason)
  | None => ret tt
  end.

(** [s || gen()] *)
Definition or_else (s : option string) (gen : M string) : M string :=
  match s with
  | Some v => if truthy_string v then ret v else gen
  | None => gen
  end.

(** A property of an object literal; JSON drops it when [undefined]. *)
Definition field (k : string) (v : option string) : list (string * Json) :=
  match v with
  | Some s => [(k, JStr s)]
  | None => []
  end.

(** [serverURL.value?.toString()], or the empty string when that is
    falsy: the base the poll and deregister URLs are resolved against. *)
Definition base_of (c : Client) : string :=
  or_string (option_map URL_toString (serverURL c)) EmptyString.

(** The [Authorization] header, set when the token is truthy. *)
Definition authorization (c : Client) : list (string * string) :=
  if truthy_opt (token c) then [("Authorization", interpolate (token c))]
  else [].

(** ** The methods of the service *)

Definition defaultInteractionHandler : Handler := fun _ => None.

Definition performRegistration (payload : Json) : M unit :=
  c <- read ;;
  match serverURL c with
  | None => throw ServerURLUndefined
  | Some u =>
      url <- new_URL_base "/register" (URL_toString u) ;;
      try_catch
        (response <- request
           {| req_method := "POST"; req_url := URL_toString url;
              req_body := Some payload;
              req_headers := [("Content-Type", "application/json")] |} ;;
         if (fst response =? 200)%Z then write (set_state Idle)
         else throw RegistrationFailed)
        (fun error => console_error (RegistrationErrorLog error))
  end.

(** The body of [for (const item of data.data)]. *)
Fixpoint for_each_item (callback : Handler) (data : Json)
    (items : list Json) : M unit :=
  match items with
  | [] => ret tt
  | item :: rest =>
      aes_key <- prop data "aes_key" ;;
      plaintext <- match decryptMessage aes_key item with
                   | Some text => ret text
                   | None => throw CryptoError
                   end ;;
      interaction <- match JSON_parse plaintext with
                     | Some v => ret v
                     | None => throw JsonSyntaxError
                     end ;;
      invoke callback interaction ;;
      for_each_item callback data rest
  end.

Definition getInteractions (callback : Handler) : M unit :=
  try_catch
    (c <- read ;;
     url <- new_URL_base
              ("/poll?id=" ++ interpolate (correlationID c)
               ++ "&secret=" ++ interpolate (secretKey c))
              (base_of c) ;;
     response <- request
       {| req_method := "GET"; req_url := URL_toString url;
          req_body := None; req_headers := authorization c |} ;;
     let (status, data) := response in
     if negb (status =? 200)%Z then
       if (status =? 401)%Z then throw AuthenticationFailed
       else throw (PollFailed data)
     else
       items <- prop data "data" ;;
       if Js.truthy items && Js.isArray items
       then for_each_item callback data (Js.items items)
       else ret tt)
    (fun err => console_error (ErrorPollingInteractionsLog err)).

(** One turn of the [while] of [pollingLoop]: [false] when the loop
    leaves, [true] when it is back at its test after the sleep. *)
Definition pollingLoop_turn (callback : Handler) : M bool :=
  c <- read ;;
  if quitPollingFlag c then ret false
  else
    try_catch (getInteractions callback)
      (fun err => console_error (PollingErrorLog err)) ;;
    c' <- read ;;
    effect (W.sleep (pollingInterval c')) ;;
    ret true.

(** [pollingLoop] for at most [turns] turns; [true] when it is still
    running after them. *)
Fixpoint pollingLoop (turns : nat) (callback : Handler) : M bool :=
  match turns with
  | O => ret true
  | S k =>
      running <- pollingLoop_turn callback ;;
      if running then pollingLoop k callback else ret false
  end.

(** [startPolling]; the loop it launches is recorded in [loops] and runs
    by [pollingLoop], a turn at a time. *)
Definition startPolling (callback : Handler) : M unit :=
  c <- read ;;
  if State_eqb (state c) Polling then throw AlreadyPolling
  else
    write (set_quitPollingFlag false) ;;
    write (set_state Polling) ;;
    effect (W.launch callback).

(** [interactionCallback || defaultInteractionHandler] *)
Definition handler_of (c : Client) : Handler :=
  match interactionCallback c with
  | Some h => h
  | None => defaultInteractionHandler
  end.

Definition poll : M unit :=
  c <- read ;;
  if negb (State_eqb (state c) Polling) then throw NotPolling
  else
    try_catch (getInteractions (handler_of c))
      (fun err => console_error (PollingErrorLog err)).

Definition stopPolling : M unit :=
  c <- read ;;
  if negb (State_eqb (state c) Polling) then throw NotPolling
  else
    write (set_quitPollingFlag true) ;;
    write (set_state Idle).

Definition setRefreshTimeSecond (seconds : number) : M unit :=
  if Number.lt seconds (Num 5) || Number.gt seconds (Num 3600)
  then throw IntervalOutOfRange
  else write (set_pollingInterval (Number.mul seconds (Num 1000))).

Definition close : M unit :=
  c <- read ;;
  if State_eqb (state c) Polling then throw StopPollingFirst
  else if State_eqb (state c) Closed then throw AlreadyClosed
  else
    let deregisterRequest :=
      JObj (field "correlationID" (correlationID c)
            ++ field "secretKey" (secretKey c))%list in
    url <- new_URL_base "/deregister" (base_of c) ;;
    response <- request
      {| req_method := "POST"; req_url := URL_toString url;
         req_body := Some deregisterRequest;
         req_headers :=
           (("Content-Type", "application/json") :: authorization c) |} ;;
    if negb (fst response =? 200)%Z
    then throw (DeregisterFailed (snd response))
    else write (set_state Closed).

Definition initialize (options : Options)
    (interactionCallbackParam : option Handler) : M unit :=
  t <- or_else (opt_token options) uuidv4 ;;
  write (set_token (Some t)) ;;
  id <- or_else (option_map si_correlationID (opt_sessionInfo options))
          (generateRandomID
             (Number.or_default (opt_correlationIdLength options) (Num 20))) ;;
  write (set_correlationID (Some id)) ;;
  key <- or_else (option_map si_secretKey (opt_sessionInfo options))
           (generateRandomID
              (Number.or_default (opt_correlationIdNonceLength options)
                 (Num 13))) ;;
  write (set_secretKey (Some key)) ;;
  u <- new_URL (or_string (opt_serverURL options) "https://oast.site") ;;
  write (set_serverURL (Some u)) ;;
  write (set_correlationIdNonceLength
           (Number.or_default (opt_correlationIdNonceLength options) (Num 13))) ;;
  match interactionCallbackParam with
  | Some h => write (set_interactionCallback (Some h))
  | None => ret tt
  end ;;
  match opt_sessionInfo options with
  | Some session =>
      write (set_token (Some (si_token session))) ;;
      u' <- new_URL (si_serverURL session) ;;
      write (set_serverURL (Some u'))
  | None => ret tt
  end ;;
  publicKey <- match encodePublicKey with
               | Some k => ret k
               | None => throw CryptoError
               end ;;
  c <- read ;;
  let payload :=
    JObj ([("public-key", JStr publicKey)]
          ++ field "secret-key" (secretKey c)
          ++ field "correlation-id" (correlationID c))%list in
  performRegistration payload ;;
  match opt_keepAliveInterval options with
  | Some interval =>
      if Number.truthy interval then
        write (set_pollingInterval interval) ;;
        c' <- read ;;
        startPolling (handler_of c')
      else ret tt
  | None => ret tt
  end.

Definition start (options : Options)
    (interactionCallbackParam : option Handler) : M unit :=
  initialize options interactionCallbackParam.

Definition stop : M unit :=
  c <- read ;;
  (if State_eqb (state c) Polling then stopPolling else ret tt) ;;
  close.

(** The object literal [session] of [saveSession]. *)
Definition session (u : URL) (id key : string) (c : Client) : SessionInfo :=
  {| si_serverURL := URL_toString u;
     si_token := or_string (token c) EmptyString;
     si_privateKey :=
       match getPrivateKey with
       | Some _ => EmptyString
       | None => EmptyString
       end;
     si_correlationID := id;
     si_secretKey := key |}.

(** A [SessionInfo] as the object [JSON.stringify] sees. *)
Definition json_of_session (s : SessionInfo) : Json :=
  JObj [("serverURL", JStr (si_serverURL s));
        ("token", JStr (si_token s));
        ("privateKey", JStr (si_privateKey s));
        ("correlationID", JStr (si_correlationID s));
        ("secretKey", JStr (si_secretKey s))].

Definition saveSession : M string :=
  c <- read ;;
  match serverURL c, correlationID c, secretKey c with
  | Some u, Some id, Some key =>
      if truthy_string id && truthy_string key
      then ret (JSON_stringify (json_of_session (session u id key c)))
      else throw SessionIncomplete
  | _, _, _ => throw SessionIncomplete
  end.

Definition generateUrl : M string :=
  c <- read ;;
  match correlationID c, serverURL c with
  | Some id, Some u =>
      if State_eqb (state c) Closed || negb (truthy_string id)
      then ret EmptyString
      else
        randomData <- generateRandomID (correlationIdNonceLength c) ;;
        ret ("https://" ++ id ++ randomData ++ "." ++ URL_host u)
  | _, _ => ret EmptyString
  end.

End Methods.

(** ** A platform to run the service on

    A fake provider for concrete runs: URLs are [https://host/path], the
    crypto service "decrypts" a string item to itself when a shared key is
    present, and [JSON.parse] knows the texts of a few records. *)

Module Fake.

Fixpoint strip_prefix (p s : string) : option string :=
  match p, s with
  | EmptyString, _ => Some s
  | String a p', String b s' =>
      if Ascii.eqb a b then strip_prefix p' s' else None
  | String _ _, EmptyString => None
  end.

(** Host and path: the text before and from the first slash. *)
Fixpoint split_host (s : string) : string * string :=
  match s with
  | EmptyString => (EmptyString, EmptyString)
  | String c rest =>
      if Ascii.eqb c "/" then (EmptyString, s)
      else let (h, p) := split_host rest in (String c h, p)
  end.

Definition url_new (s : string) : option (string * string) :=
  match strip_prefix "https://" s with
  | Some rest =>
      let (h, p) := split_host rest in
      if truthy_string h
      then Some (h, if truthy_string p then p else "/")
      else None
  | None => None
  end.

Definition url_new_base (path base : string) : option (string * string) :=
  match url_new base with
  | Some (h, _) => Some (h, path)
  | None => None
  end.

Definition dns_record : Json :=
  JObj [("protocol", JStr "dns"); ("full-id", JStr "abc.oast.site")].

Definition http_record : Json :=
  JObj [("protocol", JStr "http"); ("full-id", JStr "def.oast.site")].

Definition known : list Json := [dns_record; http_record].

Definition json_parse (s : string) : option Json :=
  find (fun v => String.eqb (JSON_stringify v) s) known.

Definition decrypt (key : option Json) (item : Json) : option string :=
  match key, item with
  | Some (JStr _), JStr text => Some text
  | _, _ => None
  end.

Definition platform : Platform :=
  {| URL := string * string;
     URL_new := url_new;
     URL_new_base := url_new_base;
     URL_toString := fun u => "https://" ++ fst u ++ snd u;
     URL_host := fst;
     JSON_parse := json_parse;
     String_of := JSON_stringify;
     encodePublicKey := Some "cHVibGljLWtleQ==";
     decryptMessage := decrypt;
     getPrivateKey := Some "cHJpdmF0ZS1rZXk=" |}.

Definition letters : list ascii :=
  list_ascii_of_string "abcdefghijklmnopqrstuvwxyz".

(** A world with the given answers pending and a random source that
    cycles through the lower-case letters. *)
Definition world_with (answers : list HttpResult) : World :=
  {| network := answers; sent := [];
     entropy := fun n => nth (n mod 26) letters "a"%char; drawn := 0;
     console := []; calls := []; loops := []; timers := [] |}.


Definition fresh (answers : list HttpResult) : @Machine platform :=
  {| client := useClientService; world := world_with answers |}.

(** An envelope with the given items and a shared key. *)
Definition envelope (items : list Json) : Json :=
  JObj [("data", JArr items); ("aes_key", JStr "c2hhcmVk")].

End Fake.

(** ** The operations a caller or the scheduler can perform *)

Section Operations.

Context {P : Platform}.

Inductive Op : Type :=
| Initialize (options : Options) (interactionCallbackParam : option Handler)
| PerformRegistration (payload : Json)
| StartPolling (callback : Handler)
| StopPolling
| SetRefreshTimeSecond (seconds : number)
| Start (options : Options) (interactionCallbackParam : option Handler)
| Stop
| Close
| SaveSession
| GenerateUrl
| Poll
| LoopTurn (callback : Handler).

(** The machine an operation leaves behind, whether it returned or threw. *)
Definition after (op : Op) (m : Machine) : Machine :=
  match op with
  | Initialize options cb => snd (initialize options cb m)
  | PerformRegistration payload => snd (performRegistration payload m)
  | StartPolling cb => snd (startPolling cb m)
  | StopPolling => snd (stopPolling m)
  | SetRefreshTimeSecond seconds => snd (setRefreshTimeSecond seconds m)
  | Start options cb => snd (start options cb m)
  | Stop => snd (stop m)
  | Close => snd (close m)
  | SaveSession => snd (saveSession m)
  | GenerateUrl => snd (generateUrl m)
  | Poll => snd (poll m)
  | LoopTurn cb => snd (pollingLoop_turn cb m)
  end.


(** The five operations of the lifecycle state machine. *)
Definition lifecycle (op : Op) : bool :=
  match op with
  | Initialize _ _ | StartPolling _ | StopPolling | Close | Poll => true
  | _ => false
  end.

(** [options.keepAliveInterval] is truthy. *)
Definition keeps_alive (options : Options) : bool :=
  match opt_keepAliveInterval options with
  | Some interval => Number.truthy interval
  | None => false
  end.

(** The path of the poll request. *)
Definition poll_path (c : Client) : string :=
  "/poll?id=" ++ interpolate (correlationID c)
  ++ "&secret=" ++ interpolate (secretKey c).

(** The next answer of the network is not a 200 response. *)
Definition answer_not_200 (w : World) : Prop :=
  match network w with
  | Response status _ :: _ => status <> 200%Z
  | _ => True
  end.

(** The error a registration fails with on the next answer. *)
Definition registration_error (w : World) : Err :=
  match network w with
  | Response _ _ :: _ => RegistrationFailed
  | Rejected reason :: _ => TransportError reason
  | [] => TransportError "timeout"
  end.

(** The record a polled item decodes to: decryption, then [JSON.parse]. *)
Definition decode (aes_key : option Json) (item : Json) : option Json :=
  match decryptMessage aes_key item with
  | Some plaintext => JSON_parse plaintext
  | None => None
  end.

(** The error an item that does not decode is reported with. *)
Definition decode_error (aes_key : option Json) (item : Json) : Err :=
  match decryptMessage aes_key item with
  | Some _ => JsonSyntaxError
  | None => CryptoError
  end.

(** The messages of the two errors a poll response can be refused with. *)
Definition message (e : Err) : string :=
  match e with
  | AuthenticationFailed => "Couldn't authenticate to the server"
  | PollFailed data => "Could not poll interactions: " ++ String_of data
  | _ => EmptyString
  end.

(** The request of a poll cycle. *)
Definition poll_request (c : Client) (url : URL) : Request :=
  {| req_method := "GET"; req_url := URL_toString url; req_body := None;
     req_headers := authorization c |}.

(** What [s || generateRandomID(n)] evaluates to in world [w], and how many
    characters of the random source it uses. *)
Definition chosen (s : option string) (n : nat) (w : World) : string :=
  if truthy_opt s then interpolate s else W.draw (entropy w) (drawn w) n.

Definition used (s : option string) (n : nat) : nat :=
  if truthy_opt s then O else n.

(** Between two machines, the cell [f] kept its value or took one that is
    [allowed]. *)
Definition stays {X : Type} (f : Client -> X) (allowed : X -> Prop)
    (m m' : Machine) : Prop :=
  f (client m') = f (client m) \/ allowed (f (client m')).

(** A computation under which [f] stays, from every machine. *)
Definition keeps {X A : Type} (f : Client -> X) (allowed : X -> Prop)
    (c : M A) : Prop :=
  forall m, stays f allowed m (snd (c m)).

(** The lengths [initialize] asks identifiers of. *)
Definition id_length (options : Options) : nat :=
  length_of (Number.or_default (opt_correlationIdLength options) (Num 20)).

Definition key_length (options : Options) : nat :=
  length_of
    (Number.or_default (opt_correlationIdNonceLength options) (Num 13)).

(** The identifiers of the session to resume, if there is one. *)
Definition resumed_id (options : Options) : option string :=
  option_map si_correlationID (opt_sessionInfo options).

Definition resumed_key (options : Options) : option string :=
  option_map si_secretKey (opt_sessionInfo options).

(** The world once [initialize] has settled the token, then the
    correlation id, then the secret key. *)
Definition after_token (options : Options) (w : World) : World :=
  W.consume (used (opt_token options) 36) w.

Definition after_id (options : Options) (w : World) : World :=
  W.consume (used (resumed_id options) (id_length options))
    (after_token options w).

Definition seeded (options : Options) (w : World) : World :=
  W.consume (used (resumed_key options) (key_length options))
    (after_id options w).

(** The correlation id and the secret key [initialize] assigns. *)
Definition assigned_id (options : Options) (w : World) : string :=
  chosen (resumed_id options) (id_length options) (after_token options w).

Definition assigned_key (options : Options) (w : World) : string :=
  chosen (resumed_key options) (key_length options) (after_id options w).

(** The token [initialize] ends up with, once past its first URL. *)
Definition assigned_token (options : Options) (w : World) : string :=
  match opt_sessionInfo options with
  | Some session => si_token session
  | None => chosen (opt_token options) 36 w
  end.

(** The cells once [initialize] has made its assignments, [u] being the
    server URL it settled on: what they hold when the registration request
    is built. *)
Definition established (options : Options)
    (interactionCallbackParam : option Handler) (u : URL) (c : Client)
    (w : World) : Client :=
  {| state := state c;
     correlationID := Some (assigned_id options w);
     secretKey := Some (assigned_key options w);
     serverURL := Some u;
     token := Some (assigned_token options w);
     quitPollingFlag := quitPollingFlag c;
     correlationIdNonceLength :=
       Number.or_default (opt_correlationIdNonceLength options) (Num 13);
     interactionCallback :=
       match interactionCallbackParam with
       | Some h => Some h
       | None => interactionCallback c
       end;
     pollingInterval := pollingInterval c |}.

(** The object literal [payload] of [initialize]. *)
Definition registration_payload (publicKey : string) (c : Client) : Json :=
  JObj ([("public-key", JStr publicKey)]
        ++ field "secret-key" (secretKey c)
        ++ field "correlation-id" (correlationID c))%list.

(** The request of the registration exchange. *)
Definition register_request (url : URL) (payload : Json) : Request :=
  {| req_method := "POST"; req_url := URL_toString url;
     req_body := Some payload;
     req_headers := [("Content-Type", "application/json")] |}.

(** The last statement of [initialize]. *)
Definition keep_alive (options : Options) : M unit :=
  match opt_keepAliveInterval options with
  | Some interval =>
      if Number.truthy interval then
        bind (write (set_pollingInterval interval))
          (fun _ => bind read (fun c => startPolling (handler_of c)))
      else ret tt
  | None => ret tt
  end.

(** A cell that no lifecycle transition writes. *)
Definition untouched_by_lifecycle {X : Type} (f : Client -> X) : Prop :=
  (forall s c, f (set_state s c) = f c) /\
  (forall b c, f (set_quitPollingFlag b c) = f c).

(** What is asked of an operation for a positive polling interval to stay
    positive: of [initialize], that a truthy keep-alive interval is
    positive; of [setRefreshTimeSecond], that its argument is a number. *)
Definition keeps_interval_positive (op : Op) : Prop :=
  match op with
  | Initialize options _ | Start options _ =>
      forall interval,
        opt_keepAliveInterval options = Some interval ->
        Number.truthy interval = true -> Number.positive interval
  | SetRefreshTimeSecond seconds => seconds <> NaN
  | _ => True
  end.

(** The server URL [initialize] settles on: that of the resumed session,
    else the option, else the default. *)
Definition target (options : Options) : string :=
  match opt_sessionInfo options with
  | Some session => si_serverURL session
  | None => or_string (opt_serverURL options) "https://oast.site"
  end.


(** The options [{ sessionInfo }]. *)
Definition resume_options (s : SessionInfo) : Options :=
  {| opt_serverURL := None; opt_token := None;
     opt_correlationIdLength := None; opt_correlationIdNonceLength := None;
     opt_sessionInfo := Some s; opt_keepAliveInterval := None |}.

(** A computation that leaves the observation [g] of the machine as it
    finds it, from every machine. *)
Definition unchanged {X A : Type} (g : Machine -> X) (c : M A) : Prop :=
  forall m, g (snd (c m)) = g m.

(** An observation that looks at the cells alone, or at the world alone. *)
Definition of_client {X : Type} (f : Client -> X) : Machine -> X :=
  fun m => f (client m).

Definition of_world {X : Type} (f : World -> X) : Machine -> X :=
  fun m => f (world m).

(** What stops a batch at an item, if anything: the item does not decode,
    or the handler throws on its record. *)
Definition item_failure (callback : Handler) (aes_key : option Json)
    (item : Json) : option Err :=
  match decode aes_key item with
  | None => Some (decode_error aes_key item)
  | Some interaction =>
      match callback interaction with
      | Some reason => Some (HandlerError reason)
      | None => None
      end
  end.

(** The record the handler is called with for an item: none when the item
    does not decode. *)
Definition delivered_of (aes_key : option Json) (item : Json) : list Json :=
  match decode aes_key item with
  | Some interaction => [interaction]
  | None => []
  end.

(** The world after the handler was called on each of [records]. *)
Definition deliver_all (records : list Json) (w : World) : World :=
  fold_left (fun w' a => W.deliver a w') records w.

(** The request of the deregistration exchange. *)
Definition deregister_request (c : Client) (url : URL) : Request :=
  {| req_method := "POST"; req_url := URL_toString url;
     req_body :=
       Some (JObj (field "correlationID" (correlationID c)
                   ++ field "secretKey" (secretKey c))%list);
     req_headers := ("Content-Type", "application/json") :: authorization c |}.

(** The error a request fails with when the next answer is a rejection or
    is missing. *)
Definition transport_error (w : World) : option Err :=
  match network w with
  | Rejected reason :: _ => Some (TransportError reason)
  | [] => Some (TransportError "timeout")
  | Response _ _ :: _ => None
  end.

End Operations.

Module Scenario.

#[local] Existing Instance Fake.platform.

(** A client registered on the fake platform, with [answers] pending. *)
Definition registered (answers : list HttpResult) : Machine :=
  snd (initialize no_options None (Fake.fresh (Response 200 JNull :: answers))).

(** The same client, polling with the default handler. *)
Definition polling (answers : list HttpResult) : Machine :=
  snd (startPolling defaultInteractionHandler (registered answers)).

(** The same client, closed, with [answers] pending. *)
Definition closed (answers : list HttpResult) : Machine :=
  snd (close (registered (Response 200 JNull :: answers))).


(** A response with three items, the second of which is not JSON. *)
Definition batch : HttpResult :=
  Response 200
    (Fake.envelope [JStr (JSON_stringify Fake.dns_record); JStr "junk";
                    JStr (JSON_stringify Fake.http_record)]).

(** Options that only ask for a keep-alive interval. *)
Definition keep_alive_options (interval : number) : Options :=
  {| opt_serverURL := None; opt_token := None;
     opt_correlationIdLength := None; opt_correlationIdNonceLength := None;
     opt_sessionInfo := None; opt_keepAliveInterval := Some interval |}.

(** A session to resume whose identifiers and token are empty. *)
Definition blank_session : SessionInfo :=
  {| si_serverURL := "https://oast.site"; si_token := EmptyString;
     si_privateKey := EmptyString; si_correlationID := EmptyString;
     si_secretKey := EmptyString |}.

(** The object the specification says [saveSession] exports. *)
Definition four_keys (serverURL token correlationID secretKey : string) : Json :=
  JObj [("serverURL", JStr serverURL); ("token", JStr token);
        ("correlationID", JStr correlationID); ("secretKey", JStr secretKey)].

End Scenario.

(** * The view

    [useLogic] of the front end: the table of interactions, its two
    editors, the badge of the sidebar button and the client service the
    "generate" button creates. *)

Module View.

(** [Response] of types: what the table keeps of an interaction.  Each
    property is whatever the record holds under its key, [None] standing
    for [undefined]. *)
Record Response : Type := {
  protocol : option Json;
  uniqueId : option Json;
  fullId : option Json;
  qType : option Json;
  rawRequest : option Json;
  rawResponse : option Json;
  remoteAddress : option Json;
  timestamp : option Json
}.

(** A row of [tableData]. *)
Record Row : Type := {
  req : Z;
  dateTime : string;
  type : string;
  payload : option Json;
  source : option Json
}.

(** The [changes] of a transaction on an editor view. *)
Record Change : Type := {
  from : nat;
  to : nat;
  insert : option Json
}.

(** What the view calls but does not define.  [httpResponseEditor] and
    [httpRequestEditor] are the editors of the SDK, as created;
    [doc_length] is [state.doc.length] of an editor's view and [dispatch]
    its transaction ([None]: it throws).  [toISOString v] is
    [new Date(v).toISOString()], [None] standing for the RangeError of an
    invalid date, and [toUpperCase] the method of strings. *)
Class Browser : Type := {
  EditorView : Type;
  httpResponseEditor : EditorView;
  httpRequestEditor : EditorView;
  doc_length : EditorView -> nat;
  dispatch : Change -> EditorView -> option EditorView;
  toISOString : option Json -> option string;
  toUpperCase : string -> string
}.

Inductive Failure : Type :=
| TypeError               (* a read on undefined or null, a call of no function *)
| RangeError              (* [toISOString] on an invalid date *)
| DispatchError           (* the editor view threw *)
| ServiceError (e : Err). (* a method of the client service threw *)

Inductive Outcome (A : Type) : Type :=
| Done (a : A)
| Failed (e : Failure).
Arguments Done {A} a.
Arguments Failed {A} e.

Section Cells.

Context {P : Platform} {B : Browser}.

(** The refs and variables of [useLogic], the count and the badge of the
    sidebar button ([QuickSSRFBtnCount] and the calls of
    [QuickSSRFBtn.setCount]), and what the view did outside: the texts it
    copied to the clipboard, its toasts, the objects it logged.
    [clientService] holds the cells of the client service; [outside] is
    the world that service runs in. *)
Record Cells : Type := {
  responseEditorRef : option EditorView;
  requestEditorRef : option EditorView;
  cachedRow : option Response;
  clientService : option Client;
  sourceData : list Response;
  selectedRow : option Response;
  QuickSSRFBtnCount : Z;
  badge : list Z;
  copied : list string;
  toasts : list string;
  logged : list (option Client);
  outside : World
}.

Definition set_responseEditorRef (v : option EditorView) (c : Cells) : Cells :=
  {| responseEditorRef := v; requestEditorRef := requestEditorRef c;
     cachedRow := cachedRow c; clientService := clientService c;
     sourceData := sourceData c; selectedRow := selectedRow c;
     QuickSSRFBtnCount := QuickSSRFBtnCount c; badge := badge c;
     copied := copied c; toasts := toasts c; logged := logged c;
     outside := outside c |}.

Definition set_requestEditorRef (v : option EditorView) (c : Cells) : Cells :=
  {| responseEditorRef := responseEditorRef c; requestEditorRef := v;
     cachedRow := cachedRow c; clientService := clientService c;
     sourceData := sourceData c; selectedRow := selectedRow c;
     QuickSSRFBtnCount := QuickSSRFBtnCount c; badge := badge c;
     copied := copied c; toasts := toasts c; logged := logged c;
     outside := outside c |}.

Definition set_cachedRow (v : option Response) (c : Cells) : Cells :=
  {| responseEditorRef := responseEditorRef c;
     requestEditorRef := requestEditorRef c; cachedRow := v;
     clientService := clientService c; sourceData := sourceData c;
     selectedRow := selectedRow c; QuickSSRFBtnCount := QuickSSRFBtnCount c;
     badge := badge c; copied := copied c; toasts := toasts c;
     logged := logged c; outside := outside c |}.

Definition set_clientService (v : option Client) (c : Cells) : Cells :=
  {| responseEditorRef := responseEditorRef c;
     requestEditorRef := requestEditorRef c; cachedRow := cachedRow c;
     clientService := v; sourceData := sourceData c;
     selectedRow := selectedRow c; QuickSSRFBtnCount := QuickSSRFBtnCount c;
     badge := badge c; copied := copied c; toasts := toasts c;
     logged := logged c; outside := outside c |}.

Definition set_sourceData (v : list Response) (c : Cells) : Cells :=
  {| responseEditorRef := responseEditorRef c;
     requestEditorRef := requestEditorRef c; cachedRow := cachedRow c;
     clientService := clientService c; sourceData := v;
     selectedRow := selectedRow c; QuickSSRFBtnCount := QuickSSRFBtnCount c;
     badge := badge c; copied := copied c; toasts := toasts c;
     logged := logged c; outside := outside c |}.

Definition set_selectedRow (v : option Response) (c : Cells) : Cells :=
  {| responseEditorRef := responseEditorRef c;
     requestEditorRef := requestEditorRef c; cachedRow := cachedRow c;
     clientService := clientService c; sourceData := sourceData c;
     selectedRow := v; QuickSSRFBtnCount := QuickSSRFBtnCount c;
     badge := badge c; copied := copied c; toasts := toasts c;
     logged := logged c; outside := outside c |}.

Definition set_QuickSSRFBtnCount (v : Z) (c : Cells) : Cells :=
  {| responseEditorRef := responseEditorRef c;
     requestEditorRef := requestEditorRef c; cachedRow := cachedRow c;
     clientService := clientService c; sourceData := sourceData c;
     selectedRow := selectedRow c; QuickSSRFBtnCount := v; badge := badge c;
     copied := copied c; toasts := toasts c; logged := logged c;
     outside := outside c |}.

Definition set_badge (v : list Z) (c : Cells) : Cells :=
  {| responseEditorRef := responseEditorRef c;
     requestEditorRef := requestEditorRef c; cachedRow := cachedRow c;
     clientService := clientService c; sourceData := sourceData c;
     selectedRow := selectedRow c; QuickSSRFBtnCount := QuickSSRFBtnCount c;
     badge := v; copied := copied c; toasts := toasts c; logged := logged c;
     outside := outside c |}.

Definition set_copied (v : list string) (c : Cells) : Cells :=
  {| responseEditorRef := responseEditorRef c;
     requestEditorRef := requestEditorRef c; cachedRow := cachedRow c;
     clientService := clientService c; sourceData := sourceData c;
     selectedRow := selectedRow c; QuickSSRFBtnCount := QuickSSRFBtnCount c;
     badge := badge c; copied := v; toasts := toasts c; logged := logged c;
     outside := outside c |}.

Definition set_toasts (v : list string) (c : Cells) : Cells :=
  {| responseEditorRef := responseEditorRef c;
     requestEditorRef := requestEditorRef c; cachedRow := cachedRow c;
     clientService := clientService c; sourceData := sourceData c;
     selectedRow := selectedRow c; QuickSSRFBtnCount := QuickSSRFBtnCount c;
     badge := badge c; copied := copied c; toasts := v; logged := logged c;
     outside := outside c |}.

Definition set_logged (v : list (option Client)) (c : Cells) : Cells :=
  {| responseEditorRef := responseEditorRef c;
     requestEditorRef := requestEditorRef c; cachedRow := cachedRow c;
     clientService := clientService c; sourceData := sourceData c;
     selectedRow := selectedRow c; QuickSSRFBtnCount := QuickSSRFBtnCount c;
     badge := badge c; copied := copied c; toasts := toasts c; logged := v;
     outside := outside c |}.

Definition set_outside (v : World) (c : Cells) : Cells :=
  {| responseEditorRef := responseEditorRef c;
     requestEditorRef := requestEditorRef c; cachedRow := cachedRow c;
     clientService := clientService c; sourceData := sourceData c;
     selectedRow := selectedRow c; QuickSSRFBtnCount := QuickSSRFBtnCount c;
     badge := badge c; copied := copied c; toasts := toasts c;
     logged := logged c; outside := v |}.

(** The cells as [useLogic] creates them. *)
Definition useLogic (count : Z) (w : World) : Cells :=
  {| responseEditorRef := None; requestEditorRef := None; cachedRow := None;
     clientService := None; sourceData := []; selectedRow := None;
     QuickSSRFBtnCount := count; badge := []; copied := []; toasts := [];
     logged := []; outside := w |}.

(** A function of the view runs on the cells and returns or throws; what
    it wrote before throwing stays written. *)
Definition V (A : Type) : Type := Cells -> Outcome A * Cells.

Definition done {A} (a : A) : V A := fun v => (Done a, v).

Definition bind {A B} (c : V A) (k : A -> V B) : V B :=
  fun v =>
    match c v with
    | (Done a, v') => k a v'
    | (Failed e, v') => (Failed e, v')
    end.

Definition fail {A} (e : Failure) : V A := fun v => (Failed e, v).

Definition get : V Cells := fun v => (Done v, v).

Definition update (f : Cells -> Cells) : V unit := fun v => (Done tt, f v).

End Cells.

End View.

Declare Scope view_scope.
Delimit Scope view_scope with view.
Notation "x <- c ;; k" := (View.bind c (fun x => k))
  (at level 61, c at next level, right associativity) : view_scope.
Notation "c ;; k" := (View.bind c (fun _ => k))
  (at level 61, right associativity) : view_scope.

Module UseLogic.

Import View.

Section Functions.

Context {P : Platform} {B : Browser}.

Local Open Scope view_scope.

(** [json[k]], then the rest. *)
Definition reading (json : Json) (k : string)
    (next : option Json -> Outcome Response) : Outcome Response :=
  match Js.get_prop json k with
  | Some v => next v
  | None => Failed TypeError
  end.

Definition parseDnsResponse (json : Json) : Outcome Response :=
  reading json "protocol" (fun protocol =>
  reading json "unique-id" (fun uniqueId =>
  reading json "full-id" (fun fullId =>
  reading json "q-type" (fun qType =>
  reading json "raw-request" (fun rawRequest =>
  reading json "raw-response" (fun rawResponse =>
  reading json "remote-address" (fun remoteAddress =>
  reading json "timestamp" (fun timestamp =>
  Done {| protocol := protocol; uniqueId := uniqueId; fullId := fullId;
          qType := qType; rawRequest := rawRequest;
          rawResponse := rawResponse; remoteAddress := remoteAddress;
          timestamp := timestamp |})))))))).

(** [QuickSSRFBtn.setCount(QuickSSRFBtnCount.value)] *)
Definition setCount : V unit :=
  v <- get ;;
  update (set_badge (badge v ++ [QuickSSRFBtnCount v])%list).

Definition addToSourceData (response : Response) : V unit :=
  v <- get ;;
  update (set_QuickSSRFBtnCount (QuickSSRFBtnCount v + 1)) ;;
  setCount ;;
  v' <- get ;;
  update (set_sourceData (sourceData v' ++ [response])%list).

(** The callback of [sourceData.value.map], from the item at [index] on. *)
Fixpoint rows (index : Z) (items : list Response) : Outcome (list Row) :=
  match items with
  | [] => Done []
  | item :: rest =>
      match toISOString (timestamp item) with
      | None => Failed RangeError
      | Some date =>
          match protocol item with
          | Some (JStr name) =>
              match rows (index + 1) rest with
              | Done l =>
                  Done ({| req := index + 1; dateTime := date;
                           type := toUpperCase name;
                           payload := fullId item;
                           source := remoteAddress item |} :: l)
              | Failed e => Failed e
              end
          | _ => Failed TypeError
          end
      end
  end.

(** The computed [tableData]. *)
Definition tableData (v : Cells) : Outcome (list Row) :=
  rows 0 (sourceData v).

(** [ref.value.getEditorView().dispatch] of a change that replaces the
    whole document by [text]. *)
Definition replace_document (ref : Cells -> option EditorView)
    (set : option EditorView -> Cells -> Cells) (text : option Json) : V unit :=
  v <- get ;;
  match ref v with
  | None => fail TypeError
  | Some editor =>
      match dispatch {| from := 0; to := doc_length editor; insert := text |}
              editor with
      | Some editor' => update (set (Some editor'))
      | None => fail DispatchError
      end
  end.

(** [selectedData?.k] *)
Definition optional (k : Response -> option Json)
    (selectedData : option Response) : option Json :=
  match selectedData with
  | Some r => k r
  | None => None
  end.

Definition onSelectedData (selectedData : option Response) : V unit :=
  replace_document responseEditorRef set_responseEditorRef
    (optional rawResponse selectedData) ;;
  replace_document requestEditorRef set_requestEditorRef
    (optional rawRequest selectedData).

(** [sourceData.value[n - 1]] *)
Definition element (data : list Response) (n : number) : option Response :=
  match n with
  | Num z => if (1 <=? z)%Z then nth_error data (Z.to_nat (z - 1)) else None
  | NaN => None
  end.

(** [onRowClick] on an event whose [data.req] is [n]. *)
Definition onRowClick (n : number) : V unit :=
  update (set_QuickSSRFBtnCount 0) ;;
  setCount ;;
  v <- get ;;
  update (set_selectedRow (element (sourceData v) n)) ;;
  v' <- get ;;
  update (set_cachedRow (selectedRow v')) ;;
  onSelectedData (selectedRow v').

Definition onClearData : V unit :=
  update (set_sourceData []) ;;
  update (set_cachedRow None) ;;
  replace_document responseEditorRef set_responseEditorRef
    (Some (JStr EmptyString)) ;;
  replace_document requestEditorRef set_requestEditorRef
    (Some (JStr EmptyString)) ;;
  v <- get ;;
  if (0 <? QuickSSRFBtnCount v)%Z then
    update (set_QuickSSRFBtnCount 0) ;;
    setCount
  else done tt.

(** The elements the editors are mounted in are left out: appending to
    them writes no cell. *)
Definition initializeEditors : V unit :=
  let responseEditor := httpResponseEditor in
  let requestEditor := httpRequestEditor in
  update (set_responseEditorRef (Some responseEditor)) ;;
  update (set_requestEditorRef (Some requestEditor)).

(** The callback [onGenerateClick] hands to the service, on the cells of
    the view. *)
Definition onInteraction (interaction : Json) : V unit :=
  match parseDnsResponse interaction with
  | Done resp => addToSourceData resp
  | Failed e => fail e
  end.

(** The same callback as the service sees it: whether it throws. *)
Definition callback : Handler :=
  fun interaction =>
    match parseDnsResponse interaction with
    | Done _ => None
    | Failed _ => Some "TypeError: Cannot read properties of null"
    end.

(** The records the service handed to its callback reach the cells of
    the view through [onInteraction], one after the other. *)
Definition absorb (records : list Json) (v : Cells) : Cells :=
  fold_left (fun v' interaction => snd (onInteraction interaction v'))
    records v.

(** A method of the client service, called on [clientService]: it runs
    on the cells of the service and the world outside, and the records it
    handed to the installed callback are absorbed. *)
Definition service {A} (method : M A) : V A :=
  fun v =>
    match clientService v with
    | None => (Failed TypeError, v)
    | Some c =>
        let (r, m) := method {| client := c; world := outside v |} in
        let handed :=
          match interactionCallback c with
          | Some _ => skipn (List.length (calls (outside v))) (calls (world m))
          | None => []
          end in
        (match r with
         | Ok a => Done a
         | Throw e => Failed (ServiceError e)
         end,
         absorb handed
           (set_outside (world m) (set_clientService (Some (client m)) v)))
    end.

(** The options of the [start] in [onGenerateClick]. *)
Definition options (token : string) : Options :=
  {| opt_serverURL := Some "https://oast.site"; opt_token := Some token;
     opt_correlationIdLength := None; opt_correlationIdNonceLength := None;
     opt_sessionInfo := None; opt_keepAliveInterval := Some (Num 30000) |}.

Definition copy (text : string) : V unit :=
  v <- get ;;
  update (set_copied (copied v ++ [text])%list).

Definition showToast (text : string) : V unit :=
  v <- get ;;
  update (set_toasts (toasts v ++ [text])%list).

Definition console_log : V unit :=
  v <- get ;;
  update (set_logged (logged v ++ [clientService v])%list).

Definition onGenerateClick : V unit :=
  v <- get ;;
  match clientService v with
  | None =>
      update (set_clientService (Some useClientService)) ;;
      token <- service uuidv4 ;;
      service (start (options token) (Some callback))
  | Some _ => done tt
  end ;;
  v' <- get ;;
  url <- match clientService v' with
         | Some _ => address <- service generateUrl ;; done (Some address)
         | None => done None
         end ;;
  console_log ;;
  if truthy_opt url then
    copy (interpolate url) ;;
    showToast "Copied URL to clipboard."
  else done tt.

(** [clientService?.poll()]: the promise is left floating, so that its
    rejection reaches no one. *)
Definition onManualPoll : V unit :=
  fun v =>
    match clientService v with
    | None => (Done tt, v)
    | Some _ => (Done tt, snd (service poll v))
    end.

End Functions.

End UseLogic.

(** ** A browser to run the view on *)

Module Desk.

Definition upper (c : ascii) : ascii :=
  let n := nat_of_ascii c in
  if Nat.leb 97 n && Nat.leb n 122 then ascii_of_nat (n - 32) else c.

Fixpoint upper_case (s : string) : string :=
  match s with
  | EmptyString => EmptyString
  | String c rest => String (upper c) (upper_case rest)
  end.

(** An editor view is its document; a change replaces the text between
    its bounds by the string to insert, by nothing when there is none,
    and throws on anything else. *)
Definition apply_change (c : View.Change) (doc : string) : option string :=
  let before := substring 0 (View.from c) doc in
  let after := substring (View.to c) (String.length doc - View.to c) doc in
  match View.insert c with
  | None => Some (before ++ after)
  | Some (JStr text) => Some (before ++ text ++ after)
  | Some _ => None
  end.

(** Dates are taken in their ISO form already. *)
Definition iso (v : option Json) : option string :=
  match v with
  | Some (JStr text) => if truthy_string text then Some text else None
  | Some JNull => Some "1970-01-01T00:00:00.000Z"
  | _ => None
  end.

Definition browser : View.Browser :=
  {| View.EditorView := string;
     View.httpResponseEditor := EmptyString;
     View.httpRequestEditor := EmptyString;
     View.doc_length := String.length;
     View.dispatch := apply_change;
     View.toISOString := iso;
     View.toUpperCase := upper_case |}.

(** A platform like the fake one whose crypto service has no key. *)
Definition keyless : Platform :=
  {| URL := string * string;
     URL_new := Fake.url_new;
     URL_new_base := Fake.url_new_base;
     URL_toString := fun u => "https://" ++ fst u ++ snd u;
     URL_host := fst;
     JSON_parse := Fake.json_parse;
     String_of := JSON_stringify;
     encodePublicKey := None;
     decryptMessage := Fake.decrypt;
     getPrivateKey := None |}.

Definition dns_interaction : Json :=
  JObj [("protocol", JStr "dns"); ("unique-id", JStr "abc");
        ("full-id", JStr "abc.oast.site"); ("q-type", JStr "A");
        ("raw-request", JStr "query"); ("raw-response", JStr "answer");
        ("remote-address", JStr "203.0.113.7");
        ("timestamp", JStr "2024-05-01T10:00:00.000Z")].

(** The view on the fake platform, its editors mounted, with [answers]
    pending. *)
Definition mounted (answers : list HttpResult)
    : @View.Cells Fake.platform browser :=
  snd (UseLogic.initializeEditors (View.useLogic 0 (Fake.world_with answers))).

(** The same view after a first click on "generate". *)
Definition generated (answers : list HttpResult)
    : @View.Cells Fake.platform browser :=
  snd (UseLogic.onGenerateClick (mounted (Response 200 JNull :: answers))).

(** The client service of a view, a new one when it has none. *)
Definition client_of (v : @View.Cells Fake.platform browser)
    : @Client Fake.platform :=
  match View.clientService v with
  | Some c => c
  | None => useClientService
  end.

(** The mounted view after one DNS interaction has arrived. *)
Definition received : @View.Cells Fake.platform browser :=
  UseLogic.absorb [dns_interaction] (mounted []).

(** The row the table shows for that interaction. *)
Definition dns_row : View.Row :=
  {| View.req := 1; View.dateTime := "2024-05-01T10:00:00.000Z";
     View.type := "DNS"; View.payload := Some (JStr "abc.oast.site");
     View.source := Some (JStr "203.0.113.7") |}.

(** A new view on the platform without a key. *)
Definition keyless_view : @View.Cells keyless browser :=
  View.useLogic 0 (Fake.world_with []).

(** Options whose server URL has no scheme. *)
Definition schemeless : Options :=
  {| opt_serverURL := Some "oast.site"; opt_token := None;
     opt_correlationIdLength := None; opt_correlationIdNonceLength := None;
     opt_sessionInfo := None; opt_keepAliveInterval := None |}.

(** A session whose server URL is no URL. *)
Definition lost_session : SessionInfo :=
  {| si_serverURL := "nowhere"; si_token := "t0"; si_privateKey := EmptyString;
     si_correlationID := "c0"; si_secretKey := "s0" |}.

End Desk.

(** ** Observations of the view *)

Section ViewOperations.

Context {P : Platform} {B : View.Browser}.

(** An observation of the cells that a function of the view leaves as it
    is, whether it returns or throws. *)
Definition preserved {X A : Type} (g : View.Cells -> X) (c : View.V A) : Prop :=
  forall v, g (snd (c v)) = g v.

(** The interactions among [records] that the callback of the view
    keeps, as the table holds them. *)
Definition kept (records : list Json) : list View.Response :=
  flat_map
    (fun interaction =>
       match UseLogic.parseDnsResponse interaction with
       | View.Done response => [response]
       | View.Failed _ => []
       end)
    records.

End ViewOperations.

(** * Properties *)

Section Properties.

Context {P : Platform}.

Local Open Scope service_scope.

Ltac unfold_monad :=
  unfold bind, ret, throw, try_catch, read, write, effect, console_error in *.

Lemma State_eqb_eq (a b : State) : State_eqb a b = true <-> a = b.
Proof. destruct a, b; simpl; split; congruence. Qed.

Lemma State_eqb_neq (a b : State) : State_eqb a b = false <-> a <> b.
Proof. destruct a, b; simpl; split; congruence. Qed.

Lemma machine_eta (m : Machine) :
  {| client := client m; world := world m |} = m.
Proof. destruct m; reflexivity. Qed.

(** C4.  [close] throws in Polling and in Closed and changes nothing; in
    Idle a response other than 200 makes it throw the deregistration error
    with the cells unchanged, a 200 response makes it return with the state
    Closed; and [close] enters Closed in no other way. *)
Theorem close_outcomes (m : Machine) :
  (state (client m) = Polling -> close m = (Throw StopPollingFirst, m)) /\
  (state (client m) = Closed -> close m = (Throw AlreadyClosed, m)) /\
  (forall url status data rest,
      state (client m) = Idle ->
      URL_new_base "/deregister" (base_of (client m)) = Some url ->
      network (world m) = Response status data :: rest ->
      status <> 200%Z ->
      fst (close m) = Throw (DeregisterFailed data) /\
      client (snd (close m)) = client m) /\
  (forall url data rest,
      state (client m) = Idle ->
      URL_new_base "/deregister" (base_of (client m)) = Some url ->
      network (world m) = Response 200 data :: rest ->
      fst (close m) = Ok tt /\
      state (client (snd (close m))) = Closed) /\
  (state (client (snd (close m))) = Closed ->
   state (client m) <> Closed ->
   state (client m) = Idle /\ fst (close m) = Ok tt /\
   exists data rest, network (world m) = Response 200 data :: rest).
Proof.
  unfold close, new_URL_base, request. unfold_monad.
  split; [| split; [| split; [| split]]].
  - intros H; rewrite H; reflexivity.
  - intros H; rewrite H; reflexivity.
  - intros url status data rest Hs Hu Hn Hne.
    rewrite Hs; simpl; rewrite Hu; simpl; rewrite Hn; simpl.
    destruct (Z.eqb_spec status 200); [contradiction |].
    split; reflexivity.
  - intros url data rest Hs Hu Hn.
    rewrite Hs; simpl; rewrite Hu; simpl; rewrite Hn; simpl.
    split; reflexivity.
  - intros Hafter Hbefore.
    destruct (state (client m)) eqn:E; simpl in *; try congruence.
    destruct (URL_new_base _ _); simpl in *; [| congruence].
    destruct (network (world m)) as [| [s d | r] rest]; simpl in *;
      try congruence.
    destruct (Z.eqb_spec s 200); simpl in *; [| congruence].
    subst s. eauto.
Qed.

(** *** The poll cycle *)

Lemma for_each_item_frame (callback : Handler) (data : Json)
    (items : list Json) (m : Machine) :
  let m' := snd (for_each_item callback data items m) in
  client m' = client m /\ sent (world m') = sent (world m) /\
  network (world m') = network (world m).
Proof.
  revert m. induction items as [| item rest IH]; intros m; simpl.
  - auto.
  - unfold prop, invoke. unfold_monad.
    destruct (Js.get_prop data "aes_key") as [key |]; simpl; auto.
    destruct (decryptMessage key item) as [text |]; simpl; auto.
    destruct (JSON_parse text) as [v |]; simpl; auto.
    destruct (callback v); simpl; auto.
    apply (IH {| client := client m; world := W.deliver v (world m) |}).
Qed.

Lemma getInteractions_returns (callback : Handler) (m : Machine) :
  fst (getInteractions callback m) = Ok tt.
Proof.
  unfold getInteractions, try_catch.
  match goal with
  | |- context [match ?body m with _ => _ end] =>
      destruct (body m) as [[[] | e] m']
  end; reflexivity.
Qed.

Lemma getInteractions_frame (callback : Handler) (m : Machine) :
  let m' := snd (getInteractions callback m) in
  client m' = client m /\
  (forall url,
      URL_new_base (poll_path (client m)) (base_of (client m)) = Some url ->
      sent (world m') = (sent (world m) ++ [poll_request (client m) url])%list /\
      network (world m') = tl (network (world m))).
Proof.
  unfold getInteractions, new_URL_base, request, prop, poll_request.
  unfold_monad. fold (poll_path (client m)).
  destruct (URL_new_base (poll_path (client m)) (base_of (client m)))
    as [url |]; simpl; [| split; [reflexivity | discriminate]].
  assert (Hurl : forall u : URL, Some url = Some u -> url = u)
    by (intros u H; congruence).
  destruct (network (world m)) as [| [status data | reason] rest] eqn:E;
    simpl.
  1, 3: split; [reflexivity | intros u H; rewrite <- (Hurl u H), E; auto].
  destruct (Z.eqb_spec status 200); simpl.
  2: { destruct (status =? 401)%Z; simpl;
       (split; [reflexivity | intros u H; rewrite <- (Hurl u H), E; auto]). }
  destruct (Js.get_prop data "data") as [items |]; simpl.
  2: split; [reflexivity | intros u H; rewrite <- (Hurl u H), E; auto].
  destruct (Js.truthy items && Js.isArray items); simpl.
  2: split; [reflexivity | intros u H; rewrite <- (Hurl u H), E; auto].
  match goal with
  | |- context [for_each_item callback data ?l ?m0] =>
      pose proof (for_each_item_frame callback data l m0) as F;
      destruct (for_each_item callback data l m0) as [[[] | err] m1]
  end; simpl in *; destruct F as (Fc & Fs & Fn);
    (split; [exact Fc | intros u H; rewrite <- (Hurl u H);
              rewrite E in Fn; auto]).
Qed.

Lemma try_catch_returns {A : Type} (body : M A) (handler : Err -> M A)
    (m : Machine) (a : A) :
  fst (body m) = Ok a -> try_catch body handler m = body m.
Proof.
  unfold try_catch. destruct (body m) as [[a' | e] m']; simpl; congruence.
Qed.

Lemma poll_is_a_cycle (m : Machine) :
  state (client m) = Polling ->
  poll m = getInteractions (handler_of (client m)) m.
Proof.
  intros H. unfold poll, bind, read. rewrite H. simpl.
  apply try_catch_returns with (a := tt). apply getInteractions_returns.
Qed.

(** C2 (as amended).  A poll cycle answered with a status other than 200
    calls the handler zero times, leaves the cells as they are and logs one
    error: the authentication error for 401, the polling error with the
    response body otherwise.  The two errors differ, in kind and in message;
    but the cycle catches them itself, so it returns normally in both cases,
    and so does [poll], which is one such cycle. *)
Theorem poll_refused (callback : Handler) (m : Machine) (url : URL)
    (status : Z) (data : Json) (rest : list HttpResult) :
  URL_new_base (poll_path (client m)) (base_of (client m)) = Some url ->
  network (world m) = Response status data :: rest ->
  status <> 200%Z ->
  let e := if (status =? 401)%Z then AuthenticationFailed else PollFailed data in
  let m' := snd (getInteractions callback m) in
  fst (getInteractions callback m) = Ok tt /\
  calls (world m') = calls (world m) /\
  console (world m') = (console (world m) ++ [ErrorPollingInteractionsLog e])%list /\
  client m' = client m /\
  (forall body,
      AuthenticationFailed <> PollFailed body /\
      poll_error_kind AuthenticationFailed <> poll_error_kind (PollFailed body) /\
      message AuthenticationFailed <> message (PollFailed body)) /\
  (state (client m) = Polling ->
   poll m = getInteractions (handler_of (client m)) m).
Proof.
  intros Hurl Hnet Hstatus e m'.
  split; [apply getInteractions_returns |].
  split; [| split; [| split; [apply getInteractions_frame |
    split; [| apply poll_is_a_cycle]]]].
  - subst m' e. unfold getInteractions, new_URL_base, request.
    unfold_monad. fold (poll_path (client m)).
    rewrite Hurl; simpl. rewrite Hnet; simpl.
    destruct (Z.eqb_spec status 200); [contradiction |]. simpl.
    destruct (status =? 401)%Z; reflexivity.
  - subst m' e. unfold getInteractions, new_URL_base, request.
    unfold_monad. fold (poll_path (client m)).
    rewrite Hurl; simpl. rewrite Hnet; simpl.
    destruct (Z.eqb_spec status 200); [contradiction |]. simpl.
    destruct (status =? 401)%Z; reflexivity.
  - intros body. repeat split; simpl; discriminate.
Qed.

(** C3.  A turn of the polling loop whose response carries the items
    [A, B, ...], where [A] decodes and the handler returns on it while [B]
    does not decode: the handler is called once, with the record of [A]; the
    decode error of [B] is logged; nothing after [B] is processed; the turn
    ends with the loop still running, and its next turn issues the next poll
    request. *)
Theorem decode_failure_mid_batch (callback : Handler) (m : Machine)
    (url : URL) (fields : list (string * Json)) (A B : Json)
    (others : list Json) (a : Json) (answers : list HttpResult) :
  quitPollingFlag (client m) = false ->
  URL_new_base (poll_path (client m)) (base_of (client m)) = Some url ->
  network (world m) = Response 200 (JObj fields) :: answers ->
  Js.lookup "data" fields = Some (JArr (A :: B :: others)) ->
  decode (Js.lookup "aes_key" fields) A = Some a ->
  callback a = None ->
  decode (Js.lookup "aes_key" fields) B = None ->
  let e := decode_error (Js.lookup "aes_key" fields) B in
  let m1 := snd (pollingLoop_turn callback m) in
  let m2 := snd (pollingLoop 2 callback m) in
  fst (pollingLoop_turn callback m) = Ok true /\
  calls (world m1) = (calls (world m) ++ [a])%list /\
  console (world m1) = (console (world m) ++ [ErrorPollingInteractionsLog e])%list /\
  poll_error_kind e = KDecode /\
  fst (pollingLoop 2 callback m) = Ok true /\
  sent (world m2) =
    (sent (world m) ++ [poll_request (client m) url; poll_request (client m) url])%list /\
  network (world m2) = tl answers.
Proof.
  intros Hflag Hurl Hnet Hdata HA Hcb HB e m1 m2.
  assert (T1 : pollingLoop_turn callback m =
               (Ok true,
                {| client := client m;
                   world := W.sleep (pollingInterval (client m))
                              (world (snd (getInteractions callback m))) |})).
  { unfold pollingLoop_turn. unfold bind at 1. unfold read at 1.
    rewrite Hflag. unfold bind at 1.
    rewrite (try_catch_returns _ _ _ tt (getInteractions_returns callback m)).
    pose proof (getInteractions_returns callback m) as R.
    pose proof (proj1 (getInteractions_frame callback m)) as C.
    destruct (getInteractions callback m) as [r g]; simpl in *. subst r.
    unfold_monad. simpl. rewrite C. reflexivity. }
  assert (G : world (snd (getInteractions callback m)) =
              W.log (ErrorPollingInteractionsLog e)
                (W.deliver a (W.take_response
                   (W.send (poll_request (client m) url) (world m))))).
  { unfold getInteractions, new_URL_base, request, prop, invoke, poll_request.
    unfold_monad. fold (poll_path (client m)).
    rewrite Hurl; simpl. rewrite Hnet; simpl. rewrite Hdata; simpl.
    unfold prop, invoke. unfold_monad. simpl.
    unfold decode in HA, HB. subst e. unfold decode_error.
    destruct (decryptMessage (Js.lookup "aes_key" fields) A) as [ta |];
      [| discriminate].
    rewrite HA; simpl. rewrite Hcb; simpl.
    destruct (decryptMessage (Js.lookup "aes_key" fields) B) as [tb |];
      simpl; [rewrite HB |]; reflexivity. }
  assert (K : poll_error_kind e = KDecode).
  { subst e. unfold decode_error.
    destruct (decryptMessage _ B); reflexivity. }
  subst m1. rewrite T1. simpl. rewrite G. simpl.
  repeat (split; [reflexivity || exact K |]).
  set (m1 := {| client := client m;
                world := W.sleep (pollingInterval (client m))
                           (world (snd (getInteractions callback m))) |}) in *.
  assert (T2 : exists w,
             pollingLoop_turn callback m1 =
             (Ok true,
              {| client := client m;
                 world := W.sleep (pollingInterval (client m)) w |})
             /\ sent w = (sent (world m1) ++ [poll_request (client m) url])%list
             /\ network w = tl (network (world m1))).
  { exists (world (snd (getInteractions callback m1))).
    pose proof (getInteractions_frame callback m1) as (C & F).
    specialize (F url Hurl). split; [| exact F].
    unfold pollingLoop_turn. unfold bind at 1. unfold read at 1.
    change (client m1) with (client m). rewrite Hflag. unfold bind at 1.
    rewrite (try_catch_returns _ _ _ tt (getInteractions_returns callback m1)).
    pose proof (getInteractions_returns callback m1) as R.
    destruct (getInteractions callback m1) as [r g]; simpl in *. subst r.
    unfold_monad. simpl. rewrite C. reflexivity. }
  destruct T2 as (w & T2 & S2 & N2).
  assert (L : pollingLoop 2 callback m =
              (Ok true,
               {| client := client m;
                  world := W.sleep (pollingInterval (client m)) w |})).
  { simpl. unfold bind at 1. rewrite T1. unfold bind at 1. rewrite T2.
    reflexivity. }
  subst m2. rewrite L. simpl. rewrite S2, N2. subst m1. simpl.
  rewrite G. simpl. rewrite Hnet. simpl.
  rewrite <- app_assoc.
  split; [| auto].
  change (fst (pollingLoop 2 callback m) = Ok true). rewrite L. reflexivity.
Qed.

(** *** Registration *)

Lemma consume_nothing (w : World) : W.consume 0 w = w.
Proof. destruct w; unfold W.consume; simpl. rewrite Nat.add_0_r. reflexivity. Qed.

Lemma or_else_random (s : option string) (n : nat) (m : Machine) :
  or_else s (random n) m =
  (Ok (chosen s n (world m)),
   {| client := client m; world := W.consume (used s n) (world m) |}).
Proof.
  unfold or_else, chosen, used, random, ret.
  destruct s as [v |]; simpl; [destruct (truthy_string v); simpl |];
    try reflexivity.
  rewrite consume_nothing, machine_eta. reflexivity.
Qed.

(** Runs [initialize] up to its first case distinction that is not
    settled by the context. *)
Ltac run_initialize :=
  unfold initialize, generateRandomID, uuidv4, new_URL;
  unfold_monad;
  repeat (rewrite or_else_random; simpl).

(** *** Cells that stay *)

Section Stays.

Context {X : Type} (f : Client -> X) (allowed : X -> Prop).

Lemma stays_refl (m : Machine) : stays f allowed m m.
Proof. left; reflexivity. Qed.

Lemma stays_trans (m1 m2 m3 : Machine) :
  stays f allowed m1 m2 -> stays f allowed m2 m3 -> stays f allowed m1 m3.
Proof.
  unfold stays. intros [H12 | H12] [H23 | H23]; auto.
  - left; congruence.
  - right; congruence.
Qed.

Lemma keeps_ret {A : Type} (a : A) : keeps f allowed (ret a).
Proof. intros m; apply stays_refl. Qed.

Lemma keeps_throw {A : Type} (e : Err) : keeps f allowed (@throw _ A e).
Proof. intros m; apply stays_refl. Qed.

Lemma keeps_read : keeps f allowed read.
Proof. intros m; apply stays_refl. Qed.

Lemma keeps_effect (g : World -> World) : keeps f allowed (effect g).
Proof. intros m; left; reflexivity. Qed.

Lemma keeps_write (g : Client -> Client) :
  (forall c, f (g c) = f c \/ allowed (f (g c))) ->
  keeps f allowed (write g).
Proof. intros H m. apply H. Qed.

Lemma keeps_bind {A B : Type} (c : M A) (k : A -> M B) :
  keeps f allowed c -> (forall a, keeps f allowed (k a)) ->
  keeps f allowed (bind c k).
Proof.
  intros Hc Hk m. unfold bind. specialize (Hc m).
  destruct (c m) as [[a | e] m1]; simpl in *; [| exact Hc].
  eapply stays_trans; [exact Hc | apply Hk].
Qed.

Lemma keeps_try_catch {A : Type} (body : M A) (handler : Err -> M A) :
  keeps f allowed body -> (forall e, keeps f allowed (handler e)) ->
  keeps f allowed (try_catch body handler).
Proof.
  intros Hb Hh m. unfold try_catch. specialize (Hb m).
  destruct (body m) as [[a | e] m1]; simpl in *; [exact Hb |].
  eapply stays_trans; [exact Hb | apply Hh].
Qed.

Lemma keeps_request (r : Request) : keeps f allowed (request r).
Proof.
  intros m. unfold request.
  destruct (network (world m)) as [| [? ? | ?] ?]; left; reflexivity.
Qed.

Lemma keeps_random (n : nat) : keeps f allowed (random n).
Proof. intros m; left; reflexivity. Qed.

End Stays.

Create HintDb keeps discriminated.

(** Proves [keeps] by following the structure of the computation; what is
    left are the writes that touch the cell, the calls it does not know
    and the branches the context excludes. *)
Ltac keeps_step :=
  first
    [ solve [auto 2 with keeps nocore]
    | apply keeps_ret | apply keeps_throw | apply keeps_read
    | apply keeps_effect | apply keeps_request | apply keeps_random
    | apply keeps_write; intro; simpl; solve [auto | right; discriminate]
    | match goal with
      | |- keeps _ _ (bind _ _) => apply keeps_bind; [| intro]
      | |- keeps _ _ (try_catch _ _) => apply keeps_try_catch; [| intro]
      | |- keeps _ _ (match ?x with _ => _ end) => destruct x eqn:?
      end ].

Ltac keeps_auto := repeat keeps_step.

Lemma keeps_new_URL {X : Type} (f : Client -> X) (allowed : X -> Prop)
    (s : string) :
  keeps f allowed (new_URL s).
Proof. unfold new_URL. keeps_auto. Qed.

Lemma keeps_new_URL_base {X : Type} (f : Client -> X) (allowed : X -> Prop)
    (path base : string) :
  keeps f allowed (new_URL_base path base).
Proof. unfold new_URL_base. keeps_auto. Qed.

Lemma keeps_prop {X : Type} (f : Client -> X) (allowed : X -> Prop)
    (v : Json) (k : string) :
  keeps f allowed (prop v k).
Proof. unfold prop. keeps_auto. Qed.

Lemma keeps_invoke {X : Type} (f : Client -> X) (allowed : X -> Prop)
    (h : Handler) (v : Json) :
  keeps f allowed (invoke h v).
Proof. unfold invoke. keeps_auto. Qed.

Lemma keeps_console_error {X : Type} (f : Client -> X) (allowed : X -> Prop)
    (l : LogEntry) :
  keeps f allowed (console_error l).
Proof. apply keeps_effect. Qed.

Lemma keeps_or_else {X : Type} (f : Client -> X) (allowed : X -> Prop)
    (s : option string) (n : nat) :
  keeps f allowed (or_else s (random n)).
Proof. unfold or_else. keeps_auto. Qed.

#[local] Hint Resolve keeps_new_URL keeps_new_URL_base keeps_prop
  keeps_invoke keeps_console_error keeps_or_else : keeps.

Lemma keeps_for_each_item {X : Type} (f : Client -> X) (allowed : X -> Prop)
    (callback : Handler) (data : Json) (items : list Json) :
  keeps f allowed (for_each_item callback data items).
Proof.
  induction items as [| item rest IH]; simpl; keeps_auto.
Qed.

#[local] Hint Resolve keeps_for_each_item : keeps.

Lemma keeps_getInteractions {X : Type} (f : Client -> X)
    (allowed : X -> Prop) (callback : Handler) :
  keeps f allowed (getInteractions callback).
Proof. unfold getInteractions. keeps_auto. Qed.

#[local] Hint Resolve keeps_getInteractions : keeps.

Lemma keeps_generateUrl {X : Type} (f : Client -> X) (allowed : X -> Prop) :
  keeps f allowed generateUrl.
Proof. unfold generateUrl, generateRandomID. keeps_auto. Qed.

Lemma keeps_saveSession {X : Type} (f : Client -> X) (allowed : X -> Prop) :
  keeps f allowed saveSession.
Proof. unfold saveSession. keeps_auto. Qed.

Lemma keeps_poll {X : Type} (f : Client -> X) (allowed : X -> Prop) :
  keeps f allowed poll.
Proof. unfold poll. keeps_auto. Qed.

Lemma keeps_pollingLoop_turn {X : Type} (f : Client -> X)
    (allowed : X -> Prop) (callback : Handler) :
  keeps f allowed (pollingLoop_turn callback).
Proof. unfold pollingLoop_turn. keeps_auto. Qed.

#[local] Hint Resolve keeps_generateUrl keeps_saveSession keeps_poll
  keeps_pollingLoop_turn : keeps.

(** *** Cells the lifecycle does not write *)

Lemma keeps_performRegistration {X : Type} (f : Client -> X)
    (allowed : X -> Prop) (payload : Json) :
  untouched_by_lifecycle f -> keeps f allowed (performRegistration payload).
Proof.
  intros [Hs Hq]. unfold performRegistration. keeps_auto.
Qed.

Lemma keeps_startPolling {X : Type} (f : Client -> X)
    (allowed : X -> Prop) (callback : Handler) :
  untouched_by_lifecycle f -> keeps f allowed (startPolling callback).
Proof.
  intros [Hs Hq]. unfold startPolling. keeps_auto.
Qed.

Lemma keeps_stopPolling {X : Type} (f : Client -> X) (allowed : X -> Prop) :
  untouched_by_lifecycle f -> keeps f allowed stopPolling.
Proof.
  intros [Hs Hq]. unfold stopPolling. keeps_auto.
Qed.

Lemma keeps_close {X : Type} (f : Client -> X) (allowed : X -> Prop) :
  untouched_by_lifecycle f -> keeps f allowed close.
Proof.
  intros [Hs Hq]. unfold close. keeps_auto.
Qed.

Lemma pollingInterval_untouched : untouched_by_lifecycle pollingInterval.
Proof. split; reflexivity. Qed.

Lemma correlationID_untouched : untouched_by_lifecycle correlationID.
Proof. split; reflexivity. Qed.

Lemma secretKey_untouched : untouched_by_lifecycle secretKey.
Proof. split; reflexivity. Qed.

Lemma token_untouched : untouched_by_lifecycle token.
Proof. split; reflexivity. Qed.

#[local] Hint Resolve keeps_performRegistration keeps_startPolling
  keeps_stopPolling keeps_close pollingInterval_untouched
  correlationID_untouched secretKey_untouched token_untouched : keeps.

(** *** The lifecycle *)

Lemma keeps_state_performRegistration (allowed : State -> Prop)
    (payload : Json) :
  allowed Idle -> keeps state allowed (performRegistration payload).
Proof. intros H. unfold performRegistration. keeps_auto. Qed.

Lemma keeps_state_startPolling (allowed : State -> Prop) (callback : Handler) :
  allowed Polling -> keeps state allowed (startPolling callback).
Proof. intros H. unfold startPolling. keeps_auto. Qed.

Lemma keeps_state_stopPolling (allowed : State -> Prop) :
  allowed Idle -> keeps state allowed stopPolling.
Proof. intros H. unfold stopPolling. keeps_auto. Qed.

Lemma keeps_state_close (allowed : State -> Prop) :
  allowed Closed -> keeps state allowed close.
Proof. intros H. unfold close. keeps_auto. Qed.

(** After [initialize] the state is the one before, or Idle, or Polling
    when a keep-alive interval was given. *)
Lemma keeps_state_initialize (options : Options)
    (interactionCallbackParam : option Handler) :
  keeps state
    (fun s => s = Idle \/ s = Polling /\ keeps_alive options = true)
    (initialize options interactionCallbackParam).
Proof.
  unfold initialize, generateRandomID, uuidv4. keeps_auto.
  - apply keeps_state_performRegistration. auto.
  - apply keeps_state_startPolling. right. split; [reflexivity |].
    unfold keeps_alive.
    repeat match goal with H : _ = _ |- _ => rewrite H end. reflexivity.
Qed.

Lemma stopPolling_from (m : Machine) :
  state (client (snd (stopPolling m))) <> state (client m) ->
  state (client m) = Polling.
Proof.
  unfold stopPolling. unfold_monad.
  destruct (state (client m)) eqn:E; simpl; congruence.
Qed.

Lemma close_from (m : Machine) :
  state (client (snd (close m))) <> state (client m) ->
  state (client m) = Idle.
Proof.
  unfold close. unfold_monad.
  destruct (state (client m)) eqn:E; simpl; congruence.
Qed.

(** [initialize], once its URLs parse and the public key is there: the
    registration exchange and the keep-alive statement, on the cells
    [established]. *)
Lemma initialize_run (options : Options)
    (interactionCallbackParam : option Handler) (m : Machine)
    (u0 u : URL) (publicKey : string) :
  URL_new (or_string (opt_serverURL options) "https://oast.site") = Some u0 ->
  URL_new (target options) = Some u ->
  encodePublicKey = Some publicKey ->
  let c := established options interactionCallbackParam u (client m) (world m) in
  initialize options interactionCallbackParam m =
  bind (performRegistration (registration_payload publicKey c))
    (fun _ => keep_alive options)
    {| client := c; world := seeded options (world m) |}.
Proof.
  intros H0 Hu Hkey c. subst c.
  destruct options as [oU oT oL oN oS oK].
  unfold target, keep_alive, established, seeded, registration_payload,
    assigned_id, assigned_key, assigned_token, after_id, after_token,
    resumed_id, resumed_key, id_length, key_length in *.
  simpl in *.
  run_initialize. rewrite H0. simpl.
  destruct interactionCallbackParam as [h |], oS as [session0 |]; simpl;
    rewrite ?Hu, ?Hkey; simpl; try rewrite H0 in Hu;
    try (injection Hu as ->); reflexivity.
Qed.

Lemma performRegistration_fails (payload : Json) (m : Machine)
    (u registerURL : URL) :
  serverURL (client m) = Some u ->
  URL_new_base "/register" (URL_toString u) = Some registerURL ->
  answer_not_200 (world m) ->
  performRegistration payload m =
  (Ok tt,
   {| client := client m;
      world := W.log (RegistrationErrorLog (registration_error (world m)))
                 (W.take_response
                    (W.send (register_request registerURL payload) (world m))) |}).
Proof.
  intros Hs Hr Ha.
  unfold performRegistration, new_URL_base, request, answer_not_200,
    registration_error, register_request in *.
  unfold_monad. rewrite Hs. simpl. rewrite Hr. simpl.
  destruct (network (world m)) as [| [status data | reason] rest]; simpl;
    try reflexivity.
  destruct (Z.eqb_spec status 200); [contradiction | reflexivity].
Qed.

Lemma performRegistration_succeeds (payload : Json) (m : Machine)
    (u registerURL : URL) (data : Json) (rest : list HttpResult) :
  serverURL (client m) = Some u ->
  URL_new_base "/register" (URL_toString u) = Some registerURL ->
  network (world m) = Response 200 data :: rest ->
  performRegistration payload m =
  (Ok tt,
   {| client := set_state Idle (client m);
      world := W.take_response
                 (W.send (register_request registerURL payload) (world m)) |}).
Proof.
  intros Hs Hr Hn.
  unfold performRegistration, new_URL_base, request, register_request.
  unfold_monad. rewrite Hs. simpl. rewrite Hr. simpl. rewrite Hn.
  reflexivity.
Qed.

Lemma initialize_registration_fails (options : Options)
    (interactionCallbackParam : option Handler) (m : Machine)
    (u0 u registerURL : URL) (publicKey : string) :
  URL_new (or_string (opt_serverURL options) "https://oast.site") = Some u0 ->
  URL_new (target options) = Some u ->
  encodePublicKey = Some publicKey ->
  URL_new_base "/register" (URL_toString u) = Some registerURL ->
  answer_not_200 (world m) ->
  let c := established options interactionCallbackParam u (client m) (world m) in
  initialize options interactionCallbackParam m =
  keep_alive options
    {| client := c;
       world :=
         W.log (RegistrationErrorLog (registration_error (world m)))
           (W.take_response
              (W.send
                 (register_request registerURL
                    (registration_payload publicKey c))
                 (seeded options (world m)))) |}.
Proof.
  intros H0 Hu Hkey Hreg Hans c.
  rewrite (initialize_run options interactionCallbackParam m u0 u publicKey
             H0 Hu Hkey).
  unfold bind.
  rewrite (performRegistration_fails _ _ u registerURL); auto.
Qed.

Lemma initialize_registration_succeeds (options : Options)
    (interactionCallbackParam : option Handler) (m : Machine)
    (u0 u registerURL : URL) (publicKey : string) (data : Json)
    (rest : list HttpResult) :
  URL_new (or_string (opt_serverURL options) "https://oast.site") = Some u0 ->
  URL_new (target options) = Some u ->
  encodePublicKey = Some publicKey ->
  URL_new_base "/register" (URL_toString u) = Some registerURL ->
  network (world m) = Response 200 data :: rest ->
  let c := established options interactionCallbackParam u (client m) (world m) in
  initialize options interactionCallbackParam m =
  keep_alive options
    {| client := set_state Idle c;
       world :=
         W.take_response
           (W.send
              (register_request registerURL (registration_payload publicKey c))
              (seeded options (world m))) |}.
Proof.
  intros H0 Hu Hkey Hreg Hnet c.
  rewrite (initialize_run options interactionCallbackParam m u0 u publicKey
             H0 Hu Hkey).
  unfold bind.
  rewrite (performRegistration_succeeds _ _ u registerURL data rest); auto.
Qed.

(** C1 (as amended).  The transitions of the five lifecycle operations.
    Polling is entered only by [startPolling], called directly or by
    [initialize] under a keep-alive interval, and from any state that is not
    Polling.  Closed is entered only by [close], from Idle.  Idle is entered
    only by [stopPolling], from Polling, or by [initialize].  Closed is not
    terminal: there [stopPolling], [poll] and [close] change nothing, but
    [startPolling] moves the client to Polling, and [initialize], whatever
    the state it finds, leaves Idle after a registration answered 200, or
    Polling under a keep-alive interval. *)
Theorem lifecycle_transitions (op : Op) (m : Machine) :
  lifecycle op = true ->
  let s := state (client m) in
  let s' := state (client (after op m)) in
  (s' = Polling -> s <> Polling ->
   (exists callback, op = StartPolling callback) \/
   (exists options callback,
       op = Initialize options callback /\ keeps_alive options = true)) /\
  (s' = Closed -> s <> Closed -> op = Close /\ s = Idle) /\
  (s' = Idle -> s <> Idle ->
   op = StopPolling /\ s = Polling \/
   (exists options callback, op = Initialize options callback)) /\
  (s = Closed -> op = StopPolling \/ op = Poll \/ op = Close ->
   after op m = m) /\
  (s = Closed -> forall callback, op = StartPolling callback -> s' = Polling) /\
  (forall options callback u0 u registerURL publicKey data rest,
      op = Initialize options callback ->
      URL_new (or_string (opt_serverURL options) "https://oast.site") = Some u0 ->
      URL_new (target options) = Some u ->
      encodePublicKey = Some publicKey ->
      URL_new_base "/register" (URL_toString u) = Some registerURL ->
      network (world m) = Response 200 data :: rest ->
      s' = if keeps_alive options then Polling else Idle).
Proof.
  intros L s s'. subst s s'.
  destruct op as [options cb | | cb | | | | | | | | |]; try discriminate L;
    simpl; (split; [| split; [| split; [| split; [| split]]]]);
    try (intros ? [? | [? | ?]]; discriminate);
    try (intros ? ? ?; discriminate);
    try (intros ? ? ? ? ? ? ? ? ?; discriminate).
  - (* initialize *)
    intros H1 H2. right. exists options, cb. split; [reflexivity |].
    destruct (keeps_state_initialize options cb m) as [K | [K | [_ K]]];
      congruence.
  - intros H1 H2.
    destruct (keeps_state_initialize options cb m) as [K | [K | [K _]]];
      congruence.
  - intros H1 H2. right. eauto.
  - intros options' cb' u0 u registerURL publicKey data rest Hop
      H0 Hu Hkey Hreg Hnet.
    injection Hop as <- <-.
    rewrite (initialize_registration_succeeds options cb m u0 u registerURL
               publicKey data rest H0 Hu Hkey Hreg Hnet).
    unfold keep_alive, keeps_alive, startPolling. unfold_monad.
    destruct (opt_keepAliveInterval options) as [interval |]; simpl;
      [destruct (Number.truthy interval) |]; reflexivity.
  - (* startPolling *)
    intros; left; eauto.
  - intros H1 H2.
    destruct (keeps_state_startPolling (fun s => s = Polling) cb eq_refl m);
      congruence.
  - intros H1 H2.
    destruct (keeps_state_startPolling (fun s => s = Polling) cb eq_refl m);
      congruence.
  - intros H callback _. unfold startPolling. unfold_monad.
    rewrite H. reflexivity.
  - (* stopPolling *)
    intros H1 H2.
    destruct (keeps_state_stopPolling (fun s => s = Idle) eq_refl m);
      congruence.
  - intros H1 H2.
    destruct (keeps_state_stopPolling (fun s => s = Idle) eq_refl m);
      congruence.
  - intros H1 H2. left. split; [reflexivity |].
    apply stopPolling_from. congruence.
  - intros H _. unfold stopPolling. unfold_monad. rewrite H. reflexivity.
  - (* close *)
    intros H1 H2.
    destruct (keeps_state_close (fun s => s = Closed) eq_refl m); congruence.
  - intros H1 H2. split; [reflexivity |]. apply close_from. congruence.
  - intros H1 H2.
    destruct (keeps_state_close (fun s => s = Closed) eq_refl m); congruence.
  - intros H _. unfold close. unfold_monad. rewrite H. reflexivity.
  - (* poll *)
    intros H1 H2.
    destruct (keeps_poll state (fun _ => False) m) as [K | []]; congruence.
  - intros H1 H2.
    destruct (keeps_poll state (fun _ => False) m) as [K | []]; congruence.
  - intros H1 H2.
    destruct (keeps_poll state (fun _ => False) m) as [K | []]; congruence.
  - intros H _. unfold poll. unfold_monad. rewrite H. reflexivity.
Qed.


(** *** The polling interval *)

Lemma keeps_interval_initialize (options : Options)
    (interactionCallbackParam : option Handler) :
  keeps pollingInterval
    (fun n =>
       opt_keepAliveInterval options = Some n /\ Number.truthy n = true)
    (initialize options interactionCallbackParam).
Proof. unfold initialize, generateRandomID, uuidv4. keeps_auto. Qed.

Lemma keeps_interval_setRefreshTimeSecond (seconds : number) :
  keeps pollingInterval
    (fun n =>
       n = Number.mul seconds (Num 1000) /\
       Number.lt seconds (Num 5) || Number.gt seconds (Num 3600) = false)
    (setRefreshTimeSecond seconds).
Proof. unfold setRefreshTimeSecond. keeps_auto. Qed.

Lemma accepted_seconds (z : Z) :
  Number.lt (Num z) (Num 5) || Number.gt (Num z) (Num 3600) = false <->
  (5 <= z <= 3600)%Z.
Proof.
  unfold Number.gt, Number.lt. rewrite orb_false_iff, !Z.ltb_ge. lia.
Qed.

Lemma keep_alive_interval (options : Options) (interval : number)
    (m : Machine) :
  opt_keepAliveInterval options = Some interval ->
  Number.truthy interval = true ->
  pollingInterval (client (snd (keep_alive options m))) = interval.
Proof.
  intros Hk Ht. unfold keep_alive. rewrite Hk, Ht.
  unfold bind at 1. simpl. unfold bind at 1. simpl.
  destruct (keeps_startPolling pollingInterval (fun _ => False)
              (handler_of (set_pollingInterval interval (client m)))
              pollingInterval_untouched
              {| client := set_pollingInterval interval (client m);
                 world := world m |}) as [K | []].
  exact K.
Qed.

(** C7 (as amended).  A positive polling interval stays positive under
    every operation, with one proviso: [initialize] adopts a truthy
    keep-alive interval as it is, so there the interval given has to be
    positive itself.  [setRefreshTimeSecond] is taken on numbers that are
    not NaN: on an integer it accepts exactly 5..3600 and stores the
    thousandfold.  Once [initialize] is past its registration exchange, the
    interval is the keep-alive interval given. *)
Theorem polling_interval_positive :
  (forall op m,
      Number.positive (pollingInterval (client m)) ->
      keeps_interval_positive op ->
      Number.positive (pollingInterval (client (after op m)))) /\
  (forall z m,
      (5 <= z <= 3600)%Z ->
      pollingInterval (client (after (SetRefreshTimeSecond (Num z)) m)) =
      Num (z * 1000)) /\
  (forall z m,
      ~ (5 <= z <= 3600)%Z ->
      setRefreshTimeSecond (Num z) m = (Throw IntervalOutOfRange, m)) /\
  (forall options callback m u0 u registerURL publicKey interval,
      URL_new (or_string (opt_serverURL options) "https://oast.site") = Some u0 ->
      URL_new (target options) = Some u ->
      encodePublicKey = Some publicKey ->
      URL_new_base "/register" (URL_toString u) = Some registerURL ->
      opt_keepAliveInterval options = Some interval ->
      Number.truthy interval = true ->
      pollingInterval (client (after (Initialize options callback) m)) =
      interval).
Proof.
  split; [| split; [| split]].
  - intros op m Hpos Hop.
    assert (U : forall c : M unit,
               keeps pollingInterval (fun _ => False) c ->
               Number.positive (pollingInterval (client (snd (c m))))).
    { intros c K. destruct (K m) as [E | []]. rewrite E. exact Hpos. }
    assert (V : forall c : M string,
               keeps pollingInterval (fun _ => False) c ->
               Number.positive (pollingInterval (client (snd (c m))))).
    { intros c K. destruct (K m) as [E | []]. rewrite E. exact Hpos. }
    destruct op as [options cb | payload | cb | | seconds | options cb
                   | | | | | | cb]; simpl in *.
    + destruct (keeps_interval_initialize options cb m) as [E | [E1 E2]].
      * rewrite E. exact Hpos.
      * apply Hop; assumption.
    + apply U. auto with keeps.
    + apply U. auto with keeps.
    + apply U. auto with keeps.
    + destruct (keeps_interval_setRefreshTimeSecond seconds m)
        as [E | [E1 E2]].
      * rewrite E. exact Hpos.
      * rewrite E1. destruct seconds as [z |]; [| congruence].
        apply accepted_seconds in E2. simpl. lia.
    + unfold start.
      destruct (keeps_interval_initialize options cb m) as [E | [E1 E2]].
      * rewrite E. exact Hpos.
      * apply Hop; assumption.
    + apply U. unfold stop. keeps_auto.
    + apply U. auto with keeps.
    + apply V. auto with keeps.
    + apply V. auto with keeps.
    + apply U. auto with keeps.
    + destruct (keeps_pollingLoop_turn pollingInterval (fun _ => False) cb m)
        as [E | []].
      rewrite E. exact Hpos.
  - intros z m Hz. simpl. unfold setRefreshTimeSecond.
    rewrite (proj2 (accepted_seconds z) Hz). reflexivity.
  - intros z m Hz. unfold setRefreshTimeSecond.
    destruct (Number.lt (Num z) (Num 5) || Number.gt (Num z) (Num 3600))
      eqn:E; [reflexivity |].
    apply accepted_seconds in E. contradiction.
  - intros options cb m u0 u registerURL publicKey interval
      H0 Hu Hkey Hreg Hk Ht. simpl.
    destruct (network (world m)) as [| [status data | reason] rest] eqn:Hn.
    2: destruct (Z.eq_dec status 200) as [-> | Hs].
    2: { rewrite (initialize_registration_succeeds options cb m u0 u
                    registerURL publicKey data rest H0 Hu Hkey Hreg Hn).
         apply keep_alive_interval; assumption. }
    all: rewrite (initialize_registration_fails options cb m u0 u
                    registerURL publicKey H0 Hu Hkey Hreg);
      [apply keep_alive_interval; assumption
      | unfold answer_not_200; rewrite Hn; auto].
Qed.

(** *** The identifiers of a session *)

Lemma bind_run {A B : Type} (c : M A) (k : A -> M B) (m m1 : Machine)
    (a : A) :
  c m = (Ok a, m1) -> bind c k m = k a m1.
Proof. intros H. unfold bind. rewrite H. reflexivity. Qed.

Lemma bind_assoc {A B C : Type} (c : M A) (k : A -> M B) (k' : B -> M C)
    (m : Machine) :
  bind (bind c k) k' m = bind c (fun a => bind (k a) k') m.
Proof. unfold bind. destruct (c m) as [[a | e] m1]; reflexivity. Qed.

(** Whatever happens later, [initialize] leaves in [correlationID] and
    [secretKey] what its second and third assignment put there. *)
Lemma initialize_identifiers (options : Options)
    (interactionCallbackParam : option Handler) (m : Machine) :
  let m' := snd (initialize options interactionCallbackParam m) in
  correlationID (client m') = Some (assigned_id options (world m)) /\
  secretKey (client m') = Some (assigned_key options (world m)).
Proof.
  unfold initialize, generateRandomID, uuidv4.
  erewrite bind_run by apply or_else_random.
  erewrite bind_run by reflexivity.
  erewrite bind_run by apply or_else_random.
  erewrite bind_run by reflexivity.
  erewrite bind_run by apply or_else_random.
  erewrite bind_run by reflexivity.
  match goal with
  | |- context [snd (?c ?m0)] =>
      assert (K1 : keeps correlationID (fun _ => False) c) by keeps_auto;
      assert (K2 : keeps secretKey (fun _ => False) c) by keeps_auto;
      destruct (K1 m0) as [E1 | []]; destruct (K2 m0) as [E2 | []]
  end.
  unfold stays in *. cbv zeta. rewrite E1, E2. split; reflexivity.
Qed.

(** Past its first URL, [initialize] leaves the token of the session to
    resume, else the one its first assignment chose. *)
Lemma initialize_token (options : Options)
    (interactionCallbackParam : option Handler) (m : Machine) (u0 : URL) :
  URL_new (or_string (opt_serverURL options) "https://oast.site") = Some u0 ->
  token (client (snd (initialize options interactionCallbackParam m))) =
  Some (assigned_token options (world m)).
Proof.
  intros H0. unfold initialize, generateRandomID, uuidv4, assigned_token.
  erewrite bind_run by apply or_else_random.
  erewrite bind_run by reflexivity.
  erewrite bind_run by apply or_else_random.
  erewrite bind_run by reflexivity.
  erewrite bind_run by apply or_else_random.
  erewrite bind_run by reflexivity.
  erewrite bind_run by (unfold new_URL; rewrite H0; reflexivity).
  erewrite bind_run by reflexivity.
  erewrite bind_run by reflexivity.
  destruct interactionCallbackParam as [h |];
    (erewrite bind_run by reflexivity);
    destruct (opt_sessionInfo options) as [session0 |];
    try (rewrite !bind_assoc; erewrite bind_run by reflexivity);
    try (erewrite bind_run by reflexivity);
    match goal with
    | |- context [snd (?c ?m0)] =>
        assert (K : keeps token (fun _ => False) c) by keeps_auto;
        destruct (K m0) as [E | []]
    end;
    rewrite E; reflexivity.
Qed.

Lemma draw_length (f : nat -> ascii) (from n : nat) :
  String.length (W.draw f from n) = n.
Proof.
  revert from. induction n as [| n IH]; intros from; simpl; auto.
Qed.

(** C10.  When the session to resume has an empty correlation id or an
    empty secret key, [initialize] does not adopt it: the cell receives the
    next characters of the random source, as many as the configured length
    ([correlationIdLength || 20], respectively
    [correlationIdNonceLength || 13]).  An empty token of that session is
    adopted as it is, once the first URL has parsed. *)
Theorem empty_identifiers_are_replaced (options : Options)
    (interactionCallbackParam : option Handler) (m : Machine)
    (session : SessionInfo) :
  opt_sessionInfo options = Some session ->
  let m' := snd (initialize options interactionCallbackParam m) in
  let w := world m in
  (si_correlationID session = EmptyString ->
   exists fresh,
     correlationID (client m') = Some fresh /\
     fresh = W.draw (entropy w) (drawn (after_token options w))
               (length_of
                  (Number.or_default (opt_correlationIdLength options) (Num 20))) /\
     String.length fresh =
       length_of (Number.or_default (opt_correlationIdLength options) (Num 20))) /\
  (si_secretKey session = EmptyString ->
   exists fresh,
     secretKey (client m') = Some fresh /\
     fresh = W.draw (entropy w) (drawn (after_id options w))
               (length_of
                  (Number.or_default (opt_correlationIdNonceLength options)
                     (Num 13))) /\
     String.length fresh =
       length_of
         (Number.or_default (opt_correlationIdNonceLength options) (Num 13))) /\
  (si_token session = EmptyString ->
   forall u0,
     URL_new (or_string (opt_serverURL options) "https://oast.site") = Some u0 ->
     token (client m') = Some EmptyString).
Proof.
  intros Hs m' w.
  destruct (initialize_identifiers options interactionCallbackParam m)
    as [Hid Hkey].
  fold m' in Hid, Hkey. fold w in Hid, Hkey.
  split; [| split].
  - intros He. eexists. split; [exact Hid |].
    unfold assigned_id, resumed_id, chosen. rewrite Hs. simpl. rewrite He.
    simpl. split; [reflexivity | apply draw_length].
  - intros He. eexists. split; [exact Hkey |].
    unfold assigned_key, resumed_key, chosen. rewrite Hs. simpl. rewrite He.
    simpl. split; [reflexivity | apply draw_length].
  - intros He u0 H0. subst m'.
    rewrite (initialize_token options interactionCallbackParam m u0 H0).
    unfold assigned_token. rewrite Hs, He. reflexivity.
Qed.

(** *** Saving and resuming a session *)






(** C9 (as amended).  [saveSession] throws, and changes nothing, exactly
    when the server URL is undefined or the correlation id or the secret
    key is undefined or empty.  Otherwise it returns the JSON text of a flat
    object of five string properties, in this order: serverURL, token,
    privateKey, correlationID, secretKey; privateKey is the empty string
    whatever the crypto service holds. *)
Theorem saveSession_exports (m : Machine) :
  (fst (saveSession m) = Throw SessionIncomplete <->
   serverURL (client m) = None \/
   truthy_opt (correlationID (client m)) = false \/
   truthy_opt (secretKey (client m)) = false) /\
  snd (saveSession m) = m /\
  (forall text,
      fst (saveSession m) = Ok text ->
      exists u id key,
        serverURL (client m) = Some u /\
        correlationID (client m) = Some id /\
        secretKey (client m) = Some key /\
        text =
          JSON_stringify
            (JObj [("serverURL", JStr (URL_toString u));
                   ("token", JStr (or_string (token (client m)) EmptyString));
                   ("privateKey", JStr EmptyString);
                   ("correlationID", JStr id);
                   ("secretKey", JStr key)])).
Proof.
  unfold saveSession. unfold_monad.
  destruct (serverURL (client m)) as [u |];
    [| repeat split; auto; discriminate].
  destruct (correlationID (client m)) as [id |]; simpl;
    [| repeat split; auto; discriminate].
  destruct (secretKey (client m)) as [key |]; simpl;
    [| repeat split; auto; discriminate].
  destruct (truthy_string id), (truthy_string key); simpl;
    (split; [split; [try discriminate; auto
                    | intros [H | [H | H]]; discriminate || reflexivity]
            | split; [reflexivity | try discriminate]]).
  intros text H. injection H as <-. exists u, id, key.
  repeat split. unfold json_of_session, session. simpl.
  destruct getPrivateKey; reflexivity.
Qed.

(** *** Interaction addresses *)





(** *** Observations that do not change *)

Section Unchanged.

Context {X : Type} (g : Machine -> X).

Lemma unchanged_ret {A : Type} (a : A) : unchanged g (ret a).
Proof. intros m; reflexivity. Qed.

Lemma unchanged_throw {A : Type} (e : Err) : unchanged g (@throw _ A e).
Proof. intros m; reflexivity. Qed.

Lemma unchanged_read : unchanged g read.
Proof. intros m; reflexivity. Qed.

Lemma unchanged_bind {A B : Type} (c : M A) (k : A -> M B) :
  unchanged g c -> (forall a, unchanged g (k a)) -> unchanged g (bind c k).
Proof.
  intros Hc Hk m. unfold bind. specialize (Hc m).
  destruct (c m) as [[a | e] m1]; simpl in *; [| exact Hc].
  rewrite Hk. exact Hc.
Qed.

Lemma unchanged_try_catch {A : Type} (body : M A) (handler : Err -> M A) :
  unchanged g body -> (forall e, unchanged g (handler e)) ->
  unchanged g (try_catch body handler).
Proof.
  intros Hb Hh m. unfold try_catch. specialize (Hb m).
  destruct (body m) as [[a | e] m1]; simpl in *; [exact Hb |].
  rewrite Hh. exact Hb.
Qed.

Lemma unchanged_write (f : Client -> Client) :
  (forall m, g {| client := f (client m); world := world m |} = g m) ->
  unchanged g (write f).
Proof. intros H m. apply H. Qed.

Lemma unchanged_effect (f : World -> World) :
  (forall m, g {| client := client m; world := f (world m) |} = g m) ->
  unchanged g (effect f).
Proof. intros H m. apply H. Qed.

Lemma unchanged_request (r : Request) :
  (forall m,
      g {| client := client m;
           world := W.take_response (W.send r (world m)) |} = g m) ->
  unchanged g (request r).
Proof.
  intros H m. unfold request.
  destruct (network (world m)) as [| [? ? | ?] ?]; apply H.
Qed.

Lemma unchanged_random (n : nat) :
  (forall m,
      g {| client := client m; world := W.consume n (world m) |} = g m) ->
  unchanged g (random n).
Proof. intros H m. apply H. Qed.

End Unchanged.

Create HintDb unchanged discriminated.

(** Proves [unchanged] by following the structure of the computation. *)
Ltac unchanged_step :=
  first
    [ solve [auto 2 with unchanged nocore]
    | apply unchanged_ret | apply unchanged_throw | apply unchanged_read
    | apply unchanged_write; intro; reflexivity
    | apply unchanged_effect; intro; reflexivity
    | apply unchanged_request; intro; reflexivity
    | apply unchanged_random; intro; reflexivity
    | match goal with
      | |- unchanged _ (bind _ _) => apply unchanged_bind; [| intro]
      | |- unchanged _ (try_catch _ _) => apply unchanged_try_catch; [| intro]
      | |- unchanged _ (match ?x with _ => _ end) => destruct x eqn:?
      end ].

Ltac unchanged_auto := repeat unchanged_step.

Lemma unchanged_for_each_item {X : Type} (f : World -> X)
    (callback : Handler) (data : Json) (items : list Json) :
  (forall i w, f (W.deliver i w) = f w) ->
  unchanged (of_world f) (for_each_item callback data items).
Proof.
  intros H. induction items as [| item rest IH]; simpl.
  - apply unchanged_ret.
  - unfold prop, invoke. unchanged_auto.
    apply unchanged_effect. intro. apply H.
Qed.

(** A poll cycle leaves the schedule alone: the loops launched, the
    sleeps taken and the random source. *)
Lemma getInteractions_schedule (callback : Handler) (m : Machine) :
  let m' := snd (getInteractions callback m) in
  timers (world m') = timers (world m) /\
  loops (world m') = loops (world m) /\
  drawn (world m') = drawn (world m).
Proof.
  assert (U : forall (X : Type) (f : World -> X),
             (forall i w, f (W.deliver i w) = f w) ->
             (forall r w, f (W.take_response (W.send r w)) = f w) ->
             (forall l w, f (W.log l w) = f w) ->
             unchanged (of_world f) (getInteractions callback)).
  { intros X f Hd Hr Hl. unfold getInteractions, new_URL_base, prop.
    unchanged_auto.
    - apply unchanged_request. intro. apply Hr.
    - apply unchanged_for_each_item. exact Hd.
    - apply unchanged_effect. intro. apply Hl. }
  split; [| split].
  - apply (U _ timers); reflexivity.
  - apply (U _ loops); reflexivity.
  - apply (U _ drawn); reflexivity.
Qed.

(** *** Starting and stopping the scheduler *)

Lemma pollingLoop_cancelled (callback : Handler) (n : nat) (m : Machine) :
  quitPollingFlag (client m) = true ->
  pollingLoop (S n) callback m = (Ok false, m).
Proof.
  intros H. simpl. unfold pollingLoop_turn. unfold_monad. rewrite H.
  reflexivity.
Qed.

Lemma pollingLoop_turn_runs (callback : Handler) (m : Machine) :
  quitPollingFlag (client m) = false ->
  pollingLoop_turn callback m =
  (Ok true,
   {| client := client m;
      world := W.sleep (pollingInterval (client m))
                 (world (snd (getInteractions callback m))) |}).
Proof.
  intros Hflag.
  unfold pollingLoop_turn. unfold bind at 1. unfold read at 1.
  rewrite Hflag. unfold bind at 1.
  rewrite (try_catch_returns _ _ _ tt (getInteractions_returns callback m)).
  pose proof (getInteractions_returns callback m) as R.
  pose proof (proj1 (getInteractions_frame callback m)) as C.
  destruct (getInteractions callback m) as [r g]; simpl in *. subst r.
  unfold_monad. simpl. rewrite C. reflexivity.
Qed.

(** X1.  Of two calls of [startPolling] in a row the second always throws
    "already polling" and changes nothing, and the state after the first
    is Polling.  Called in a state other than Polling, [startPolling]
    returns, clears the cancellation flag and launches one loop, with the
    callback given; called in Polling it throws and changes nothing. *)
Theorem startPolling_twice (callback callback' : Handler) (m : Machine) :
  let m1 := snd (startPolling callback m) in
  startPolling callback' m1 = (Throw AlreadyPolling, m1) /\
  state (client m1) = Polling /\
  (state (client m) = Polling ->
   startPolling callback m = (Throw AlreadyPolling, m)) /\
  (state (client m) <> Polling ->
   fst (startPolling callback m) = Ok tt /\
   quitPollingFlag (client m1) = false /\
   loops (world m1) = (loops (world m) ++ [callback])%list).
Proof.
  unfold startPolling. unfold_monad.
  destruct (State_eqb (state (client m)) Polling) eqn:E; simpl.
  - rewrite E. apply State_eqb_eq in E.
    repeat split; auto; congruence.
  - apply State_eqb_neq in E. repeat split; auto; congruence.
Qed.

(** X2.  [stopPolling] throws "not polling" and changes nothing unless the
    state is Polling.  In Polling it returns with the state Idle and the
    cancellation flag set, the world untouched; from then on a polling loop
    that reaches its test leaves without a request or a sleep, and a second
    [stopPolling] throws. *)
Theorem stopPolling_cancels (m : Machine) :
  let m1 := snd (stopPolling m) in
  (state (client m) <> Polling -> stopPolling m = (Throw NotPolling, m)) /\
  (state (client m) = Polling ->
   fst (stopPolling m) = Ok tt /\
   state (client m1) = Idle /\
   quitPollingFlag (client m1) = true /\
   world m1 = world m /\
   (forall callback n, pollingLoop (S n) callback m1 = (Ok false, m1)) /\
   stopPolling m1 = (Throw NotPolling, m1)).
Proof.
  cbv zeta. split.
  - intros H. apply State_eqb_neq in H.
    unfold stopPolling. unfold_monad. rewrite H. reflexivity.
  - intros H.
    assert (E : stopPolling m =
                (Ok tt,
                 {| client := set_state Idle
                                (set_quitPollingFlag true (client m));
                    world := world m |})).
    { unfold stopPolling. unfold_monad. rewrite H. reflexivity. }
    rewrite E. simpl.
    split; [reflexivity |]. split; [reflexivity |]. split; [reflexivity |].
    split; [reflexivity |]. split; [| reflexivity].
    intros callback n. apply pollingLoop_cancelled. reflexivity.
Qed.


(** X4.  [poll] throws "not polling" and changes nothing unless the state
    is Polling.  In Polling it is one poll cycle and returns normally; it
    leaves the cells, the loops and the sleeps as they are.  Its handler is
    the callback [initialize] was given, not the one the loop was started
    with: on a client initialized without a callback, [poll] after
    [startPolling callback] delivers to the default handler. *)
Theorem poll_outcomes (m : Machine) :
  let m1 := snd (poll m) in
  (state (client m) <> Polling -> poll m = (Throw NotPolling, m)) /\
  (state (client m) = Polling ->
   fst (poll m) = Ok tt /\
   client m1 = client m /\
   timers (world m1) = timers (world m) /\
   loops (world m1) = loops (world m)) /\
  (forall callback,
      state (client m) <> Polling ->
      interactionCallback (client m) = None ->
      poll (snd (startPolling callback m)) =
      getInteractions defaultInteractionHandler (snd (startPolling callback m))).
Proof.
  cbv zeta. split; [| split].
  - intros H. apply State_eqb_neq in H.
    unfold poll. unfold_monad. rewrite H. reflexivity.
  - intros H. rewrite (poll_is_a_cycle m H).
    split; [apply getInteractions_returns |].
    split; [apply getInteractions_frame |].
    destruct (getInteractions_schedule (handler_of (client m)) m)
      as (T & L & _).
    split; assumption.
  - intros callback H Hcb.
    apply State_eqb_neq in H.
    assert (E : startPolling callback m =
                (Ok tt,
                 {| client := set_state Polling
                                (set_quitPollingFlag false (client m));
                    world := W.launch callback (world m) |})).
    { unfold startPolling. unfold_monad. rewrite H. reflexivity. }
    rewrite E. simpl. rewrite poll_is_a_cycle by reflexivity.
    unfold handler_of. simpl. rewrite Hcb. reflexivity.
Qed.

(** *** What a poll cycle delivers *)

Lemma deliver_all_calls (records : list Json) (w : World) :
  calls (deliver_all records w) = (calls w ++ records)%list /\
  console (deliver_all records w) = console w /\
  sent (deliver_all records w) = sent w /\
  network (deliver_all records w) = network w.
Proof.
  revert w. induction records as [| a l IH]; intros w; simpl.
  - rewrite app_nil_r. auto.
  - destruct (IH (W.deliver a w)) as (C & L & S & N).
    unfold deliver_all in *. rewrite C, L, S, N. simpl.
    rewrite <- app_assoc. auto.
Qed.

Lemma deliver_all_app (l l' : list Json) (w : World) :
  deliver_all (l ++ l') w = deliver_all l' (deliver_all l w).
Proof. unfold deliver_all. apply fold_left_app. Qed.

(** The items that come before the first failure are handed over, in
    order, and the loop goes on with the rest. *)
Lemma for_each_item_good (callback : Handler) (fields : list (string * Json))
    (good rest : list Json) (m : Machine) :
  Forall (fun item =>
            item_failure callback (Js.lookup "aes_key" fields) item = None)
    good ->
  for_each_item callback (JObj fields) (good ++ rest) m =
  for_each_item callback (JObj fields) rest
    {| client := client m;
       world := deliver_all
                  (flat_map (delivered_of (Js.lookup "aes_key" fields)) good)
                  (world m) |}.
Proof.
  intros H. revert m. induction H as [| item good Hi Hg IH]; intros m.
  - simpl. rewrite machine_eta. reflexivity.
  - simpl app. cbn [for_each_item flat_map]. unfold prop, invoke.
    unfold_monad. unfold item_failure in Hi.
    unfold delivered_of at 1. unfold decode in *. simpl.
    destruct (decryptMessage (Js.lookup "aes_key" fields) item) as [text |];
      [| discriminate].
    destruct (JSON_parse text) as [a |]; [| discriminate].
    destruct (callback a); [discriminate |]. simpl.
    rewrite IH. reflexivity.
Qed.

Lemma for_each_item_fails (callback : Handler) (fields : list (string * Json))
    (bad : Json) (rest : list Json) (m : Machine) (e : Err) :
  item_failure callback (Js.lookup "aes_key" fields) bad = Some e ->
  for_each_item callback (JObj fields) (bad :: rest) m =
  (Throw e,
   {| client := client m;
      world := deliver_all (delivered_of (Js.lookup "aes_key" fields) bad)
                 (world m) |}).
Proof.
  intros H. cbn [for_each_item]. unfold prop, invoke. unfold_monad.
  unfold item_failure, decode, decode_error in H.
  unfold delivered_of, decode. simpl.
  destruct (decryptMessage (Js.lookup "aes_key" fields) bad) as [text |];
    simpl.
  - destruct (JSON_parse text) as [a |]; simpl.
    + destruct (callback a); [| discriminate]. injection H as <-.
      reflexivity.
    + injection H as <-. rewrite machine_eta. reflexivity.
  - injection H as <-. rewrite machine_eta. reflexivity.
Qed.

(** A poll cycle answered 200 whose body has an array under [data]: the
    request, then the loop over the items, its error logged. *)
Lemma getInteractions_items (callback : Handler) (m : Machine) (url : URL)
    (fields : list (string * Json)) (items : list Json)
    (answers : list HttpResult) :
  URL_new_base (poll_path (client m)) (base_of (client m)) = Some url ->
  network (world m) = Response 200 (JObj fields) :: answers ->
  Js.lookup "data" fields = Some (JArr items) ->
  getInteractions callback m =
  try_catch
    (for_each_item callback (JObj fields) items)
    (fun err => console_error (ErrorPollingInteractionsLog err))
    {| client := client m;
       world := W.take_response
                  (W.send (poll_request (client m) url) (world m)) |}.
Proof.
  intros Hu Hn Hd.
  unfold getInteractions, new_URL_base, request, prop, poll_request.
  unfold_monad. fold (poll_path (client m)).
  rewrite Hu; simpl. rewrite Hn; simpl. rewrite Hd; simpl. reflexivity.
Qed.

(** X5.  A poll cycle answered 200 with an array of items that all decode,
    the handler returning on each: the handler is called once per item, on
    the records in the order of the array; nothing is logged; one poll
    request was sent and one answer taken. *)
Theorem poll_cycle_delivers_in_order (callback : Handler) (m : Machine)
    (url : URL) (fields : list (string * Json)) (items : list Json)
    (answers : list HttpResult) :
  URL_new_base (poll_path (client m)) (base_of (client m)) = Some url ->
  network (world m) = Response 200 (JObj fields) :: answers ->
  Js.lookup "data" fields = Some (JArr items) ->
  Forall (fun item =>
            item_failure callback (Js.lookup "aes_key" fields) item = None)
    items ->
  let records := flat_map (delivered_of (Js.lookup "aes_key" fields)) items in
  let m' := snd (getInteractions callback m) in
  calls (world m') = (calls (world m) ++ records)%list /\
  List.length records = List.length items /\
  console (world m') = console (world m) /\
  sent (world m') = (sent (world m) ++ [poll_request (client m) url])%list /\
  network (world m') = answers.
Proof.
  intros Hu Hn Hd Hall records m'.
  set (w0 := W.take_response
               (W.send (poll_request (client m) url) (world m))).
  assert (E : getInteractions callback m =
              (Ok tt, {| client := client m;
                         world := deliver_all records w0 |})).
  { rewrite (getInteractions_items callback m url fields items answers
               Hu Hn Hd).
    unfold try_catch. rewrite <- (app_nil_r items) at 1.
    rewrite for_each_item_good by exact Hall. reflexivity. }
  subst m'. rewrite E. cbn [snd world].
  destruct (deliver_all_calls records w0) as (C & L & S & N).
  rewrite C, L, S, N. subst w0. cbn. rewrite Hn.
  split; [reflexivity |]. split; [| auto].
  subst records. clear - Hall.
  induction Hall as [| item l Hi Hl IH]; [reflexivity |].
  cbn [flat_map]. unfold item_failure in Hi. unfold delivered_of at 1.
  destruct (decode (Js.lookup "aes_key" fields) item); [| discriminate].
  cbn. rewrite IH. reflexivity.
Qed.

(** X6.  A poll cycle answered 200 with an array in which the items
    [good] go through and the next one, [bad], does not, be it that it
    does not decode or that the handler throws on its record: the handler
    was called on the records of [good], in order, and on that of [bad] if
    it decoded; the one failure is logged; no item after [bad] is looked
    at; and the cycle returns normally. *)
Theorem poll_cycle_stops_at_first_failure (callback : Handler) (m : Machine)
    (url : URL) (fields : list (string * Json)) (good rest : list Json)
    (bad : Json) (e : Err) (answers : list HttpResult) :
  URL_new_base (poll_path (client m)) (base_of (client m)) = Some url ->
  network (world m) = Response 200 (JObj fields) :: answers ->
  Js.lookup "data" fields = Some (JArr (good ++ bad :: rest)) ->
  Forall (fun item =>
            item_failure callback (Js.lookup "aes_key" fields) item = None)
    good ->
  item_failure callback (Js.lookup "aes_key" fields) bad = Some e ->
  let m' := snd (getInteractions callback m) in
  fst (getInteractions callback m) = Ok tt /\
  calls (world m') =
    (calls (world m)
     ++ flat_map (delivered_of (Js.lookup "aes_key" fields)) (good ++ [bad]))%list /\
  console (world m') =
    (console (world m) ++ [ErrorPollingInteractionsLog e])%list.
Proof.
  intros Hu Hn Hd Hall Hbad m'.
  split; [apply getInteractions_returns |].
  set (key := Js.lookup "aes_key" fields) in *.
  set (w0 := W.take_response
               (W.send (poll_request (client m) url) (world m))).
  assert (E : getInteractions callback m =
              (Ok tt,
               {| client := client m;
                  world := W.log (ErrorPollingInteractionsLog e)
                             (deliver_all
                                (flat_map (delivered_of key) (good ++ [bad]))
                                w0) |})).
  { rewrite (getInteractions_items callback m url fields _ answers Hu Hn Hd).
    unfold try_catch.
    rewrite for_each_item_good by exact Hall.
    rewrite (for_each_item_fails callback fields bad rest _ e Hbad).
    unfold console_error, effect. cbn [client world].
    rewrite <- deliver_all_app.
    rewrite flat_map_app. cbn [flat_map]. rewrite app_nil_r. reflexivity. }
  subst m'. rewrite E. cbn [snd world W.log calls console].
  destruct (deliver_all_calls (flat_map (delivered_of key) (good ++ [bad])) w0)
    as (C & L & _).
  rewrite C, L. split; reflexivity.
Qed.

(** X7.  A poll cycle answered 200 whose body has no array under [data]
    (no such property, or a value that is not an array) calls no handler
    and logs nothing; when the body is null, reading [data] fails and that
    error is logged.  In both cases the cycle returns normally. *)
Theorem poll_cycle_without_items (callback : Handler) (m : Machine)
    (url : URL) (data : Json) (answers : list HttpResult) :
  URL_new_base (poll_path (client m)) (base_of (client m)) = Some url ->
  network (world m) = Response 200 data :: answers ->
  let m' := snd (getInteractions callback m) in
  fst (getInteractions callback m) = Ok tt /\
  (forall value,
      Js.get_prop data "data" = Some value -> Js.isArray value = false ->
      calls (world m') = calls (world m) /\
      console (world m') = console (world m)) /\
  (data = JNull ->
   calls (world m') = calls (world m) /\
   console (world m') =
     (console (world m) ++ [ErrorPollingInteractionsLog NullDereference])%list).
Proof.
  intros Hu Hn m'. subst m'.
  split; [apply getInteractions_returns |].
  unfold getInteractions, new_URL_base, request, prop.
  unfold_monad. fold (poll_path (client m)).
  rewrite Hu; simpl. rewrite Hn; simpl.
  split.
  - intros value Hv Ha. rewrite Hv. simpl.
    rewrite Ha, andb_false_r. simpl. split; reflexivity.
  - intros ->. simpl. split; reflexivity.
Qed.

(** *** Closing and stopping *)

Lemma authorization_header (c : Client) (name value : string) :
  In (name, value) (authorization c) <->
  name = "Authorization" /\ token c = Some value /\
  truthy_string value = true.
Proof.
  unfold authorization, truthy_opt, interpolate.
  destruct (token c) as [t |]; simpl.
  - destruct (truthy_string t) eqn:E; simpl.
    + split.
      * intros [H | []]. injection H as <- <-. auto.
      * intros (-> & H & _). injection H as ->. auto.
    + split; [intros [] |]. intros (_ & H & T). injection H as ->. congruence.
  - split; [intros [] |]. intros (_ & H & _). discriminate.
Qed.

(** X8.  [close] in Idle: when the deregistration URL cannot be built
    (no server URL yet) it throws before sending anything; otherwise it
    sends one POST to that URL, with the correlation id and the secret key
    as its body and, exactly when the token is truthy, the token as its
    Authorization header.  A rejected or unanswered request makes it throw
    the transport error, the cells as they were. *)
Theorem close_request (m : Machine) :
  state (client m) = Idle ->
  (URL_new_base "/deregister" (base_of (client m)) = None ->
   close m = (Throw InvalidURL, m)) /\
  (forall url,
      URL_new_base "/deregister" (base_of (client m)) = Some url ->
      let m' := snd (close m) in
      sent (world m') =
        (sent (world m) ++ [deregister_request (client m) url])%list /\
      network (world m') = tl (network (world m)) /\
      (forall value,
          In ("Authorization", value)
            (req_headers (deregister_request (client m) url)) <->
          token (client m) = Some value /\ truthy_string value = true) /\
      (forall e,
          transport_error (world m) = Some e ->
          fst (close m) = Throw e /\ client m' = client m)).
Proof.
  intros Hs. unfold close, new_URL_base, request. unfold_monad.
  rewrite Hs. simpl. split.
  - intros Hu. rewrite Hu. reflexivity.
  - intros url Hu. rewrite Hu. simpl.
    fold (deregister_request (client m) url).
    split; [| split; [| split]].
    + destruct (network (world m)) as [| [s d | r] rest]; simpl;
        try reflexivity.
      destruct (negb (s =? 200)%Z); reflexivity.
    + destruct (network (world m)) as [| [s d | r] rest] eqn:E; simpl;
        rewrite ?E; try reflexivity.
      destruct (negb (s =? 200)%Z); simpl; rewrite E; reflexivity.
    + intros value. simpl. rewrite authorization_header. split.
      * intros [H | H]; [discriminate | tauto].
      * intros H. right. tauto.
    + intros e He. unfold transport_error in He.
      destruct (network (world m)) as [| [s d | r] rest]; simpl;
        try discriminate; injection He as <-; split; reflexivity.
Qed.

Lemma close_keeps_flag :
  keeps quitPollingFlag (fun _ => False) close.
Proof. unfold close. keeps_auto. Qed.

(** X9.  [stop] is [close] when the state is Idle and throws "already
    closed" when it is Closed.  In Polling it stops polling first and then
    closes: the cancellation flag is set and the state is never left
    Polling; when the deregistration then fails, [stop] throws and the
    client stays Idle, its polling stopped. *)
Theorem stop_outcomes (m : Machine) :
  let m' := snd (stop m) in
  (state (client m) = Closed -> stop m = (Throw AlreadyClosed, m)) /\
  (state (client m) = Idle -> stop m = close m) /\
  (state (client m) = Polling ->
   stop m = close (snd (stopPolling m)) /\
   quitPollingFlag (client m') = true /\
   (fst (stop m) = Ok tt -> state (client m') = Closed) /\
   (fst (stop m) <> Ok tt -> state (client m') = Idle)).
Proof.
  cbv zeta. split; [| split].
  - intros H. unfold stop, close. unfold_monad. rewrite H. simpl.
    rewrite H. reflexivity.
  - intros H. unfold stop. unfold_monad. rewrite H. reflexivity.
  - intros H.
    assert (E : stopPolling m =
                (Ok tt,
                 {| client := set_state Idle
                                (set_quitPollingFlag true (client m));
                    world := world m |})).
    { unfold stopPolling. unfold_monad. rewrite H. reflexivity. }
    assert (S : stop m = close (snd (stopPolling m))).
    { unfold stop. unfold bind at 1. unfold read at 1. rewrite H. simpl.
      unfold bind at 1. rewrite E. reflexivity. }
    split; [exact S |]. rewrite S, E. cbn [snd].
    set (m1 := {| client := _; world := world m |}).
    split.
    { destruct (close_keeps_flag m1) as [K | []]. rewrite K. reflexivity. }
    unfold close, new_URL_base, request. unfold_monad. subst m1. simpl.
    destruct (URL_new_base "/deregister" _); simpl.
    2: { split; [intros F; discriminate F | reflexivity]. }
    destruct (network (world m)) as [| [s d | r] rest]; simpl;
      try (split; [intros F; discriminate F | reflexivity]).
    destruct (negb (s =? 200)%Z); simpl.
    + split; [intros F; discriminate F | reflexivity].
    + split; [reflexivity | intros F; elim F; reflexivity].
Qed.

(** *** The polling loop *)

(** A turn taken with the flag clear hands over to the rest of the loop. *)
Lemma pollingLoop_step (n : nat) (callback : Handler) (m : Machine) :
  quitPollingFlag (client m) = false ->
  pollingLoop (S n) callback m =
  pollingLoop n callback
    {| client := client m;
       world := W.sleep (pollingInterval (client m))
                  (world (snd (getInteractions callback m))) |}.
Proof.
  intros F. cbn [pollingLoop]. unfold bind.
  rewrite (pollingLoop_turn_runs callback m F). reflexivity.
Qed.

(** X10.  A polling loop never throws, whatever the network answers, the
    crypto service does or the handler throws, and it never writes a cell
    of the client: for any number of turns it returns, running or not, with
    the cells as they were. *)
Theorem pollingLoop_never_throws (turns : nat) (callback : Handler)
    (m : Machine) :
  (exists running, fst (pollingLoop turns callback m) = Ok running) /\
  client (snd (pollingLoop turns callback m)) = client m.
Proof.
  revert m. induction turns as [| n IH]; intros m.
  - simpl. eauto.
  - destruct (quitPollingFlag (client m)) eqn:F.
    + rewrite pollingLoop_cancelled by exact F. simpl. eauto.
    + rewrite (pollingLoop_step n callback m F).
      match goal with
      | |- context [pollingLoop n callback ?m1] =>
          destruct (IH m1) as [R C]
      end.
      split; [exact R |]. rewrite C. reflexivity.
Qed.

(** X11.  As long as the cancellation flag is clear, a polling loop takes
    every turn: after [turns] turns it is still running, it has sent that
    many poll requests, taken that many answers and slept that many times
    for the polling interval. *)
Theorem pollingLoop_runs (turns : nat) (callback : Handler) (m : Machine)
    (url : URL) :
  quitPollingFlag (client m) = false ->
  URL_new_base (poll_path (client m)) (base_of (client m)) = Some url ->
  let m' := snd (pollingLoop turns callback m) in
  fst (pollingLoop turns callback m) = Ok true /\
  sent (world m') =
    (sent (world m) ++ repeat (poll_request (client m) url) turns)%list /\
  timers (world m') =
    (timers (world m) ++ repeat (pollingInterval (client m)) turns)%list /\
  network (world m') = skipn turns (network (world m)).
Proof.
  intros F U. cbv zeta. revert m F U.
  induction turns as [| n IH]; intros m F U.
  - simpl. rewrite !app_nil_r. auto.
  - rewrite (pollingLoop_step n callback m F).
    set (m1 := {| client := client m; world := _ |}).
    destruct (IH m1 F U) as (R & S & T & N).
    rewrite R, S, T, N. subst m1. cbn [client world W.sleep sent timers network].
    destruct (getInteractions_frame callback m) as (_ & G).
    destruct (G url U) as (Gs & Gn).
    destruct (getInteractions_schedule callback m) as (Gt & _).
    rewrite Gs, Gn, Gt. cbn [repeat].
    rewrite <- !app_assoc. cbn [app].
    split; [reflexivity |]. split; [reflexivity |]. split; [reflexivity |].
    destruct (network (world m)); [destruct n |]; reflexivity.
Qed.

(** X12.  A new refresh time applies from the next sleep: after
    [setRefreshTimeSecond] on [z] seconds, 5 to 3600, the loop's next turn
    sleeps for [z * 1000] milliseconds. *)
Theorem refresh_applies_to_next_sleep (z : Z) (callback : Handler)
    (m : Machine) :
  (5 <= z <= 3600)%Z ->
  quitPollingFlag (client m) = false ->
  let m1 := snd (setRefreshTimeSecond (Num z) m) in
  fst (pollingLoop_turn callback m1) = Ok true /\
  timers (world (snd (pollingLoop_turn callback m1))) =
    (timers (world m) ++ [Num (z * 1000)])%list.
Proof.
  intros Hz F m1.
  assert (E : m1 = {| client := set_pollingInterval (Num (z * 1000)) (client m);
                      world := world m |}).
  { subst m1. unfold setRefreshTimeSecond.
    rewrite (proj2 (accepted_seconds z) Hz). reflexivity. }
  assert (F1 : quitPollingFlag (client m1) = false) by (rewrite E; exact F).
  rewrite (pollingLoop_turn_runs callback m1 F1).
  split; [reflexivity |]. cbn [snd world W.sleep timers].
  destruct (getInteractions_schedule callback m1) as (Gt & _).
  rewrite Gt, E. reflexivity.
Qed.

(** *** Initializing *)

(** X13.  [initialize] checks [options.serverURL] (or the default) even
    when a session is given, and it does so after it has assigned the
    token, the correlation id and the secret key.  When that URL does not
    parse, [initialize] throws with the three identifiers already replaced
    and the rest as it was: the server URL, the state, the callback and
    the nonce length are the old ones, and no request was sent. *)
Theorem initialize_invalid_server_URL (options : Options)
    (interactionCallbackParam : option Handler) (m : Machine) :
  URL_new (or_string (opt_serverURL options) "https://oast.site") = None ->
  let m' := snd (initialize options interactionCallbackParam m) in
  fst (initialize options interactionCallbackParam m) = Throw InvalidURL /\
  token (client m') = Some (chosen (opt_token options) 36 (world m)) /\
  correlationID (client m') = Some (assigned_id options (world m)) /\
  secretKey (client m') = Some (assigned_key options (world m)) /\
  serverURL (client m') = serverURL (client m) /\
  state (client m') = state (client m) /\
  interactionCallback (client m') = interactionCallback (client m) /\
  correlationIdNonceLength (client m') = correlationIdNonceLength (client m) /\
  sent (world m') = sent (world m).
Proof.
  intros H. cbv zeta. run_initialize. rewrite H. simpl.
  unfold assigned_id, assigned_key, after_id, after_token, resumed_id,
    resumed_key, id_length, key_length.
  repeat split; reflexivity.
Qed.

(** X14.  When the URL of the session to resume does not parse,
    [initialize] throws after it has taken the session's token: the
    client is left with the server URL of the options (or the default),
    the token and the identifiers of the session, and the new callback;
    no request was sent. *)
Theorem initialize_invalid_session_URL (options : Options)
    (interactionCallbackParam : option Handler) (m : Machine)
    (session0 : SessionInfo) (u0 : URL) :
  opt_sessionInfo options = Some session0 ->
  URL_new (or_string (opt_serverURL options) "https://oast.site") = Some u0 ->
  URL_new (si_serverURL session0) = None ->
  let m' := snd (initialize options interactionCallbackParam m) in
  fst (initialize options interactionCallbackParam m) = Throw InvalidURL /\
  serverURL (client m') = Some u0 /\
  token (client m') = Some (si_token session0) /\
  correlationID (client m') = Some (assigned_id options (world m)) /\
  secretKey (client m') = Some (assigned_key options (world m)) /\
  (forall h, interactionCallbackParam = Some h ->
             interactionCallback (client m') = Some h) /\
  state (client m') = state (client m) /\
  sent (world m') = sent (world m).
Proof.
  intros Hs H0 Hu. cbv zeta. run_initialize. rewrite H0. simpl.
  unfold assigned_id, assigned_key, after_id, after_token, resumed_id,
    resumed_key, id_length, key_length.
  rewrite Hs. simpl.
  destruct interactionCallbackParam as [h |]; simpl; rewrite Hu; simpl;
    repeat split; try reflexivity; intros h' E; congruence.
Qed.

(** X15.  When the crypto service gives no public key, [initialize]
    throws before the registration: no request is sent and the state is
    as it was, but the cells are those of an initialized client, so that
    [generateUrl] hands out addresses under a correlation id the server
    has never been told. *)
Theorem initialize_without_public_key (options : Options)
    (interactionCallbackParam : option Handler) (m : Machine) (u0 u : URL) :
  URL_new (or_string (opt_serverURL options) "https://oast.site") = Some u0 ->
  URL_new (target options) = Some u ->
  encodePublicKey = None ->
  state (client m) <> Closed ->
  let m' := snd (initialize options interactionCallbackParam m) in
  fst (initialize options interactionCallbackParam m) = Throw CryptoError /\
  client m' =
    established options interactionCallbackParam u (client m) (world m) /\
  sent (world m') = sent (world m) /\
  network (world m') = network (world m) /\
  (truthy_string (assigned_id options (world m)) = true ->
   exists nonce,
     fst (generateUrl m') =
       Ok ("https://" ++ assigned_id options (world m) ++ nonce ++ "."
           ++ URL_host u)).
Proof.
  intros H0 Hu Hkey Hstate. cbv zeta.
  assert (E : initialize options interactionCallbackParam m =
              (Throw CryptoError,
               {| client := established options interactionCallbackParam u
                              (client m) (world m);
                  world := seeded options (world m) |})).
  { destruct options as [oU oT oL oN oS oK].
    unfold target, established, seeded, assigned_id, assigned_key,
      assigned_token, after_id, after_token, resumed_id, resumed_key,
      id_length, key_length in *.
    simpl in *.
    run_initialize. rewrite H0. simpl.
    destruct interactionCallbackParam as [h |], oS as [session0 |]; simpl;
      rewrite ?Hu, ?Hkey; simpl; try rewrite H0 in Hu;
      try (injection Hu as ->); reflexivity. }
  rewrite E. cbn [fst snd client world].
  split; [reflexivity |]. split; [reflexivity |].
  split; [reflexivity |]. split; [reflexivity |].
  intros Hid. eexists.
  unfold generateUrl, generateRandomID, random. unfold_monad.
  cbn [client world established state correlationID serverURL].
  apply State_eqb_neq in Hstate. rewrite Hstate. cbn [orb negb].
  unfold truthy_opt. rewrite Hid. cbn. reflexivity.
Qed.

(** X16.  A failed registration does not keep [initialize] from polling.
    With a truthy keep-alive interval, after an answer that is not a 200
    response the interval is adopted and, unless the client was Polling
    already, [initialize] returns with the state Polling, the flag clear
    and one loop launched; the loop's handler is the callback given or,
    without one, the callback an earlier [initialize] installed, the
    default handler failing that.  On a client that was Polling it throws
    "already polling", the interval changed all the same. *)
Theorem initialize_starts_polling (options : Options)
    (interactionCallbackParam : option Handler) (m : Machine)
    (u0 u registerURL : URL) (publicKey : string) (interval : number) :
  URL_new (or_string (opt_serverURL options) "https://oast.site") = Some u0 ->
  URL_new (target options) = Some u ->
  encodePublicKey = Some publicKey ->
  URL_new_base "/register" (URL_toString u) = Some registerURL ->
  answer_not_200 (world m) ->
  opt_keepAliveInterval options = Some interval ->
  Number.truthy interval = true ->
  let m' := snd (initialize options interactionCallbackParam m) in
  let handler :=
    match interactionCallbackParam, interactionCallback (client m) with
    | Some h, _ => h
    | None, Some h => h
    | None, None => defaultInteractionHandler
    end in
  pollingInterval (client m') = interval /\
  (state (client m) <> Polling ->
   fst (initialize options interactionCallbackParam m) = Ok tt /\
   state (client m') = Polling /\
   quitPollingFlag (client m') = false /\
   loops (world m') = (loops (world m) ++ [handler])%list) /\
  (state (client m) = Polling ->
   fst (initialize options interactionCallbackParam m) = Throw AlreadyPolling /\
   loops (world m') = loops (world m)).
Proof.
  intros H0 Hu Hkey Hreg Hans Hk Ht. cbv zeta.
  rewrite (initialize_registration_fails options interactionCallbackParam m
             u0 u registerURL publicKey H0 Hu Hkey Hreg Hans).
  unfold keep_alive, startPolling, handler_of. rewrite Hk, Ht.
  unfold_monad. simpl.
  destruct (State_eqb (state (client m)) Polling) eqn:E; simpl;
    [apply State_eqb_eq in E | apply State_eqb_neq in E].
  - split; [reflexivity |]. split; [intros F; contradiction |].
    intros _. split; reflexivity.
  - split; [reflexivity |]. split; [| intros F; contradiction].
    intros _.
    destruct interactionCallbackParam as [h |];
      [| destruct (interactionCallback (client m)) as [h |]];
      repeat split; reflexivity.
Qed.



(** *** The refresh time *)

(** X18.  [setRefreshTimeSecond] rejects exactly the numbers below 5 or
    above 3600: it then throws and changes nothing.  Every other argument
    is stored, multiplied by 1000, and nothing else changes; this includes
    NaN, which no comparison rejects and which leaves the polling interval
    NaN. *)
Theorem setRefreshTimeSecond_outcomes (seconds : number) (m : Machine) :
  let rejected :=
    match seconds with
    | Num z => (z < 5 \/ 3600 < z)%Z
    | NaN => False
    end in
  (rejected -> setRefreshTimeSecond seconds m = (Throw IntervalOutOfRange, m)) /\
  (~ rejected ->
   setRefreshTimeSecond seconds m =
   (Ok tt,
    {| client := set_pollingInterval (Number.mul seconds (Num 1000)) (client m);
       world := world m |})) /\
  (seconds = NaN ->
   pollingInterval (client (snd (setRefreshTimeSecond seconds m))) = NaN).
Proof.
  cbv zeta. unfold setRefreshTimeSecond, Number.lt, Number.gt.
  destruct seconds as [z |].
  - destruct (Z.ltb_spec z 5); simpl.
    + repeat split; try reflexivity; try discriminate.
      intros N. exfalso. apply N. lia.
    + destruct (Z.ltb_spec 3600 z); simpl.
      * repeat split; try reflexivity; try discriminate.
        intros N. exfalso. apply N. lia.
      * split; [intros [? | ?]; lia |]. split; [reflexivity | discriminate].
  - simpl. split; [intros [] |]. split; reflexivity.
Qed.

(** What a poll cycle leaves when every item goes through. *)
Lemma getInteractions_delivers (callback : Handler) (m : Machine)
    (url : URL) (fields : list (string * Json)) (items : list Json)
    (answers : list HttpResult) :
  URL_new_base (poll_path (client m)) (base_of (client m)) = Some url ->
  network (world m) = Response 200 (JObj fields) :: answers ->
  Js.lookup "data" fields = Some (JArr items) ->
  Forall (fun item =>
            item_failure callback (Js.lookup "aes_key" fields) item = None)
    items ->
  getInteractions callback m =
  (Ok tt,
   {| client := client m;
      world := deliver_all
                 (flat_map (delivered_of (Js.lookup "aes_key" fields)) items)
                 (W.take_response
                    (W.send (poll_request (client m) url) (world m))) |}).
Proof.
  intros Hu Hn Hd Hall.
  rewrite (getInteractions_items callback m url fields items answers
             Hu Hn Hd).
  unfold try_catch. rewrite <- (app_nil_r items) at 1.
  rewrite for_each_item_good by exact Hall. reflexivity.
Qed.

(** When every item goes through, each gives one record and the handler
    returned on it. *)
Lemma delivered_records (callback : Handler) (key : option Json)
    (items : list Json) :
  Forall (fun item => item_failure callback key item = None) items ->
  List.length (flat_map (delivered_of key) items) = List.length items /\
  Forall (fun record => callback record = None)
    (flat_map (delivered_of key) items).
Proof.
  intros Hall. induction Hall as [| item l Hi Hl (IHn & IHf)].
  - split; [reflexivity | constructor].
  - cbn [flat_map]. unfold item_failure in Hi. unfold delivered_of at 1 3.
    destruct (decode key item) as [record |]; [| discriminate].
    destruct (callback record) eqn:C; [discriminate |].
    cbn. split; [rewrite IHn; reflexivity |].
    constructor; assumption.
Qed.

(** [generateUrl] on a client that has a correlation id and a server and
    is not closed. *)
Lemma generateUrl_run (m : Machine) (id : string) (u : URL) :
  state (client m) <> Closed ->
  correlationID (client m) = Some id ->
  truthy_string id = true ->
  serverURL (client m) = Some u ->
  generateUrl m =
  (Ok ("https://" ++ id
       ++ W.draw (entropy (world m)) (drawn (world m))
            (length_of (correlationIdNonceLength (client m)))
       ++ "." ++ URL_host u),
   {| client := client m;
      world := W.consume (length_of (correlationIdNonceLength (client m)))
                 (world m) |}).
Proof.
  intros Hs Hid Ht Hu.
  unfold generateUrl, generateRandomID, random. unfold_monad.
  rewrite Hid, Hu. apply State_eqb_neq in Hs. rewrite Hs, Ht. reflexivity.
Qed.

(** [generateUrl] without a session, or closed. *)
Lemma generateUrl_empty (m : Machine) :
  state (client m) = Closed \/ correlationID (client m) = None \/
  serverURL (client m) = None ->
  generateUrl m = (Ok EmptyString, m).
Proof.
  intros H. unfold generateUrl. unfold_monad.
  destruct (correlationID (client m)) as [id |];
    [| reflexivity].
  destruct (serverURL (client m)) as [u |]; [| reflexivity].
  destruct H as [H | [H | H]]; try discriminate.
  rewrite H. reflexivity.
Qed.

(** [initialize] when the crypto service has no public key. *)
Lemma initialize_keyless (options : Options)
    (interactionCallbackParam : option Handler) (m : Machine) (u0 u : URL) :
  URL_new (or_string (opt_serverURL options) "https://oast.site") = Some u0 ->
  URL_new (target options) = Some u ->
  encodePublicKey = None ->
  initialize options interactionCallbackParam m =
  (Throw CryptoError,
   {| client := established options interactionCallbackParam u
                  (client m) (world m);
      world := seeded options (world m) |}).
Proof.
  intros H0 Hu Hkey.
  destruct options as [oU oT oL oN oS oK].
  unfold target, established, seeded, assigned_id, assigned_key,
    assigned_token, after_id, after_token, resumed_id, resumed_key,
    id_length, key_length in *.
  simpl in *.
  run_initialize. rewrite H0. simpl.
  destruct interactionCallbackParam as [h |], oS as [session0 |]; simpl;
    rewrite ?Hu, ?Hkey; simpl; try rewrite H0 in Hu;
    try (injection Hu as ->); reflexivity.
Qed.

(** *** Registering *)

(** X28.  [performRegistration], which the service exposes, throws
    "Server URL is not defined" and changes nothing when there is no
    server URL.  Answered 200 it sets the state to Idle whatever the state
    was and leaves the cancellation flag alone.  On a client that was
    Polling this orphans the loop: the flag is still clear, so the loop
    takes its next turn, while [stopPolling] now throws "not polling". *)
Theorem performRegistration_outcomes (payload : Json) (m : Machine) :
  (serverURL (client m) = None ->
   performRegistration payload m = (Throw ServerURLUndefined, m)) /\
  (forall u registerURL data rest,
      serverURL (client m) = Some u ->
      URL_new_base "/register" (URL_toString u) = Some registerURL ->
      network (world m) = Response 200 data :: rest ->
      let m' := snd (performRegistration payload m) in
      fst (performRegistration payload m) = Ok tt /\
      state (client m') = Idle /\
      quitPollingFlag (client m') = quitPollingFlag (client m) /\
      (state (client m) = Polling ->
       quitPollingFlag (client m) = false ->
       stopPolling m' = (Throw NotPolling, m') /\
       forall callback, fst (pollingLoop_turn callback m') = Ok true)).
Proof.
  split.
  - intros H. unfold performRegistration. unfold_monad. rewrite H.
    reflexivity.
  - intros u registerURL data rest Hs Hr Hn m'. subst m'.
    rewrite (performRegistration_succeeds payload m u registerURL data rest
               Hs Hr Hn).
    cbn [fst snd client state quitPollingFlag set_state].
    split; [reflexivity |]. split; [reflexivity |]. split; [reflexivity |].
    intros _ Hf. split.
    + unfold stopPolling. unfold_monad. reflexivity.
    + intros callback. rewrite pollingLoop_turn_runs by exact Hf.
      reflexivity.
Qed.

End Properties.

(** * Properties of the view *)

Section ViewProperties.

Context {P : Platform} {B : View.Browser}.

Import UseLogic.

Ltac unfold_view :=
  unfold View.bind, View.done, View.fail, View.get, View.update in *.

Ltac unfold_monad :=
  unfold bind, ret, throw, try_catch, read, write, effect, console_error in *.

(** ** The table *)

Lemma rows_done (items : list View.Response) (index : Z)
    (table : list View.Row) :
  rows index items = View.Done table ->
  List.length table = List.length items /\
  forall i row,
    nth_error table i = Some row ->
    View.req row = (index + Z.of_nat i + 1)%Z /\
    exists item name,
      nth_error items i = Some item /\
      View.protocol item = Some (JStr name) /\
      View.type row = View.toUpperCase name /\
      View.toISOString (View.timestamp item) = Some (View.dateTime row) /\
      View.payload row = View.fullId item /\
      View.source row = View.remoteAddress item.
Proof.
  revert index table. induction items as [| item rest IH]; intros index table.
  - simpl. intros H. injection H as <-. split; [reflexivity |].
    intros [| i] row H; discriminate.
  - simpl.
    destruct (View.toISOString (View.timestamp item)) as [date |] eqn:D;
      [| discriminate].
    destruct (View.protocol item) as [[| | | name | |] |] eqn:N;
      try discriminate.
    destruct (rows (index + 1) rest) as [l | e] eqn:R; [| discriminate].
    intros H. injection H as <-.
    destruct (IH _ _ R) as (L & Hrows).
    split; [simpl; rewrite L; reflexivity |].
    intros [| i] row Hrow.
    + injection Hrow as <-. simpl. split; [lia |].
      exists item, name. repeat split; auto.
    + simpl in Hrow. destruct (Hrows i row Hrow) as (Q & item' & name' & K).
      split; [rewrite Q; lia |].
      exists item', name'. exact K.
Qed.

Lemma rows_failed (items : list View.Response) (index : Z) (e : View.Failure) :
  rows index items = View.Failed e ->
  exists item,
    In item items /\
    (e = View.RangeError /\ View.toISOString (View.timestamp item) = None \/
     e = View.TypeError /\
     forall name, View.protocol item <> Some (JStr name)).
Proof.
  revert index. induction items as [| item rest IH]; intros index.
  - discriminate.
  - simpl.
    destruct (View.toISOString (View.timestamp item)) as [date |] eqn:D.
    + destruct (View.protocol item) as [[| | | name | |] |] eqn:N;
        try (intros H; injection H as <-; exists item;
             split; [left; reflexivity |]; right;
             split; [reflexivity |]; intros name; rewrite N; discriminate).
      destruct (rows (index + 1) rest) as [l | e'] eqn:R; [discriminate |].
      intros H. injection H as <-.
      destruct (IH _ R) as (item' & I & K).
      exists item'. split; [right; exact I | exact K].
    + intros H. injection H as <-. exists item.
      split; [left; reflexivity |]. left. split; [reflexivity | exact D].
Qed.

Lemma rows_bad_item (items : list View.Response) (index : Z)
    (item : View.Response) :
  In item items ->
  View.toISOString (View.timestamp item) = None \/
  (forall name, View.protocol item <> Some (JStr name)) ->
  exists e, rows index items = View.Failed e.
Proof.
  revert index. induction items as [| item' rest IH]; intros index I Bad.
  - destruct I.
  - simpl.
    destruct (View.toISOString (View.timestamp item')) as [date |] eqn:D;
      [| eauto].
    destruct (View.protocol item') as [[| | | name | |] |] eqn:N; eauto.
    destruct I as [-> | I].
    + destruct Bad as [Bad | Bad]; [congruence |].
      exfalso. apply (Bad name). exact N.
    + destruct (IH (index + 1)%Z I Bad) as (e & ->). eauto.
Qed.

(** X19.  The table has a row for every interaction received, in the
    order of arrival and numbered from 1, showing the date of its
    timestamp in ISO form, its protocol in upper case, its full id and its
    remote address.  It does so only when every interaction has a valid
    date and a string for a protocol: one interaction whose timestamp is no
    valid date, or whose protocol is missing or no string, makes the
    computation of the whole table throw. *)
Theorem tableData_rows (v : View.Cells) :
  (forall table,
      tableData v = View.Done table ->
      List.length table = List.length (View.sourceData v) /\
      forall i row,
        nth_error table i = Some row ->
        View.req row = (Z.of_nat i + 1)%Z /\
        exists item name,
          nth_error (View.sourceData v) i = Some item /\
          View.protocol item = Some (JStr name) /\
          View.type row = View.toUpperCase name /\
          View.toISOString (View.timestamp item) = Some (View.dateTime row) /\
          View.payload row = View.fullId item /\
          View.source row = View.remoteAddress item) /\
  (forall e,
      tableData v = View.Failed e ->
      exists item,
        In item (View.sourceData v) /\
        (e = View.RangeError /\
         View.toISOString (View.timestamp item) = None \/
         e = View.TypeError /\
         forall name, View.protocol item <> Some (JStr name))) /\
  (forall item,
      In item (View.sourceData v) ->
      View.toISOString (View.timestamp item) = None \/
      (forall name, View.protocol item <> Some (JStr name)) ->
      exists e, tableData v = View.Failed e).
Proof.
  unfold tableData. split; [| split].
  - intros table H. apply rows_done in H. exact H.
  - intros e H. apply rows_failed in H. exact H.
  - intros item I Bad. apply (rows_bad_item _ _ item I Bad).
Qed.

(** ** Selecting and clearing *)

Section Preserved.

Context {X : Type} (g : View.Cells -> X).

Lemma preserved_done {A : Type} (a : A) : preserved g (View.done a).
Proof. intros v; reflexivity. Qed.

Lemma preserved_fail {A : Type} (e : View.Failure) :
  preserved g (@View.fail _ _ A e).
Proof. intros v; reflexivity. Qed.

Lemma preserved_get : preserved g View.get.
Proof. intros v; reflexivity. Qed.

Lemma preserved_update (f : View.Cells -> View.Cells) :
  (forall v, g (f v) = g v) -> preserved g (View.update f).
Proof. intros H v. apply H. Qed.

Lemma preserved_bind {A C : Type} (c : View.V A) (k : A -> View.V C) :
  preserved g c -> (forall a, preserved g (k a)) ->
  preserved g (View.bind c k).
Proof.
  intros Hc Hk v. unfold View.bind. specialize (Hc v).
  destruct (c v) as [[a | e] v1]; simpl in *; [| exact Hc].
  rewrite Hk. exact Hc.
Qed.

Lemma preserved_replace_document (ref : View.Cells -> option View.EditorView)
    (set : option View.EditorView -> View.Cells -> View.Cells)
    (text : option Json) :
  (forall e v, g (set e v) = g v) ->
  preserved g (replace_document ref set text).
Proof.
  intros H v. unfold replace_document. unfold_view.
  destruct (ref v) as [editor |]; simpl; [| reflexivity].
  destruct (View.dispatch _ editor); simpl; [apply H | reflexivity].
Qed.

End Preserved.

(** Proves [preserved] by following the structure of the function. *)
Ltac preserved_step :=
  first
    [ apply preserved_done | apply preserved_fail | apply preserved_get
    | apply preserved_update; intro; reflexivity
    | apply preserved_replace_document; intros; reflexivity
    | match goal with
      | |- preserved _ (View.bind _ _) => apply preserved_bind; [| intro]
      | |- preserved _ (match ?x with _ => _ end) => destruct x eqn:?
      | |- preserved _ (if ?x then _ else _) => destruct x eqn:?
      end ].

Ltac preserved_auto := repeat preserved_step.

(** [onSelectedData] writes the two editor refs and nothing else. *)
Lemma onSelectedData_frame {X : Type} (g : View.Cells -> X)
    (selectedData : option View.Response) :
  (forall e v, g (View.set_responseEditorRef e v) = g v) ->
  (forall e v, g (View.set_requestEditorRef e v) = g v) ->
  preserved g (onSelectedData selectedData).
Proof.
  intros H1 H2. unfold onSelectedData.
  apply preserved_bind; [| intro];
    apply preserved_replace_document; assumption.
Qed.

(** The cells [onRowClick] leaves, whether its editors took the change
    or not. *)
Lemma onRowClick_cells (n : number) (v : View.Cells) :
  let v' := snd (onRowClick n v) in
  View.selectedRow v' = element (View.sourceData v) n /\
  View.cachedRow v' = element (View.sourceData v) n /\
  View.QuickSSRFBtnCount v' = 0%Z /\
  View.badge v' = (View.badge v ++ [0%Z])%list /\
  View.sourceData v' = View.sourceData v.
Proof.
  cbv zeta. unfold onRowClick, setCount. unfold_view. simpl.
  match goal with
  | |- context [onSelectedData ?d ?v0] =>
      rewrite (onSelectedData_frame View.selectedRow d) by reflexivity;
      rewrite (onSelectedData_frame View.cachedRow d) by reflexivity;
      rewrite (onSelectedData_frame View.QuickSSRFBtnCount d) by reflexivity;
      rewrite (onSelectedData_frame View.badge d) by reflexivity;
      rewrite (onSelectedData_frame View.sourceData d) by reflexivity
  end.
  repeat split.
Qed.

Lemma element_nth (data : list View.Response) (i : nat) :
  element data (Num (Z.of_nat i + 1)) = nth_error data i.
Proof.
  unfold element.
  destruct (Z.leb_spec 1 (Z.of_nat i + 1)); [| lia].
  replace (Z.of_nat i + 1 - 1)%Z with (Z.of_nat i) by lia.
  rewrite Nat2Z.id. reflexivity.
Qed.

(** X20.  A click on a row of the table selects the interaction the row
    was made from: for the row at position [i], [onRowClick] on its [req]
    leaves in [selectedRow] and in [cachedRow] the interaction at position
    [i], whose full id and remote address the row shows; it resets the
    count of the badge to 0 and leaves the interactions as they are.
    This holds also when the click throws because an editor is not
    mounted, which it does before it has written an editor. *)
Theorem row_click_round_trip (v : View.Cells) (table : list View.Row)
    (i : nat) (row : View.Row) :
  tableData v = View.Done table ->
  nth_error table i = Some row ->
  let v' := snd (onRowClick (Num (View.req row)) v) in
  (exists item,
      nth_error (View.sourceData v) i = Some item /\
      View.selectedRow v' = Some item /\
      View.cachedRow v' = Some item /\
      View.payload row = View.fullId item /\
      View.source row = View.remoteAddress item) /\
  View.QuickSSRFBtnCount v' = 0%Z /\
  View.badge v' = (View.badge v ++ [0%Z])%list /\
  View.sourceData v' = View.sourceData v /\
  tableData v' = View.Done table /\
  (View.responseEditorRef v = None ->
   fst (onRowClick (Num (View.req row)) v) = View.Failed View.TypeError /\
   View.requestEditorRef v' = View.requestEditorRef v).
Proof.
  intros Ht Hrow v'.
  destruct (rows_done _ _ _ Ht) as (_ & Hrows).
  destruct (Hrows i row Hrow) as (Q & item & name & Hi & _ & _ & _ & Hp & Hs).
  destruct (onRowClick_cells (Num (View.req row)) v) as (S & C & N & Bd & D).
  fold v' in S, C, N, Bd, D.
  replace (View.req row) with (Z.of_nat i + 1)%Z in S, C by lia.
  rewrite element_nth, Hi in S, C.
  split; [exists item; auto |].
  split; [exact N |]. split; [exact Bd |]. split; [exact D |].
  split; [unfold tableData in *; rewrite D; exact Ht |].
  intros He. subst v'.
  unfold onRowClick, setCount, onSelectedData, replace_document.
  unfold_view. simpl. rewrite He. simpl. split; reflexivity.
Qed.

(** The cells [onClearData] leaves in any case. *)
Lemma onClearData_cells (v : View.Cells) :
  let v' := snd (onClearData v) in
  View.sourceData v' = [] /\
  View.cachedRow v' = None /\
  View.selectedRow v' = View.selectedRow v /\
  View.clientService v' = View.clientService v /\
  View.outside v' = View.outside v.
Proof.
  cbv zeta.
  assert (K : forall (X : Type) (g : View.Cells -> X),
             (forall e v, g (View.set_responseEditorRef e v) = g v) ->
             (forall e v, g (View.set_requestEditorRef e v) = g v) ->
             (forall n v, g (View.set_QuickSSRFBtnCount n v) = g v) ->
             (forall l v, g (View.set_badge l v) = g v) ->
             forall v0,
               g (snd (onClearData v0)) =
               g (View.set_cachedRow None (View.set_sourceData [] v0))).
  { intros X g H1 H2 H3 H4 v0. unfold onClearData.
    unfold View.bind at 1. unfold View.update at 1.
    unfold View.bind at 1. unfold View.update at 1.
    match goal with
    | |- g (snd (?c ?v1)) = _ =>
        assert (Pr : preserved g c); [| apply Pr]
    end.
    unfold setCount.
    repeat first
      [ apply preserved_done | apply preserved_get
      | apply preserved_update; intro; first [apply H3 | apply H4]
      | apply preserved_replace_document; first [exact H1 | exact H2]
      | match goal with
        | |- preserved _ (View.bind _ _) => apply preserved_bind; [| intro]
        | |- preserved _ (if ?x then _ else _) => destruct x
        end ]. }
  rewrite (K _ View.sourceData), (K _ View.cachedRow), (K _ View.selectedRow),
    (K _ View.clientService), (K _ View.outside) by reflexivity.
  repeat split.
Qed.

(** X21.  [onClearData] empties the interactions and forgets the cached
    row in any case, so that the table is empty and a click on a row
    still shown selects nothing; it does not reset [selectedRow].  When it
    returns, both editors were there and took the change to an empty
    document, and the badge was reset, with a [setCount], exactly when its
    count was above 0.  When it throws, for an editor that is not mounted
    or a view that throws, the count and the badge are as before. *)
Theorem onClearData_outcomes (v : View.Cells) :
  let v' := snd (onClearData v) in
  View.sourceData v' = [] /\
  View.cachedRow v' = None /\
  View.selectedRow v' = View.selectedRow v /\
  tableData v' = View.Done [] /\
  (forall n, View.selectedRow (snd (onRowClick n v')) = None) /\
  (fst (onClearData v) = View.Done tt ->
   (exists response response' request request',
       View.responseEditorRef v = Some response /\
       View.dispatch
         {| View.from := 0; View.to := View.doc_length response;
            View.insert := Some (JStr EmptyString) |} response
         = Some response' /\
       View.responseEditorRef v' = Some response' /\
       View.requestEditorRef v = Some request /\
       View.dispatch
         {| View.from := 0; View.to := View.doc_length request;
            View.insert := Some (JStr EmptyString) |} request
         = Some request' /\
       View.requestEditorRef v' = Some request') /\
   View.QuickSSRFBtnCount v' =
     (if (0 <? View.QuickSSRFBtnCount v)%Z
      then 0%Z else View.QuickSSRFBtnCount v) /\
   View.badge v' =
     if (0 <? View.QuickSSRFBtnCount v)%Z
     then (View.badge v ++ [0%Z])%list else View.badge v) /\
  (fst (onClearData v) <> View.Done tt ->
   View.QuickSSRFBtnCount v' = View.QuickSSRFBtnCount v /\
   View.badge v' = View.badge v).
Proof.
  intros v'.
  destruct (onClearData_cells v) as (D & C & S & _). fold v' in D, C, S.
  split; [exact D |]. split; [exact C |]. split; [exact S |].
  split; [unfold tableData; rewrite D; reflexivity |].
  split.
  { intros n. destruct (onRowClick_cells n v') as (Sel & _).
    cbv zeta in Sel. rewrite Sel, D. unfold element.
    destruct n as [z |]; [| reflexivity].
    destruct (1 <=? z)%Z; [| reflexivity].
    destruct (Z.to_nat (z - 1)); reflexivity. }
  subst v'. clear D C S.
  unfold onClearData, setCount, replace_document. unfold_view. simpl.
  destruct (View.responseEditorRef v) as [response |] eqn:E1; simpl.
  2: { split; [intros F; discriminate F | intros _; split; reflexivity]. }
  destruct (View.dispatch _ response) as [response' |] eqn:D1; simpl.
  2: { split; [intros F; discriminate F | intros _; split; reflexivity]. }
  destruct (View.requestEditorRef v) as [request |] eqn:E2; simpl.
  2: { split; [intros F; discriminate F | intros _; split; reflexivity]. }
  destruct (View.dispatch _ request) as [request' |] eqn:D2; simpl.
  2: { split; [intros F; discriminate F | intros _; split; reflexivity]. }
  destruct (0 <? View.QuickSSRFBtnCount v)%Z; simpl.
  - split; [| intros F; elim F; reflexivity]. intros _.
    split; [exists response, response', request, request';
            repeat split; assumption |].
    split; reflexivity.
  - split; [| intros F; elim F; reflexivity]. intros _.
    split; [exists response, response', request, request';
            repeat split; assumption |].
    split; reflexivity.
Qed.

(** ** Interactions that arrive *)

Lemma parseDnsResponse_total (interaction : Json) :
  interaction <> JNull ->
  exists response, parseDnsResponse interaction = View.Done response.
Proof.
  intros N. unfold parseDnsResponse, reading.
  destruct interaction; try (eexists; reflexivity).
  contradiction.
Qed.

Lemma addToSourceData_run (response : View.Response) (v : View.Cells) :
  addToSourceData response v =
  (View.Done tt,
   View.set_sourceData (View.sourceData v ++ [response])%list
     (View.set_badge (View.badge v ++ [View.QuickSSRFBtnCount v + 1])%Z%list
        (View.set_QuickSSRFBtnCount (View.QuickSSRFBtnCount v + 1) v))).
Proof. reflexivity. Qed.

(** X22.  The callback the view hands to the service throws on a null
    record and on nothing else, and then it has changed nothing.  On any
    other record it appends one interaction to the table's data, raises
    the count of the badge by one and tells the badge; what it keeps of an
    object are the values under the eight keys it reads, a key the object
    lacks giving [undefined]. *)
Theorem onInteraction_outcomes (interaction : Json) (v : View.Cells) :
  let v' := snd (onInteraction interaction v) in
  (interaction = JNull ->
   onInteraction interaction v = (View.Failed View.TypeError, v) /\
   callback interaction <> None) /\
  (interaction <> JNull ->
   callback interaction = None /\
   fst (onInteraction interaction v) = View.Done tt /\
   View.QuickSSRFBtnCount v' = (View.QuickSSRFBtnCount v + 1)%Z /\
   View.badge v' = (View.badge v ++ [View.QuickSSRFBtnCount v + 1])%Z%list /\
   exists response,
     View.sourceData v' = (View.sourceData v ++ [response])%list /\
     forall fields,
       interaction = JObj fields ->
       View.protocol response = Js.lookup "protocol" fields /\
       View.uniqueId response = Js.lookup "unique-id" fields /\
       View.fullId response = Js.lookup "full-id" fields /\
       View.qType response = Js.lookup "q-type" fields /\
       View.rawRequest response = Js.lookup "raw-request" fields /\
       View.rawResponse response = Js.lookup "raw-response" fields /\
       View.remoteAddress response = Js.lookup "remote-address" fields /\
       View.timestamp response = Js.lookup "timestamp" fields).
Proof.
  cbv zeta. split.
  - intros ->. split; [reflexivity | discriminate].
  - intros N. unfold onInteraction, callback.
    destruct (parseDnsResponse_total interaction N) as (response & E).
    rewrite E, addToSourceData_run. simpl.
    repeat (split; [reflexivity |]).
    exists response. split; [reflexivity |].
    intros fields ->. unfold parseDnsResponse, reading in E. simpl in E.
    injection E as <-. simpl. repeat split.
Qed.

(** What the records handed to the callback leave in the cells. *)
Lemma absorb_cells (records : list Json) (v : View.Cells) :
  let v' := absorb records v in
  View.sourceData v' = (View.sourceData v ++ kept records)%list /\
  View.QuickSSRFBtnCount v' =
    (View.QuickSSRFBtnCount v + Z.of_nat (List.length (kept records)))%Z /\
  View.clientService v' = View.clientService v /\
  View.outside v' = View.outside v /\
  View.copied v' = View.copied v /\
  View.toasts v' = View.toasts v /\
  View.selectedRow v' = View.selectedRow v /\
  View.cachedRow v' = View.cachedRow v.
Proof.
  cbv zeta. revert v. induction records as [| r l IH]; intros v.
  - unfold kept. simpl. rewrite app_nil_r, Z.add_0_r. repeat split.
  - unfold absorb in *. cbn [fold_left]. unfold kept in *. cbn [flat_map].
    unfold onInteraction at 2 4 6 8 10 12 14 16.
    destruct (parseDnsResponse r) as [response | e].
    + rewrite addToSourceData_run. cbn [snd].
      destruct (IH (View.set_sourceData (View.sourceData v ++ [response])%list
                      (View.set_badge
                         (View.badge v ++ [View.QuickSSRFBtnCount v + 1])%Z%list
                         (View.set_QuickSSRFBtnCount
                            (View.QuickSSRFBtnCount v + 1) v))))
        as (S & C & K & O & Cp & T & Sel & Ca).
      rewrite S, C, K, O, Cp, T, Sel, Ca. cbn.
      rewrite <- app_assoc. cbn.
      repeat split. lia.
    + cbn [snd View.fail]. destruct (IH v) as (S & C & K & O & Cp & T & Sel & Ca).
      rewrite S, C, K, O, Cp, T, Sel, Ca. cbn. repeat split.
Qed.

Lemma kept_all (records : list Json) :
  Forall (fun record => callback record = None) records ->
  List.length (kept records) = List.length records.
Proof.
  intros H. induction H as [| r l Hr Hl IH]; [reflexivity |].
  unfold kept in *. cbn [flat_map]. unfold callback in Hr.
  destruct (parseDnsResponse r); [| discriminate].
  cbn. rewrite IH. reflexivity.
Qed.

Lemma skipn_past {A : Type} (l r : list A) :
  skipn (List.length l) (l ++ r)%list = r.
Proof. induction l as [| a l IH]; [reflexivity | exact IH]. Qed.

Lemma cells_eta (v : View.Cells) (c : Client) :
  View.clientService v = Some c ->
  View.set_outside (View.outside v) (View.set_clientService (Some c) v) = v.
Proof. intros H. destruct v. simpl in *. subst. reflexivity. Qed.

(** A method of the service, run from the view. *)
Lemma service_run {A : Type} (method : M A) (v : View.Cells) (c : Client) :
  View.clientService v = Some c ->
  let m := {| client := c; world := View.outside v |} in
  service method v =
  (match fst (method m) with
   | Ok a => View.Done a
   | Throw e => View.Failed (View.ServiceError e)
   end,
   absorb
     match interactionCallback c with
     | Some _ =>
         skipn (List.length (calls (View.outside v)))
           (calls (world (snd (method m))))
     | None => []
     end
     (View.set_outside (world (snd (method m)))
        (View.set_clientService (Some (client (snd (method m)))) v))).
Proof.
  intros H m. unfold service. rewrite H. fold m.
  destruct (method m) as [r m']. reflexivity.
Qed.

(** X23.  A manual poll answered 200 with items that all decode to
    records other than null brings every one of them into the table: the
    data grows by one interaction per item, in the order of the array, and
    the count of the badge by their number.  [onManualPoll] returns
    normally and the cells of the client are as they were. *)
Theorem onManualPoll_adds_rows (v : View.Cells) (c : Client) (url : URL)
    (fields : list (string * Json)) (items : list Json)
    (answers : list HttpResult) :
  View.clientService v = Some c ->
  state c = Polling ->
  interactionCallback c = Some callback ->
  URL_new_base (poll_path c) (base_of c) = Some url ->
  network (View.outside v) = Response 200 (JObj fields) :: answers ->
  Js.lookup "data" fields = Some (JArr items) ->
  Forall (fun item =>
            item_failure callback (Js.lookup "aes_key" fields) item = None)
    items ->
  let records := flat_map (delivered_of (Js.lookup "aes_key" fields)) items in
  let v' := snd (onManualPoll v) in
  fst (onManualPoll v) = View.Done tt /\
  View.sourceData v' = (View.sourceData v ++ kept records)%list /\
  List.length (kept records) = List.length items /\
  View.QuickSSRFBtnCount v' =
    (View.QuickSSRFBtnCount v + Z.of_nat (List.length items))%Z /\
  View.clientService v' = Some c /\
  sent (View.outside v') =
    (sent (View.outside v) ++ [poll_request c url])%list /\
  network (View.outside v') = answers.
Proof.
  intros Hc Hs Hcb Hu Hn Hd Hall records v'.
  destruct (delivered_records callback _ items Hall) as (Len & Good).
  fold records in Len, Good.
  assert (K : List.length (kept records) = List.length items).
  { rewrite kept_all by exact Good. exact Len. }
  set (m := {| client := c; world := View.outside v |}).
  assert (E : poll m =
              (Ok tt,
               {| client := c;
                  world := deliver_all records
                             (W.take_response
                                (W.send (poll_request c url)
                                   (View.outside v))) |})).
  { rewrite (poll_is_a_cycle m Hs). unfold handler_of. subst m. cbn [client].
    rewrite Hcb.
    apply (getInteractions_delivers callback
             {| client := c; world := View.outside v |} url fields items
             answers Hu Hn Hd Hall). }
  assert (R : onManualPoll v =
              (View.Done tt,
               absorb records
                 (View.set_outside
                    (deliver_all records
                       (W.take_response
                          (W.send (poll_request c url) (View.outside v))))
                    (View.set_clientService (Some c) v)))).
  { unfold onManualPoll. rewrite Hc.
    rewrite (service_run poll v c Hc). fold m. rewrite E. cbn [fst snd client world].
    rewrite Hcb.
    destruct (deliver_all_calls records
                (W.take_response
                   (W.send (poll_request c url) (View.outside v))))
      as (Cl & _).
    rewrite Cl. cbn [W.take_response W.send calls].
    rewrite skipn_past. reflexivity. }
  subst v'. rewrite R. cbn [fst snd].
  destruct (absorb_cells records
              (View.set_outside
                 (deliver_all records
                    (W.take_response
                       (W.send (poll_request c url) (View.outside v))))
                 (View.set_clientService (Some c) v)))
    as (S & C & Cs & O & _).
  rewrite S, C, Cs, O, K. cbn.
  destruct (deliver_all_calls records
              (W.take_response
                 (W.send (poll_request c url) (View.outside v))))
    as (_ & _ & Sn & Nw).
  rewrite Sn, Nw. cbn. rewrite Hn. repeat split.
Qed.

(** X24.  [onManualPoll] never throws.  Without a client service it does
    nothing.  On a client that is not Polling, be it stopped, closed or
    never started, the poll is refused and its rejection is dropped: the
    view is exactly as before, and no request was sent. *)
Theorem onManualPoll_refused (v : View.Cells) :
  fst (onManualPoll v) = View.Done tt /\
  (View.clientService v = None -> onManualPoll v = (View.Done tt, v)) /\
  (forall c,
      View.clientService v = Some c -> state c <> Polling ->
      onManualPoll v = (View.Done tt, v)).
Proof.
  split; [| split].
  - unfold onManualPoll. destruct (View.clientService v); reflexivity.
  - intros H. unfold onManualPoll. rewrite H. reflexivity.
  - intros c Hc Hs. unfold onManualPoll. rewrite Hc.
    rewrite (service_run poll v c Hc).
    assert (E : poll {| client := c; world := View.outside v |} =
                (Throw NotPolling, {| client := c; world := View.outside v |})).
    { apply State_eqb_neq in Hs. unfold poll. unfold_monad. cbn [client].
      rewrite Hs. reflexivity. }
    rewrite E. cbn [fst snd client world].
    rewrite skipn_all. rewrite (cells_eta v c Hc).
    destruct (interactionCallback c); reflexivity.
Qed.

(** ** The "generate" button *)

Lemma vbind_run {A C : Type} (c : View.V A) (k : A -> View.V C)
    (v v1 : View.Cells) (a : A) :
  c v = (View.Done a, v1) -> View.bind c k v = k a v1.
Proof. intros H. unfold View.bind. rewrite H. reflexivity. Qed.

Lemma draw_truthy (f : nat -> ascii) (from n : nat) :
  truthy_string (W.draw f from (S n)) = true.
Proof. reflexivity. Qed.


(** The cells after the two calls of the first click: [uuidv4], then
    [start]. *)
Lemma first_click_starts (v : View.Cells) :
  View.clientService v = None ->
  let t := W.draw (entropy (View.outside v)) (drawn (View.outside v)) 36 in
  let m :=
    {| client := useClientService;
       world := W.consume 36 (View.outside v) |} in
  let started := start (options t) (Some callback) m in
  (View.update (View.set_clientService (Some useClientService)) ;;
   token <- service uuidv4 ;;
   service (start (options token) (Some callback)))%view v =
  (match fst started with
   | Ok a => View.Done a
   | Throw e => View.Failed (View.ServiceError e)
   end,
   View.set_outside (world (snd started))
     (View.set_clientService (Some (client (snd started))) v)).
Proof.
  intros Hnone t m started.
  erewrite vbind_run by reflexivity.
  erewrite vbind_run.
  2: { rewrite (service_run uuidv4 _ useClientService) by reflexivity.
       reflexivity. }
  cbn [fst snd client world interactionCallback useClientService absorb
       fold_left uuidv4 random View.outside View.set_outside
       View.set_clientService].
  rewrite (service_run _ _ useClientService) by reflexivity.
  cbn [interactionCallback useClientService absorb fold_left View.outside
       View.set_outside View.set_clientService].
  fold t. fold m. fold started.
  destruct v. reflexivity.
Qed.


(** A click when the client service is there and [generateUrl] gives an
    address. *)
Lemma click_again_address (v : View.Cells) (c : Client) (id : string)
    (u : URL) :
  View.clientService v = Some c ->
  state c <> Closed ->
  correlationID c = Some id ->
  truthy_string id = true ->
  serverURL c = Some u ->
  let w := View.outside v in
  let n := length_of (correlationIdNonceLength c) in
  let address :=
    "https://" ++ id ++ W.draw (entropy w) (drawn w) n ++ "." ++ URL_host u in
  onGenerateClick v =
  (View.Done tt,
   View.set_toasts (View.toasts v ++ ["Copied URL to clipboard."])%list
     (View.set_copied (View.copied v ++ [address])%list
        (View.set_logged (View.logged v ++ [Some c])%list
           (View.set_outside (W.consume n w)
              (View.set_clientService (Some c) v))))).
Proof.
  intros Hc Hs Hid Ht Hu w n address.
  unfold onGenerateClick.
  erewrite vbind_run by reflexivity. cbv beta. rewrite Hc.
  erewrite vbind_run by reflexivity.
  erewrite vbind_run by reflexivity. cbv beta. rewrite Hc.
  erewrite vbind_run.
  2: { erewrite vbind_run.
       2: { rewrite (service_run generateUrl v c Hc).
            rewrite (generateUrl_run {| client := c; world := View.outside v |}
                       id u Hs Hid Ht Hu).
            cbn [fst snd client world W.consume calls].
            rewrite skipn_all.
            replace (match interactionCallback c with
                     | Some _ => []
                     | None => []
                     end) with (@nil Json)
              by (destruct (interactionCallback c); reflexivity).
            cbn [absorb fold_left]. reflexivity. }
       reflexivity. }
  reflexivity.
Qed.

(** A click when the client service is there and [generateUrl] gives
    nothing. *)
Lemma click_again_empty (v : View.Cells) (c : Client) :
  View.clientService v = Some c ->
  generateUrl {| client := c; world := View.outside v |} =
    (Ok EmptyString, {| client := c; world := View.outside v |}) ->
  onGenerateClick v =
  (View.Done tt, View.set_logged (View.logged v ++ [Some c])%list v).
Proof.
  intros Hc G.
  unfold onGenerateClick.
  erewrite vbind_run by reflexivity. cbv beta. rewrite Hc.
  erewrite vbind_run by reflexivity.
  erewrite vbind_run by reflexivity. cbv beta. rewrite Hc.
  erewrite vbind_run.
  2: { erewrite vbind_run.
       2: { rewrite (service_run generateUrl v c Hc). rewrite G.
            cbn [fst snd client world].
            rewrite skipn_all.
            replace (match interactionCallback c with
                     | Some _ => []
                     | None => []
                     end) with (@nil Json)
              by (destruct (interactionCallback c); reflexivity).
            cbn [absorb fold_left]. rewrite (cells_eta v c Hc).
            reflexivity. }
       reflexivity. }
  unfold console_log. unfold_view. cbn. rewrite Hc. reflexivity.
Qed.

(** X26.  Once the client service exists, a click on "generate" never
    starts or registers anything: it sends no request and leaves the
    client as it is.  It copies an address, under the correlation id and
    with a nonce newly drawn, and shows its toast exactly when the client
    is not closed and has a correlation id and a server; otherwise it
    copies nothing and shows no toast, and still returns normally. *)
Theorem later_clicks_only_generate (v : View.Cells) (c : Client) :
  View.clientService v = Some c ->
  let w := View.outside v in
  let n := length_of (correlationIdNonceLength c) in
  let v' := snd (onGenerateClick v) in
  fst (onGenerateClick v) = View.Done tt /\
  View.clientService v' = Some c /\
  sent (View.outside v') = sent w /\
  network (View.outside v') = network w /\
  loops (View.outside v') = loops w /\
  (forall id u,
      state c <> Closed -> correlationID c = Some id ->
      truthy_string id = true -> serverURL c = Some u ->
      View.copied v' =
        (View.copied v
         ++ [("https://" ++ id ++ W.draw (entropy w) (drawn w) n ++ "."
              ++ URL_host u)%string])%list /\
      View.toasts v' = (View.toasts v ++ ["Copied URL to clipboard."])%list /\
      drawn (View.outside v') = drawn w + n) /\
  (state c = Closed \/ correlationID c = None \/
   correlationID c = Some EmptyString \/ serverURL c = None ->
   View.copied v' = View.copied v /\
   View.toasts v' = View.toasts v /\
   drawn (View.outside v') = drawn w).
Proof.
  intros Hc w n v'.
  assert (Cases :
            (exists id u,
                state c <> Closed /\ correlationID c = Some id /\
                truthy_string id = true /\ serverURL c = Some u) \/
            (state c = Closed \/ correlationID c = None \/
             correlationID c = Some EmptyString \/ serverURL c = None)).
  { destruct (State_eqb (state c) Closed) eqn:S;
      [apply State_eqb_eq in S; auto | apply State_eqb_neq in S].
    destruct (correlationID c) as [[| a id] |]; auto.
    destruct (serverURL c) as [u |]; auto.
    left. exists (String a id), u. auto. }
  destruct Cases as [(id & u & Hs & Hid & Ht & Hu) | Hempty].
  - subst v'. rewrite (click_again_address v c id u Hc Hs Hid Ht Hu).
    cbn -[W.draw append].
    do 5 (split; [reflexivity |]). split.
    + intros id' u' _ Hid' _ Hu'.
      rewrite Hid in Hid'. rewrite Hu in Hu'.
      injection Hid' as <-. injection Hu' as <-.
      split; [reflexivity |]. split; reflexivity.
    + intros [H | [H | [H | H]]]; try congruence.
      rewrite Hid in H. injection H as ->. discriminate.
  - assert (G : generateUrl {| client := c; world := View.outside v |} =
                (Ok EmptyString, {| client := c; world := View.outside v |})).
    { unfold generateUrl. unfold_monad. cbn [client].
      destruct (correlationID c) as [id |]; [| reflexivity].
      destruct (serverURL c) as [u |]; [| reflexivity].
      destruct Hempty as [H | [H | [H | H]]]; try discriminate.
      - rewrite H. reflexivity.
      - injection H as ->. rewrite orb_true_r. reflexivity. }
    subst v'. rewrite (click_again_empty v c Hc G).
    cbn -[W.draw append].
    do 5 (split; [first [exact Hc | reflexivity] |]). split.
    + intros id u Hs Hid Ht Hu.
      destruct Hempty as [H | [H | [H | H]]]; try congruence.
      rewrite Hid in H. injection H as ->. discriminate.
    + intros _. split; [reflexivity |]. split; reflexivity.
Qed.

(** X27.  A first click whose [start] throws is not made up for.  When
    the crypto service has no public key, the first click fails before
    any request, with nothing copied, but it leaves the client service in
    place, initialized and Idle.  The next click then finds a client and
    does not start it: it registers nothing, yet copies an address under
    a correlation id the server was never told and shows the toast of
    success; a manual poll on that client is refused without a trace. *)
Theorem failed_start_is_not_retried (v : View.Cells) (u : URL) :
  View.clientService v = None ->
  URL_new "https://oast.site" = Some u ->
  encodePublicKey = None ->
  let w := View.outside v in
  let id := W.draw (entropy w) (drawn w + 36) 20 in
  let nonce := W.draw (entropy w) (drawn w + 69) 13 in
  let v1 := snd (onGenerateClick v) in
  let v2 := snd (onGenerateClick v1) in
  fst (onGenerateClick v) = View.Failed (View.ServiceError CryptoError) /\
  View.copied v1 = View.copied v /\
  View.toasts v1 = View.toasts v /\
  (exists c,
      View.clientService v1 = Some c /\ state c = Idle /\
      correlationID c = Some id) /\
  fst (onGenerateClick v1) = View.Done tt /\
  sent (View.outside v2) = sent w /\
  network (View.outside v2) = network w /\
  View.copied v2 =
    (View.copied v
     ++ [("https://" ++ id ++ nonce ++ "." ++ URL_host u)%string])%list /\
  View.toasts v2 = (View.toasts v ++ ["Copied URL to clipboard."])%list /\
  onManualPoll v2 = (View.Done tt, v2).
Proof.
  intros Hnone H0 Hkey w id nonce v1 v2.
  set (t := W.draw (entropy w) (drawn w) 36).
  set (m := {| client := useClientService; world := W.consume 36 w |}).
  set (c := established (options t) (Some callback) u (client m) (world m)).
  set (w1 := seeded (options t) (world m)).
  assert (E1 : onGenerateClick v =
               (View.Failed (View.ServiceError CryptoError),
                View.set_outside w1 (View.set_clientService (Some c) v))).
  { unfold onGenerateClick.
    erewrite vbind_run by reflexivity. cbv beta. rewrite Hnone.
    unfold View.bind at 1.
    rewrite (first_click_starts v Hnone). fold w. fold t. fold m.
    unfold start.
    rewrite (initialize_keyless (options t) (Some callback) m u u H0 H0 Hkey).
    reflexivity. }
  assert (Hid : correlationID c = Some id).
  { subst c id m. unfold established, assigned_id, after_token, resumed_id,
      id_length, chosen, used, options.
    cbn -[W.draw]. rewrite Nat.add_0_r. reflexivity. }
  assert (Hw1 : w1 = W.consume 33 (W.consume 36 w)).
  { subst w1 m t. unfold seeded, after_id, after_token, resumed_id,
      resumed_key, id_length, key_length, used, options, W.consume.
    cbn -[W.draw]. rewrite (draw_truthy _ _ 35). f_equal. lia. }
  assert (E2 : onGenerateClick v1 =
               (View.Done tt,
                View.set_toasts
                  (View.toasts v ++ ["Copied URL to clipboard."])%list
                  (View.set_copied
                     (View.copied v
                      ++ [("https://" ++ id ++ nonce ++ "."
                           ++ URL_host u)%string])%list
                     (View.set_logged (View.logged v ++ [Some c])%list
                        (View.set_outside (W.consume 13 w1)
                           (View.set_clientService (Some c) v)))))).
  { subst v1. rewrite E1. cbn [snd].
    rewrite (click_again_address _ c id u); try reflexivity.
    - cbn [View.outside View.set_outside View.set_clientService
           View.copied View.toasts View.logged].
      rewrite Hw1. cbn -[W.draw].
      replace (drawn w + 36 + 33) with (drawn w + 69) by lia.
      destruct v. reflexivity.
    - discriminate.
    - exact Hid. }
  subst v2. rewrite E2. subst v1. rewrite E1. cbn [fst snd].
  split; [reflexivity |]. split; [reflexivity |]. split; [reflexivity |].
  split; [exists c; repeat split; exact Hid |].
  split; [reflexivity |].
  cbn. rewrite Hw1. cbn.
  split; [reflexivity |]. split; [reflexivity |].
  split; [reflexivity |]. split; [reflexivity |].
  rewrite skipn_all. reflexivity.
Qed.

End ViewProperties.

(** * Runs on the fake platform *)

#[local] Existing Instance Fake.platform.

(** Splits a conjunction into its parts. *)
Ltac parts := intros; repeat match goal with |- _ /\ _ => split end.

(** Settles a closed statement by evaluation. *)
Ltac evaluate :=
  vm_compute; first [reflexivity | discriminate | lia | exact I | auto].

(** C1, counterexample.  A client is registered, closed, and then leaves
    Closed: [startPolling] moves it to Polling, [initialize] to Idle. *)
Lemma closed_is_left :
  let registered := Scenario.registered [Response 200 JNull; Response 200 JNull] in
  let closed := Scenario.closed [Response 200 JNull] in
  state (client registered) = Idle /\
  state (client (snd (close registered))) = Closed /\
  state (client closed) = Closed /\
  state (client (after (StartPolling defaultInteractionHandler) closed)) = Polling /\
  state (client (after (Initialize no_options None) closed)) = Idle.
Proof. parts; evaluate. Qed.

(** [lifecycle_transitions] at [startPolling] on a closed client. *)
Lemma lifecycle_transitions_witness :
  let closed := Scenario.closed [] in
  lifecycle (StartPolling defaultInteractionHandler) = true /\
  state (client closed) = Closed /\
  state (client (after (StartPolling defaultInteractionHandler) closed)) = Polling.
Proof.
  intros closed. split; [reflexivity |]. split; [evaluate |].
  apply (proj1 (proj2 (proj2 (proj2 (proj2
           (lifecycle_transitions (StartPolling defaultInteractionHandler)
              closed eq_refl)))))) with (callback := defaultInteractionHandler);
    evaluate.
Defined.

(** C2, counterexample.  [poll] answered 401 and [poll] answered 500 both
    return normally, neither throws the authentication error, and they
    leave alike the five cells the service exposes: their caller cannot
    tell them apart. *)
Lemma refused_polls_look_alike :
  let m401 := Scenario.polling [Response 401 JNull] in
  let m500 := Scenario.polling [Response 500 JNull] in
  fst (poll m401) = Ok tt /\
  fst (poll m401) <> Throw AuthenticationFailed /\
  fst (poll m401) = fst (poll m500) /\
  state (client (snd (poll m401))) = state (client (snd (poll m500))) /\
  correlationID (client (snd (poll m401))) =
    correlationID (client (snd (poll m500))) /\
  secretKey (client (snd (poll m401))) = secretKey (client (snd (poll m500))) /\
  serverURL (client (snd (poll m401))) = serverURL (client (snd (poll m500))) /\
  token (client (snd (poll m401))) = token (client (snd (poll m500))).
Proof. parts; evaluate. Qed.

(** [poll_refused] on a polling client answered 401. *)
Lemma poll_refused_witness :
  let m := Scenario.polling [Response 401 JNull] in
  let m' := snd (getInteractions defaultInteractionHandler m) in
  calls (world m') = calls (world m) /\
  console (world m') =
    (console (world m) ++ [ErrorPollingInteractionsLog AuthenticationFailed])%list.
Proof.
  intros m m'.
  unshelve epose proof (poll_refused defaultInteractionHandler m
              ("oast.site",
               "/poll?id=klmnopqrstuvwxyzabcd&secret=efghijklmnopq")
              401 JNull [] _ _ _)
    as T; [evaluate .. |].
  destruct T as (_ & Hcalls & Hlog & _).
  split; [exact Hcalls | exact Hlog].
Defined.

(** [decode_failure_mid_batch] on a batch of three items, the second of
    which is not JSON, followed by a 401 answer. *)
Lemma decode_failure_mid_batch_witness :
  let m := Scenario.polling [Scenario.batch; Response 401 JNull] in
  calls (world (snd (pollingLoop_turn defaultInteractionHandler m))) =
    (calls (world m) ++ [Fake.dns_record])%list /\
  fst (pollingLoop 2 defaultInteractionHandler m) = Ok true /\
  network (world (snd (pollingLoop 2 defaultInteractionHandler m))) =
    tl [Response 401 JNull].
Proof.
  intros m.
  unshelve epose proof
    (decode_failure_mid_batch defaultInteractionHandler m
       ("oast.site", "/poll?id=klmnopqrstuvwxyzabcd&secret=efghijklmnopq")
       [("data",
         JArr [JStr (JSON_stringify Fake.dns_record); JStr "junk";
               JStr (JSON_stringify Fake.http_record)]);
        ("aes_key", JStr "c2hhcmVk")]
       (JStr (JSON_stringify Fake.dns_record)) (JStr "junk")
       [JStr (JSON_stringify Fake.http_record)]
       Fake.dns_record [Response 401 JNull] _ _ _ _ _ _ _)
    as T; [evaluate .. |].
  destruct T as (_ & Hcalls & _ & _ & Hrun & _ & Hnet).
  parts; assumption.
Defined.

(** [close_outcomes] on a registered client whose deregistration is
    answered 500. *)
Lemma close_outcomes_witness :
  let m := Scenario.registered [Response 500 JNull] in
  state (client m) = Idle /\
  fst (close m) = Throw (DeregisterFailed JNull) /\
  client (snd (close m)) = client m.
Proof.
  intros m. split; [evaluate |].
  apply (proj1 (proj2 (proj2 (close_outcomes m)))
           ("oast.site", "/deregister") 500%Z JNull []); evaluate.
Defined.



(** C7, counterexample.  From the interval 5000 of a new client,
    [initialize] under the keep-alive interval -1 leaves the interval
    -1. *)
Lemma interval_made_negative :
  let m := Fake.fresh [Response 200 JNull] in
  let options := Scenario.keep_alive_options (Num (-1)) in
  Number.positive (pollingInterval (client m)) /\
  fst (initialize options None m) = Ok tt /\
  pollingInterval (client (after (Initialize options None) m)) = Num (-1) /\
  ~ Number.positive (pollingInterval (client (after (Initialize options None) m))).
Proof.
  parts; evaluate.
Qed.

(** [polling_interval_positive] at [initialize] under a keep-alive
    interval of 30000 and at [setRefreshTimeSecond] on 5. *)
Lemma polling_interval_positive_witness :
  let m := Fake.fresh [Response 200 JNull] in
  Number.positive
    (pollingInterval
       (client (after (Initialize (Scenario.keep_alive_options (Num 30000)) None) m))) /\
  pollingInterval (client (after (SetRefreshTimeSecond (Num 5)) m)) =
    Num (5 * 1000).
Proof.
  intros m. split.
  - apply (proj1 polling_interval_positive).
    + evaluate.
    + simpl. intros interval H _. injection H as <-. evaluate.
  - apply (proj1 (proj2 polling_interval_positive) 5%Z m). lia.
Defined.



(** C9, counterexample.  The object a registered client exports has five
    keys, [privateKey] among them, and its text is not the text of the
    four-key object of the same values. *)
Lemma saved_session_has_five_keys :
  let m := Scenario.registered [] in
  let exported :=
    json_of_session
      (session ("oast.site", "/") "klmnopqrstuvwxyzabcd" "efghijklmnopq"
         (client m)) in
  fst (saveSession m) = Ok (JSON_stringify exported) /\
  Js.keys exported =
    ["serverURL"; "token"; "privateKey"; "correlationID"; "secretKey"] /\
  fst (saveSession m) <>
    Ok (JSON_stringify
          (Scenario.four_keys "https://oast.site/"
             "abcdefghijklmnopqrstuvwxyzabcdefghij" "klmnopqrstuvwxyzabcd"
             "efghijklmnopq")).
Proof. parts; evaluate. Qed.

(** [saveSession_exports] on a registered client. *)
Lemma saveSession_exports_witness :
  let m := Scenario.registered [] in
  exists u id key,
    serverURL (client m) = Some u /\
    correlationID (client m) = Some id /\
    secretKey (client m) = Some key.
Proof.
  intros m.
  destruct (proj2 (proj2 (saveSession_exports m))
              (JSON_stringify
                 (json_of_session
                    (@session Fake.platform ("oast.site", "/")
                       "klmnopqrstuvwxyzabcd"
"efghijklmnopq" (client m)))))
    as (u & id & key & Hu & Hid & Hkey & _); [evaluate |].
  exists u, id, key. parts; assumption.
Defined.

(** [empty_identifiers_are_replaced] on a session to resume that is
    blank. *)
Lemma empty_identifiers_are_replaced_witness :
  let m := Fake.fresh [Response 200 JNull] in
  let options := resume_options Scenario.blank_session in
  let m' := snd (initialize options None m) in
  (exists fresh,
      correlationID (client m') = Some fresh /\
      String.length fresh =
        length_of (Number.or_default (opt_correlationIdLength options) (Num 20))) /\
  token (client m') = Some EmptyString.
Proof.
  intros m options m'.
  destruct (empty_identifiers_are_replaced options None m
              Scenario.blank_session eq_refl)
    as (Hid & _ & Htoken).
  destruct (Hid eq_refl) as (id & Eid & _ & Lid).
  split; [exists id; split; assumption |].
  apply (Htoken eq_refl ("oast.site", "/")). evaluate.
Defined.

(** ** Runs of the further properties *)

#[local] Existing Instance Desk.browser.

(** [startPolling_twice] on a registered client. *)
Lemma startPolling_twice_witness :
  let m := Scenario.registered [] in
  let m1 := snd (startPolling defaultInteractionHandler m) in
  state (client m) <> Polling /\
  fst (startPolling defaultInteractionHandler m) = Ok tt /\
  startPolling defaultInteractionHandler m1 = (Throw AlreadyPolling, m1).
Proof.
  intros m m1.
  assert (H : state (client m) <> Polling) by evaluate.
  destruct (startPolling_twice defaultInteractionHandler
              defaultInteractionHandler m) as (T & _ & _ & N).
  split; [exact H |]. split; [exact (proj1 (N H)) | exact T].
Defined.

(** [stopPolling_cancels] on a polling client. *)
Lemma stopPolling_cancels_witness :
  let m := Scenario.polling [] in
  state (client m) = Polling /\
  state (client (snd (stopPolling m))) = Idle /\
  quitPollingFlag (client (snd (stopPolling m))) = true.
Proof.
  intros m.
  assert (H : state (client m) = Polling) by evaluate.
  destruct (proj2 (stopPolling_cancels m) H) as (_ & S & F & _).
  split; [exact H |]. split; [exact S | exact F].
Defined.


(** [poll_outcomes] on a client that is registered and not polling. *)
Lemma poll_outcomes_witness :
  let m := Scenario.registered [] in
  state (client m) <> Polling /\ fst (poll m) = Throw NotPolling.
Proof.
  intros m.
  assert (H : state (client m) <> Polling) by evaluate.
  split; [exact H |].
  rewrite (proj1 (poll_outcomes m) H). reflexivity.
Defined.

(** [poll_cycle_delivers_in_order] on an answer with two items. *)
Lemma poll_cycle_delivers_in_order_witness :
  let items :=
    [JStr (JSON_stringify Fake.dns_record);
     JStr (JSON_stringify Fake.http_record)] in
  let m := Scenario.polling [Response 200 (Fake.envelope items)] in
  calls (world (snd (getInteractions defaultInteractionHandler m))) =
    [Fake.dns_record; Fake.http_record].
Proof.
  intros items m.
  unshelve epose proof
    (poll_cycle_delivers_in_order defaultInteractionHandler m
       ("oast.site", "/poll?id=klmnopqrstuvwxyzabcd&secret=efghijklmnopq")
       [("data", JArr items); ("aes_key", JStr "c2hhcmVk")] items []
       _ _ _ _) as T.
  1-3: evaluate.
  { repeat constructor. }
  destruct T as (C & _). rewrite C. evaluate.
Defined.

(** [poll_cycle_stops_at_first_failure] on the batch whose second item is
    not JSON. *)
Lemma poll_cycle_stops_at_first_failure_witness :
  let m := Scenario.polling [Scenario.batch] in
  let m' := snd (getInteractions defaultInteractionHandler m) in
  calls (world m') = [Fake.dns_record] /\
  console (world m') = [ErrorPollingInteractionsLog JsonSyntaxError].
Proof.
  intros m m'.
  unshelve epose proof
    (poll_cycle_stops_at_first_failure defaultInteractionHandler m
       ("oast.site", "/poll?id=klmnopqrstuvwxyzabcd&secret=efghijklmnopq")
       [("data",
         JArr [JStr (JSON_stringify Fake.dns_record); JStr "junk";
               JStr (JSON_stringify Fake.http_record)]);
        ("aes_key", JStr "c2hhcmVk")]
       [JStr (JSON_stringify Fake.dns_record)]
       [JStr (JSON_stringify Fake.http_record)]
       (JStr "junk") JsonSyntaxError [] _ _ _ _ _) as T.
  1-3: evaluate.
  { repeat constructor. }
  { evaluate. }
  destruct T as (_ & C & L). fold m' in C, L.
  split; [rewrite C | rewrite L]; evaluate.
Defined.

(** [poll_cycle_without_items] on a 200 answer whose body is null. *)
Lemma poll_cycle_without_items_witness :
  let m := Scenario.polling [Response 200 JNull] in
  console (world (snd (getInteractions defaultInteractionHandler m))) =
    (console (world m) ++ [ErrorPollingInteractionsLog NullDereference])%list.
Proof.
  intros m.
  unshelve epose proof
    (poll_cycle_without_items defaultInteractionHandler m
       ("oast.site", "/poll?id=klmnopqrstuvwxyzabcd&secret=efghijklmnopq")
       JNull [] _ _) as T; [evaluate .. |].
  destruct T as (_ & _ & N). exact (proj2 (N eq_refl)).
Defined.

(** [close_request] on a registered client whose request is rejected. *)
Lemma close_request_witness :
  let m := Scenario.registered [Rejected "offline"] in
  state (client m) = Idle /\
  fst (close m) = Throw (TransportError "offline") /\
  client (snd (close m)) = client m.
Proof.
  intros m.
  assert (H : state (client m) = Idle) by evaluate.
  split; [exact H |].
  apply (proj2 (close_request m H) ("oast.site", "/deregister")); evaluate.
Defined.

(** [stop_outcomes] on a polling client whose deregistration is
    answered 500. *)
Lemma stop_outcomes_witness :
  let m := Scenario.polling [Response 500 JNull] in
  state (client m) = Polling /\
  quitPollingFlag (client (snd (stop m))) = true /\
  state (client (snd (stop m))) = Idle.
Proof.
  intros m.
  assert (H : state (client m) = Polling) by evaluate.
  destruct (proj2 (proj2 (stop_outcomes m)) H) as (_ & F & _ & I).
  split; [exact H |]. split; [exact F |]. apply I. evaluate.
Defined.

(** [pollingLoop_runs] for three turns, two of them answered. *)
Lemma pollingLoop_runs_witness :
  let m := Scenario.polling [Response 401 JNull; Response 500 JNull] in
  fst (pollingLoop 3 defaultInteractionHandler m) = Ok true /\
  network (world (snd (pollingLoop 3 defaultInteractionHandler m))) = [].
Proof.
  intros m.
  unshelve epose proof
    (pollingLoop_runs 3 defaultInteractionHandler m
       ("oast.site", "/poll?id=klmnopqrstuvwxyzabcd&secret=efghijklmnopq")
       _ _) as T; [evaluate .. |].
  destruct T as (R & _ & _ & N).
  split; [exact R |]. rewrite N. reflexivity.
Defined.

(** [refresh_applies_to_next_sleep] at ten seconds. *)
Lemma refresh_applies_to_next_sleep_witness :
  let m := Scenario.polling [] in
  let m1 := snd (setRefreshTimeSecond (Num 10) m) in
  timers (world (snd (pollingLoop_turn defaultInteractionHandler m1))) =
    [Num 10000].
Proof.
  intros m m1.
  unshelve epose proof
    (refresh_applies_to_next_sleep 10 defaultInteractionHandler m _ _) as T;
    [lia | evaluate |].
  destruct T as (_ & S). fold m1 in S. rewrite S. evaluate.
Defined.

(** [initialize_invalid_server_URL] on a server URL without a scheme. *)
Lemma initialize_invalid_server_URL_witness :
  let m := Fake.fresh [] in
  let m' := snd (initialize Desk.schemeless None m) in
  fst (initialize Desk.schemeless None m) = Throw InvalidURL /\
  serverURL (client m') = None /\
  correlationID (client m') = Some "klmnopqrstuvwxyzabcd".
Proof.
  intros m m'.
  unshelve epose proof
    (initialize_invalid_server_URL Desk.schemeless None m _) as T;
    [evaluate |].
  destruct T as (R & _ & I & _ & S & _). fold m' in I, S.
  split; [exact R |]. split; [rewrite S | rewrite I]; evaluate.
Defined.

(** [initialize_invalid_session_URL] on a session whose URL is no URL. *)
Lemma initialize_invalid_session_URL_witness :
  let m := Fake.fresh [] in
  let options := resume_options Desk.lost_session in
  let m' := snd (initialize options None m) in
  fst (initialize options None m) = Throw InvalidURL /\
  token (client m') = Some "t0" /\
  sent (world m') = [].
Proof.
  intros m options m'.
  unshelve epose proof
    (initialize_invalid_session_URL options None m Desk.lost_session
       ("oast.site", "/") _ _ _) as T; [evaluate .. |].
  destruct T as (R & _ & Tk & _ & _ & _ & _ & S). fold m' in Tk, S.
  split; [exact R |]. split; [exact Tk |]. rewrite S. reflexivity.
Defined.

(** [initialize_without_public_key] on the platform without a key. *)
Lemma initialize_without_public_key_witness :
  let m :=
    {| client := @useClientService Desk.keyless;
       world := Fake.world_with [Response 200 JNull] |} in
  fst (initialize no_options None m) = Throw CryptoError /\
  sent (world (snd (initialize no_options None m))) = [].
Proof.
  intros m.
  unshelve epose proof
    (@initialize_without_public_key Desk.keyless no_options None m
       ("oast.site", "/") ("oast.site", "/") _ _ _ _) as T; [evaluate .. |].
  destruct T as (R & _ & S & _).
  split; [exact R |]. rewrite S. reflexivity.
Defined.

(** [initialize_starts_polling] on a registration answered 500. *)
Lemma initialize_starts_polling_witness :
  let m := Fake.fresh [Response 500 JNull] in
  let options := Scenario.keep_alive_options (Num 30000) in
  let m' := snd (initialize options None m) in
  state (client m) <> Polling /\
  state (client m') = Polling /\
  pollingInterval (client m') = Num 30000.
Proof.
  intros m options m'.
  assert (H : state (client m) <> Polling) by evaluate.
  unshelve epose proof
    (initialize_starts_polling options None m ("oast.site", "/")
       ("oast.site", "/") ("oast.site", "/register") "cHVibGljLWtleQ=="
       (Num 30000) _ _ _ _ _ _ _) as T; [evaluate .. |].
  destruct T as (I & N & _). fold m' in I, N.
  split; [exact H |]. split; [exact (proj1 (proj2 (N H))) | exact I].
Defined.


(** [setRefreshTimeSecond_outcomes] at four seconds. *)
Lemma setRefreshTimeSecond_outcomes_witness :
  let m := Scenario.polling [] in
  fst (setRefreshTimeSecond (Num 4) m) = Throw IntervalOutOfRange.
Proof.
  intros m.
  rewrite (proj1 (setRefreshTimeSecond_outcomes (Num 4) m)); [reflexivity |].
  left. lia.
Defined.

(** [tableData_rows] on a view that received one DNS interaction. *)
Lemma tableData_rows_witness :
  UseLogic.tableData Desk.received = View.Done [Desk.dns_row] /\
  List.length [Desk.dns_row] = List.length (View.sourceData Desk.received).
Proof.
  assert (H : UseLogic.tableData Desk.received = View.Done [Desk.dns_row])
    by evaluate.
  split; [exact H |].
  exact (proj1 (proj1 (tableData_rows Desk.received) [Desk.dns_row] H)).
Defined.

(** [row_click_round_trip] on the one row of that view. *)
Lemma row_click_round_trip_witness :
  let v' :=
    snd (UseLogic.onRowClick (Num (View.req Desk.dns_row)) Desk.received) in
  View.selectedRow v' = nth_error (View.sourceData Desk.received) 0 /\
  View.QuickSSRFBtnCount v' = 0%Z.
Proof.
  intros v'.
  unshelve epose proof
    (row_click_round_trip Desk.received [Desk.dns_row] 0 Desk.dns_row _ _)
    as T; [evaluate .. |].
  destruct T as ((item & Hi & Hs & _) & N & _).
  split; [| exact N].
  fold v' in Hs. rewrite Hs, Hi. reflexivity.
Defined.

(** [onClearData_outcomes] on that view. *)
Lemma onClearData_outcomes_witness :
  let v' := snd (UseLogic.onClearData Desk.received) in
  fst (UseLogic.onClearData Desk.received) = View.Done tt /\
  View.sourceData v' = [] /\
  View.badge v' = [1%Z; 0%Z].
Proof.
  intros v'.
  assert (H : fst (UseLogic.onClearData Desk.received) = View.Done tt)
    by evaluate.
  destruct (onClearData_outcomes Desk.received) as (D & _ & _ & _ & _ & R & _).
  destruct (R H) as (_ & _ & Bd). fold v' in D, Bd.
  split; [exact H |]. split; [exact D |]. rewrite Bd. evaluate.
Defined.

(** [onInteraction_outcomes] on a DNS interaction. *)
Lemma onInteraction_outcomes_witness :
  let v := Desk.mounted [] in
  Desk.dns_interaction <> JNull /\
  UseLogic.callback Desk.dns_interaction = None /\
  View.QuickSSRFBtnCount (snd (UseLogic.onInteraction Desk.dns_interaction v))
    = 1%Z.
Proof.
  intros v.
  assert (H : Desk.dns_interaction <> JNull) by discriminate.
  destruct (proj2 (onInteraction_outcomes Desk.dns_interaction v) H)
    as (C & _ & N & _).
  split; [exact H |]. split; [exact C |]. rewrite N. evaluate.
Defined.

(** [onManualPoll_adds_rows] on a poll answered with one item. *)
Lemma onManualPoll_adds_rows_witness :
  let items := [JStr (JSON_stringify Fake.dns_record)] in
  let v := Desk.generated [Response 200 (Fake.envelope items)] in
  let v' := snd (UseLogic.onManualPoll v) in
  List.length (View.sourceData v') = 1 /\
  View.QuickSSRFBtnCount v' = 1%Z.
Proof.
  intros items v v'.
  unshelve epose proof
    (onManualPoll_adds_rows v (Desk.client_of v)
       ("oast.site", "/poll?id=klmnopqrstuvwxyzabcd&secret=efghijklmnopq")
       [("data", JArr items); ("aes_key", JStr "c2hhcmVk")] items []
       _ _ _ _ _ _ _) as T.
  { unfold Desk.client_of.
    assert (F : option_map state (View.clientService v) = Some Polling)
      by evaluate.
    destruct (View.clientService v); [reflexivity | discriminate F]. }
  1-5: evaluate.
  { repeat constructor. }
  destruct T as (_ & S & K & N & _). fold v' in S, N.
  split; [rewrite S, length_app, K; evaluate | rewrite N; evaluate].
Defined.

(** [onManualPoll_refused] on a view without a client service. *)
Lemma onManualPoll_refused_witness :
  let v := Desk.mounted [] in
  View.clientService v = None /\
  UseLogic.onManualPoll v = (View.Done tt, v).
Proof.
  intros v.
  assert (H : View.clientService v = None) by reflexivity.
  split; [exact H |].
  exact (proj1 (proj2 (onManualPoll_refused v)) H).
Defined.


(** [later_clicks_only_generate] on a second click. *)
Lemma later_clicks_only_generate_witness :
  let v := Desk.generated [] in
  let v' := snd (UseLogic.onGenerateClick v) in
  fst (UseLogic.onGenerateClick v) = View.Done tt /\
  sent (View.outside v') = sent (View.outside v).
Proof.
  intros v v'.
  unshelve epose proof
    (later_clicks_only_generate v (Desk.client_of v) _) as T.
  { unfold Desk.client_of.
    assert (F : option_map state (View.clientService v) = Some Polling)
      by evaluate.
    destruct (View.clientService v); [reflexivity | discriminate F]. }
  destruct T as (R & _ & S & _).
  split; [exact R | exact S].
Defined.

(** [failed_start_is_not_retried] on the platform without a key. *)
Lemma failed_start_is_not_retried_witness :
  let v := Desk.keyless_view in
  let v1 := snd (UseLogic.onGenerateClick v) in
  let v2 := snd (UseLogic.onGenerateClick v1) in
  fst (UseLogic.onGenerateClick v) =
    View.Failed (View.ServiceError CryptoError) /\
  sent (View.outside v2) = [] /\
  View.copied v2 = ["https://klmnopqrstuvwxyzabcdrstuvwxyzabcd.oast.site"].
Proof.
  intros v v1 v2.
  unshelve epose proof
    (@failed_start_is_not_retried Desk.keyless Desk.browser v
       ("oast.site", "/") _ _ _) as T; [reflexivity | evaluate .. |].
  destruct T as (R & _ & _ & _ & _ & S & _ & C & _). fold v1 v2 in S, C.
  split; [exact R |]. split; [rewrite S | rewrite C]; evaluate.
Defined.

(** [performRegistration_outcomes] on a polling client that registers
    again. *)
Lemma performRegistration_outcomes_witness :
  let m := Scenario.polling [Response 200 JNull] in
  let m' := snd (performRegistration JNull m) in
  state (client m) = Polling /\
  state (client m') = Idle /\
  fst (stopPolling m') = Throw NotPolling /\
  fst (pollingLoop_turn defaultInteractionHandler m') = Ok true.
Proof.
  intros m m'.
  assert (H : state (client m) = Polling) by evaluate.
  unshelve epose proof
    (proj2 (performRegistration_outcomes JNull m) ("oast.site", "/")
       ("oast.site", "/register") JNull [] _ _ _) as T; [evaluate .. |].
  destruct T as (_ & I & _ & O). fold m' in I, O.
  unshelve epose proof (O H _) as (S & L); [evaluate |].
  split; [exact H |]. split; [exact I |].
  split; [rewrite S; reflexivity | exact (L defaultInteractionHandler)].
Defined.
